(** * secure-task-api: the authentication core, embedded and verified

    A shallow embedding of the Go sources

    - [internal/auth/jwt.go]       (JWTManager: issuing and validating tokens),
    - [internal/auth/password.go]  (HashPassword, CheckPassword),
    - [internal/middleware/middleware.go] (AuthMiddleware, bearerToken,
      unauthorized, StripTrailingSlash),
    - [pkg/utils/response.go] and [internal/handlers/auth.go] (Login,
      Register, Refresh),
    - [pkg/utils/request.go] (the query parameters of a request) and
      [internal/handlers/task.go] (ListTasks, DeleteTask),

    together with the parts of the Go standard library, golang-jwt/jwt/v5 and
    x/crypto/bcrypt that these functions call.

    Go strings and byte slices are sequences of bytes: they are Rocq [string]s
    (lists of 8-bit [ascii]).  Instants are integers counting nanoseconds since
    the Unix epoch, durations are integers counting nanoseconds.  A call of
    [time.Now()] is an explicit clock reading. *)

From Stdlib Require Import ZArith QArith Qround List String Ascii Bool Lia.
From Stdlib Require Import DecimalString Decimal DecimalZ.
From Stdlib Require Import Eqdep_dec.
Import ListNotations.

Close Scope Q_scope.
Open Scope string_scope.
Open Scope Z_scope.

Set Implicit Arguments.
Set Warnings "-register-all".

(* ================================================================== *)
(** * Go values: errors and fallible results *)
(* ================================================================== *)

(** Go's [error]: a message, possibly wrapping a cause ([fmt.Errorf] with
    [%w], or the joined errors of the jwt package). *)
Inductive error : Type :=
| errorString (msg : string)
| wrapError (msg : string) (cause : error).

(** A Go function returning [(T, error)]: either the value and a nil error,
    or the zero value and an error. *)
Inductive result (A : Type) : Type :=
| Ok (a : A)
| Err (e : error).

Arguments Ok {A} a.
Arguments Err {A} e.

Definition bind {A B : Type} (r : result A) (k : A -> result B) : result B :=
  match r with
  | Ok a => k a
  | Err e => Err e
  end.

Definition mapErr {A : Type} (f : error -> error) (r : result A) : result A :=
  match r with
  | Ok a => Ok a
  | Err e => Err (f e)
  end.

Definition isOk {A : Type} (r : result A) : bool :=
  match r with
  | Ok _ => true
  | Err _ => false
  end.

Declare Scope result_scope.
Delimit Scope result_scope with result.
Notation "x <- r ;; k" := (bind r (fun x => k))
  (at level 61, r at next level, right associativity) : result_scope.
Notation "' p <- r ;; k" := (bind r (fun x => let p := x in k))
  (at level 61, p pattern, r at next level, right associativity) : result_scope.

(** [errors.Is(err, target)] for the two shapes above. *)
Fixpoint error_eqb (a b : error) : bool :=
  match a, b with
  | errorString m, errorString n => String.eqb m n
  | wrapError m c, wrapError n d => String.eqb m n && error_eqb c d
  | _, _ => false
  end.

Fixpoint errors_Is (err target : error) : bool :=
  error_eqb err target ||
  match err with
  | errorString _ => false
  | wrapError _ cause => errors_Is cause target
  end.

(* ================================================================== *)
(** * Package strings *)
(* ================================================================== *)

Module strings.

(** The byte with the given code. *)
Definition byte (n : N) : ascii := ascii_of_N n.

Definition code (c : ascii) : N := N_of_ascii c.

(** The slice expressions [s[:n]] and [s[n:]], for [n] within bounds. *)
Fixpoint take (n : nat) (s : string) : string :=
  match n, s with
  | S n', String c s' => String c (take n' s')
  | _, _ => EmptyString
  end.

Fixpoint drop (n : nat) (s : string) : string :=
  match n, s with
  | S n', String _ s' => drop n' s'
  | _, _ => s
  end.

(** [strings.HasPrefix(s, prefix)]. *)
Fixpoint HasPrefix (s prefix : string) {struct prefix} : bool :=
  match prefix, s with
  | EmptyString, _ => true
  | String p prefix', String c s' => Ascii.eqb p c && HasPrefix s' prefix'
  | String _ _, EmptyString => false
  end.

(** The byte [c] does not occur in [s]. *)
Fixpoint absent (c : ascii) (s : string) : bool :=
  match s with
  | EmptyString => true
  | String x s' => negb (Ascii.eqb c x) && absent c s'
  end.

(** Every byte of [s] satisfies [p]. *)
Fixpoint allBytes (p : ascii -> bool) (s : string) : bool :=
  match s with
  | EmptyString => true
  | String c rest => p c && allBytes p rest
  end.

(** [strings.Repeat(s, count)]. *)
Fixpoint Repeat (s : string) (count : nat) : string :=
  match count with
  | O => EmptyString
  | S n => s ++ Repeat s n
  end.

(** [strings.Cut(s, sep)]: the text before and after the first instance of
    [sep], when there is one. *)
Fixpoint Cut (s sep : string) : option (string * string) :=
  if HasPrefix s sep
  then Some (EmptyString, drop (String.length sep) s)
  else match s with
       | EmptyString => None
       | String c s' =>
           match Cut s' sep with
           | Some (before, after) => Some (String c before, after)
           | None => None
           end
       end.

(** [strings.SplitN(s, sep, n)] for a non-empty separator and [n > 0]: at most
    [n] substrings, the last one the unsplit remainder. *)
Fixpoint SplitN (s sep : string) (n : nat) : list string :=
  match n with
  | O => []
  | S O => [s]
  | S n' =>
      match Cut s sep with
      | None => [s]
      | Some (before, after) => before :: SplitN after sep n'
      end
  end.

(** [strings.Split(s, sep)] for a non-empty separator: all substrings. *)
Definition Split (s sep : string) : list string :=
  SplitN s sep (S (String.length s)).

(** The six ASCII bytes of [asciiSpace]. *)
Definition asciiSpace (c : ascii) : bool :=
  match code c with
  | 9%N | 10%N | 11%N | 12%N | 13%N | 32%N => true
  | _ => false
  end.

(** The UTF-8 encodings of the code points for which [unicode.IsSpace] holds
    beyond ASCII: U+0085, U+00A0, U+1680, U+2000..U+200A, U+2028, U+2029,
    U+202F, U+205F, U+3000. *)
Definition bytes2 (x y : N) : string :=
  String (byte x) (String (byte y) "").

Definition bytes3 (x y z : N) : string :=
  String (byte x) (String (byte y) (String (byte z) "")).

Definition unicodeSpaces : list string :=
  [ bytes2 194 133; bytes2 194 160; bytes3 225 154 128;
    bytes3 226 128 128; bytes3 226 128 129; bytes3 226 128 130;
    bytes3 226 128 131; bytes3 226 128 132; bytes3 226 128 133;
    bytes3 226 128 134; bytes3 226 128 135; bytes3 226 128 136;
    bytes3 226 128 137; bytes3 226 128 138;
    bytes3 226 128 168; bytes3 226 128 169; bytes3 226 128 175;
    bytes3 226 129 159; bytes3 227 128 128 ].

(** The number of bytes of the space rune [s] starts with, if it starts with
    one. *)
Definition leadingSpace (s : string) : option nat :=
  match s with
  | EmptyString => None
  | String c _ =>
      if asciiSpace c then Some 1%nat
      else match find (fun u => HasPrefix s u) unicodeSpaces with
           | Some u => Some (String.length u)
           | None => None
           end
  end.

Fixpoint TrimLeft_fuel (fuel : nat) (s : string) : string :=
  match fuel with
  | O => s
  | S fuel' =>
      match leadingSpace s with
      | Some n => TrimLeft_fuel fuel' (drop n s)
      | None => s
      end
  end.

Definition TrimLeftSpace (s : string) : string :=
  TrimLeft_fuel (String.length s) s.

Definition rev (s : string) : string :=
  string_of_list_ascii (List.rev (list_ascii_of_string s)).

(** The number of bytes of the space rune [s] ends with; [r] is [s]
    reversed. *)
Definition trailingSpace (r : string) : option nat :=
  match r with
  | EmptyString => None
  | String c _ =>
      if asciiSpace c then Some 1%nat
      else match find (fun u => HasPrefix r (rev u)) unicodeSpaces with
           | Some u => Some (String.length u)
           | None => None
           end
  end.

Fixpoint TrimRight_fuel (fuel : nat) (r : string) : string :=
  match fuel with
  | O => r
  | S fuel' =>
      match trailingSpace r with
      | Some n => TrimRight_fuel fuel' (drop n r)
      | None => r
      end
  end.

Definition TrimRightSpace (s : string) : string :=
  rev (TrimRight_fuel (String.length s) (rev s)).

(** [strings.TrimSpace(s)]: [s] without leading and trailing white space, as
    Unicode defines it. *)
Definition TrimSpace (s : string) : string :=
  TrimRightSpace (TrimLeftSpace s).

End strings.

(* ================================================================== *)
(** * Package time *)
(* ================================================================== *)

Module time.

(** An instant: nanoseconds since the Unix epoch. *)
Definition Time : Type := Z.

(** An elapsed time in nanoseconds. *)
Definition Duration : Type := Z.

Definition Nanosecond : Duration := 1.
Definition Second : Duration := 1000000000.
Definition Minute : Duration := 60 * Second.
Definition Hour : Duration := 60 * Minute.

Definition Add (t : Time) (d : Duration) : Time := t + d.

Definition Before (t u : Time) : bool := t <? u.

Definition After (t u : Time) : bool := u <? t.

(** [t.Truncate(d)]: [t] rounded down to a multiple of [d]; [t] itself when
    [d <= 0]. *)
Definition Truncate (t : Time) (d : Duration) : Time :=
  if d <=? 0 then t else t - t mod d.

(** [t.Unix()]: whole seconds since the epoch. *)
Definition Unix (t : Time) : Z := t / Second.

(** [time.Unix(sec, 0)]. *)
Definition FromUnix (sec : Z) : Time := sec * Second.

(** [t.MarshalJSON()] writes the instant with the RFC 3339 layout in the
    zone of the process; the calendar is not part of this development. *)
Class Layout : Type := {
  RFC3339Nano : Time -> string
}.

End time.

(* ================================================================== *)
(** * Package encoding/base64 *)
(* ================================================================== *)

Module base64.

(** An encoding is its alphabet of 64 characters. *)
Definition Encoding : Type := string.

Definition encodeURL : Encoding :=
  "ABCDEFGHIJKLMNOPQRSTUVWXYZabcdefghijklmnopqrstuvwxyz0123456789-_".

(** Six bits, the most significant first. *)
Definition sextet : Type := (bool * bool * bool * bool * bool * bool)%type.

Definition bit (b : bool) (w : nat) : nat := if b then w else 0%nat.

Definition index (x : sextet) : nat :=
  let '(b5, b4, b3, b2, b1, b0) := x in
  (bit b5 32 + bit b4 16 + bit b3 8 + bit b2 4 + bit b1 2 + bit b0 1)%nat.

Definition sextetOf (n : nat) : sextet :=
  (Nat.testbit n 5, Nat.testbit n 4, Nat.testbit n 3,
   Nat.testbit n 2, Nat.testbit n 1, Nat.testbit n 0).

Definition char (enc : Encoding) (x : sextet) : ascii :=
  match String.get (index x) enc with
  | Some c => c
  | None => Ascii.zero
  end.

Fixpoint indexOf (c : ascii) (enc : string) : option nat :=
  match enc with
  | EmptyString => None
  | String d enc' =>
      if Ascii.eqb c d then Some 0%nat else option_map S (indexOf c enc')
  end.

Definition value (enc : Encoding) (c : ascii) : option sextet :=
  option_map sextetOf (indexOf c enc).

(** The bits of [src] six at a time: three bytes give four sextets, a rest of
    one byte two sextets, a rest of two bytes three; the last sextet is filled
    with zero bits. *)
Fixpoint sextets (src : string) : list sextet :=
  match src with
  | EmptyString => []
  | String (Ascii a0 a1 a2 a3 a4 a5 a6 a7) EmptyString =>
      [ (a7, a6, a5, a4, a3, a2); (a1, a0, false, false, false, false) ]
  | String (Ascii a0 a1 a2 a3 a4 a5 a6 a7)
      (String (Ascii b0 b1 b2 b3 b4 b5 b6 b7) EmptyString) =>
      [ (a7, a6, a5, a4, a3, a2); (a1, a0, b7, b6, b5, b4);
        (b3, b2, b1, b0, false, false) ]
  | String (Ascii a0 a1 a2 a3 a4 a5 a6 a7)
      (String (Ascii b0 b1 b2 b3 b4 b5 b6 b7)
         (String (Ascii c0 c1 c2 c3 c4 c5 c6 c7) rest)) =>
      (a7, a6, a5, a4, a3, a2) :: (a1, a0, b7, b6, b5, b4)
      :: (b3, b2, b1, b0, c7, c6) :: (c5, c4, c3, c2, c1, c0) :: sextets rest
  end.

Fixpoint chars (enc : Encoding) (xs : list sextet) : string :=
  match xs with
  | [] => EmptyString
  | x :: rest => String (char enc x) (chars enc rest)
  end.

(** [enc.EncodeToString(src)] without padding characters (RawStdEncoding,
    RawURLEncoding). *)
Definition EncodeToString (enc : Encoding) (src : string) : string :=
  chars enc (sextets src).

(** The decoder skips carriage returns and line feeds. *)
Definition isNewline (c : ascii) : bool :=
  match strings.code c with
  | 10%N | 13%N => true
  | _ => false
  end.

Fixpoint values (enc : Encoding) (s : string) : option (list sextet) :=
  match s with
  | EmptyString => Some []
  | String c s' =>
      if isNewline c then values enc s'
      else match value enc c, values enc s' with
           | Some x, Some xs => Some (x :: xs)
           | _, _ => None
           end
  end.

(** Four sextets give three bytes; at the end two sextets give one byte and
    three give two (the bits left over are dropped: the encodings here are not
    strict); a single sextet left over is corrupt input. *)
Fixpoint decodeQuanta (xs : list sextet) : option string :=
  match xs with
  | [] => Some EmptyString
  | [_] => None
  | [(a7, a6, a5, a4, a3, a2); (a1, a0, _, _, _, _)] =>
      Some (String (Ascii a0 a1 a2 a3 a4 a5 a6 a7) EmptyString)
  | [(a7, a6, a5, a4, a3, a2); (a1, a0, b7, b6, b5, b4); (b3, b2, b1, b0, _, _)] =>
      Some (String (Ascii a0 a1 a2 a3 a4 a5 a6 a7)
              (String (Ascii b0 b1 b2 b3 b4 b5 b6 b7) EmptyString))
  | (a7, a6, a5, a4, a3, a2) :: (a1, a0, b7, b6, b5, b4)
      :: (b3, b2, b1, b0, c7, c6) :: (c5, c4, c3, c2, c1, c0) :: rest =>
      match decodeQuanta rest with
      | Some s =>
          Some (String (Ascii a0 a1 a2 a3 a4 a5 a6 a7)
                  (String (Ascii b0 b1 b2 b3 b4 b5 b6 b7)
                     (String (Ascii c0 c1 c2 c3 c4 c5 c6 c7) s)))
      | None => None
      end
  end.

(** [enc.DecodeString(s)] for an encoding without padding. *)
Definition DecodeString (enc : Encoding) (s : string) : option string :=
  match values enc s with
  | Some xs => decodeQuanta xs
  | None => None
  end.

(** The bytes of a compact token: the URL alphabet and the full stop. *)
Definition tokenByte (c : ascii) : bool :=
  Ascii.eqb c "."%char
  || match indexOf c encodeURL with
     | Some _ => true
     | None => false
     end.

End base64.

(* ================================================================== *)
(** * Package encoding/json *)
(* ================================================================== *)

Module json.

(** A JSON document.  Numbers are rationals; an object keeps its members in
    the order of the text, repeated names included. *)
Inductive Value : Type :=
| JNull
| JBool (b : bool)
| JNumber (q : Q)
| JString (s : string)
| JArray (elems : list Value)
| JObject (members : list (string * Value)).

(** The text level of the package: [Marshal] of a document and [Unmarshal]
    into an [interface{}].  The scanner, the escaping of strings and the
    printing of numbers are not part of this development; [foldName] is the
    case folding under which [Unmarshal] matches an object's member names
    with a struct's field names when no field has the exact name. *)
Class Text : Type := {
  Marshal : Value -> string;
  Unmarshal : string -> option Value;
  foldName : string -> string
}.

(** A document survives the text level. *)
Definition roundtrips `{Text} (v : Value) : Prop :=
  Unmarshal (Marshal v) = Some v.

Definition SyntaxError : error := errorString "invalid character in JSON".

Definition UnmarshalTypeError : error :=
  errorString "json: cannot unmarshal value into Go value".

(** Decoding into a Go [string]: null leaves the field as it is. *)
Definition intoString (old : string) (v : Value) : result string :=
  match v with
  | JNull => Ok old
  | JString s => Ok s
  | _ => Err UnmarshalTypeError
  end.

(** Decoding into a Go [int]: a number with no fractional part. *)
Definition intoInt (old : Z) (v : Value) : result Z :=
  match v with
  | JNull => Ok old
  | JNumber q =>
      if Qeq_bool q (inject_Z (Qfloor q)) then Ok (Qfloor q)
      else Err UnmarshalTypeError
  | _ => Err UnmarshalTypeError
  end.

(** The field a member name selects among the JSON names of a struct's
    fields: the field of that very name, or else the first one equal to it
    under case folding. *)
Definition field `{Text} (names : list string) (key : string) : option string :=
  if existsb (String.eqb key) names then Some key
  else find (fun n => String.eqb (foldName n) (foldName key)) names.

(** Decoding an object into a struct: the members are stored one after the
    other with [set], those that select no field are skipped.  A value that
    is not an object is a type error, except null, which stores nothing. *)
Fixpoint storeMembers `{Text} {A : Type} (names : list string)
    (set : A -> string -> Value -> result A)
    (members : list (string * Value)) (a : A) : result A :=
  match members with
  | [] => Ok a
  | (key, v) :: rest =>
      match field names key with
      | None => storeMembers names set rest a
      | Some name =>
          match set a name v with
          | Ok a' => storeMembers names set rest a'
          | Err e => Err e
          end
      end
  end.

Definition intoStruct `{Text} {A : Type} (names : list string)
    (set : A -> string -> Value -> result A) (zeroValue : A) (v : Value) : result A :=
  match v with
  | JNull => Ok zeroValue
  | JObject members => storeMembers names set members zeroValue
  | _ => Err UnmarshalTypeError
  end.

(** Decoding into a [map[string]interface{}]: of a repeated name the last
    member stays. *)
Definition intoMap (v : Value) : result (list (string * Value)) :=
  match v with
  | JNull => Ok []
  | JObject members => Ok members
  | _ => Err UnmarshalTypeError
  end.

Fixpoint mapIndex (m : list (string * Value)) (key : string) : option Value :=
  match m with
  | [] => None
  | (k, v) :: rest =>
      match mapIndex rest key with
      | Some w => Some w
      | None => if String.eqb k key then Some v else None
      end
  end.

(** Members left out by [omitempty]. *)
Definition omitempty (members : list (string * option Value)) : list (string * Value) :=
  flat_map (fun kv => match snd kv with
                      | Some v => [(fst kv, v)]
                      | None => []
                      end) members.

Definition always (v : Value) : option Value := Some v.

Definition nonEmptyString (s : string) : option Value :=
  if String.eqb s "" then None else Some (JString s).

End json.

(* ================================================================== *)
(** * Packages crypto/sha256, crypto/sha512, crypto and crypto/hmac *)
(* ================================================================== *)

(** SHA-2 as FIPS 180-4 defines it. *)

Module sha2.

(** The parameters in which SHA-256 and SHA-512 differ: the word size, the
    round constants, the rotation and shift amounts; SHA-384 is SHA-512 with
    other initial values and a shorter digest. *)
Record Variant_ : Type := {
  bits : Z;
  K : list Z;
  H0 : list Z;
  bigSigma0 : Z * Z * Z;
  bigSigma1 : Z * Z * Z;
  smallSigma0 : Z * Z * Z;
  smallSigma1 : Z * Z * Z;
  digestBytes : nat
}.

Definition K256 : list Z :=
  [
    1116352408; 1899447441; 3049323471; 3921009573; 961987163; 1508970993;
    2453635748; 2870763221; 3624381080; 310598401; 607225278; 1426881987;
    1925078388; 2162078206; 2614888103; 3248222580; 3835390401; 4022224774;
    264347078; 604807628; 770255983; 1249150122; 1555081692; 1996064986;
    2554220882; 2821834349; 2952996808; 3210313671; 3336571891; 3584528711;
    113926993; 338241895; 666307205; 773529912; 1294757372; 1396182291;
    1695183700; 1986661051; 2177026350; 2456956037; 2730485921; 2820302411;
    3259730800; 3345764771; 3516065817; 3600352804; 4094571909; 275423344;
    430227734; 506948616; 659060556; 883997877; 958139571; 1322822218;
    1537002063; 1747873779; 1955562222; 2024104815; 2227730452; 2361852424;
    2428436474; 2756734187; 3204031479; 3329325298 ].

Definition K512 : list Z :=
  [
    4794697086780616226; 8158064640168781261; 13096744586834688815;
    16840607885511220156; 4131703408338449720; 6480981068601479193;
    10538285296894168987; 12329834152419229976; 15566598209576043074;
    1334009975649890238; 2608012711638119052; 6128411473006802146;
    8268148722764581231; 9286055187155687089; 11230858885718282805;
    13951009754708518548; 16472876342353939154; 17275323862435702243;
    1135362057144423861; 2597628984639134821; 3308224258029322869;
    5365058923640841347; 6679025012923562964; 8573033837759648693;
    10970295158949994411; 12119686244451234320; 12683024718118986047;
    13788192230050041572; 14330467153632333762; 15395433587784984357;
    489312712824947311; 1452737877330783856; 2861767655752347644;
    3322285676063803686; 5560940570517711597; 5996557281743188959;
    7280758554555802590; 8532644243296465576; 9350256976987008742;
    10552545826968843579; 11727347734174303076; 12113106623233404929;
    14000437183269869457; 14369950271660146224; 15101387698204529176;
    15463397548674623760; 17586052441742319658; 1182934255886127544;
    1847814050463011016; 2177327727835720531; 2830643537854262169;
    3796741975233480872; 4115178125766777443; 5681478168544905931;
    6601373596472566643; 7507060721942968483; 8399075790359081724;
    8693463985226723168; 9568029438360202098; 10144078919501101548;
    10430055236837252648; 11840083180663258601; 13761210420658862357;
    14299343276471374635; 14566680578165727644; 15097957966210449927;
    16922976911328602910; 17689382322260857208; 500013540394364858;
    748580250866718886; 1242879168328830382; 1977374033974150939;
    2944078676154940804; 3659926193048069267; 4368137639120453308;
    4836135668995329356; 5532061633213252278; 6448918945643986474;
    6902733635092675308; 7801388544844847127 ].

Definition sha256 : Variant_ :=
  {| bits := 32; K := K256;
     H0 := [
    1779033703; 3144134277; 1013904242; 2773480762;
    1359893119; 2600822924; 528734635; 1541459225 ];
     bigSigma0 := (2, 13, 22); bigSigma1 := (6, 11, 25);
     smallSigma0 := (7, 18, 3); smallSigma1 := (17, 19, 10);
     digestBytes := 32 |}.

Definition sha512 : Variant_ :=
  {| bits := 64; K := K512;
     H0 := [
    7640891576956012808; 13503953896175478587; 4354685564936845355;
    11912009170470909681; 5840696475078001361; 11170449401992604703;
    2270897969802886507; 6620516959819538809 ];
     bigSigma0 := (28, 34, 39); bigSigma1 := (14, 18, 41);
     smallSigma0 := (1, 8, 7); smallSigma1 := (19, 61, 6);
     digestBytes := 64 |}.

Definition sha384 : Variant_ :=
  {| bits := 64; K := K512;
     H0 := [
    14680500436340154072; 7105036623409894663; 10473403895298186519;
    1526699215303891257; 7436329637833083697; 10282925794625328401;
    15784041429090275239; 5167115440072839076 ];
     bigSigma0 := (28, 34, 39); bigSigma1 := (14, 18, 41);
     smallSigma0 := (1, 8, 7); smallSigma1 := (19, 61, 6);
     digestBytes := 48 |}.

Section WithVariant.
Variable v : Variant_.

Definition wrap (x : Z) : Z := x mod 2 ^ bits v.

Definition rotr (n x : Z) : Z :=
  Z.lor (Z.shiftr x n) (wrap (Z.shiftl x (bits v - n))).

Definition bigSigma (p : Z * Z * Z) (x : Z) : Z :=
  let '(a, b, c) := p in Z.lxor (rotr a x) (Z.lxor (rotr b x) (rotr c x)).

Definition smallSigma (p : Z * Z * Z) (x : Z) : Z :=
  let '(a, b, c) := p in Z.lxor (rotr a x) (Z.lxor (rotr b x) (Z.shiftr x c)).

Definition Ch (x y z : Z) : Z :=
  Z.lxor (Z.land x y) (Z.land (Z.lxor x (2 ^ bits v - 1)) z).

Definition Maj (x y z : Z) : Z :=
  Z.lxor (Z.land x y) (Z.lxor (Z.land x z) (Z.land y z)).

(** One round on the working variables a to h. *)
Definition round (k w : Z) (st : list Z) : list Z :=
  match st with
  | [a; b; c; d; e; f; g; h] =>
      let t1 := h + bigSigma (bigSigma1 v) e + Ch e f g + k + w in
      let t2 := bigSigma (bigSigma0 v) a + Maj a b c in
      [wrap (t1 + t2); a; b; c; wrap (d + t1); e; f; g]
  | _ => st
  end.

(** All rounds; [win] holds the sixteen words of the message schedule from
    the current one on. *)
Fixpoint rounds (ks : list Z) (win : list Z) (st : list Z) : list Z :=
  match ks with
  | [] => st
  | k :: ks' =>
      let w := nth 0 win 0 in
      let next := wrap (smallSigma (smallSigma1 v) (nth 14 win 0) + nth 9 win 0
                        + smallSigma (smallSigma0 v) (nth 1 win 0) + w) in
      rounds ks' (tl win ++ [next]) (round k w st)
  end.

Definition wordBytes : nat := Z.to_nat (bits v / 8).

(** Big-endian words. *)
Fixpoint wordOf (bytes : list Z) (acc : Z) : Z :=
  match bytes with
  | [] => acc
  | b :: rest => wordOf rest (acc * 256 + b)
  end.

Fixpoint bytesOf (n : nat) (x : Z) : list Z :=
  match n with
  | O => []
  | S n' => bytesOf n' (x / 256) ++ [x mod 256]
  end.

Fixpoint words (fuel : nat) (bytes : list Z) : list Z :=
  match fuel, bytes with
  | S fuel', _ :: _ =>
      wordOf (firstn wordBytes bytes) 0 :: words fuel' (skipn wordBytes bytes)
  | _, _ => []
  end.

Definition compress (st : list Z) (block : list Z) : list Z :=
  List.map (fun p => wrap (fst p + snd p))
    (combine st (rounds (K v) (words 16 block) st)).

Fixpoint blocks (fuel : nat) (st : list Z) (bytes : list Z) : list Z :=
  match fuel, bytes with
  | S fuel', _ :: _ =>
      blocks fuel' (compress st (firstn (16 * wordBytes) bytes))
        (skipn (16 * wordBytes) bytes)
  | _, _ => st
  end.

(** The message, a one bit, zero bits up to a whole block, the length in
    bits in the last two words. *)
Definition pad (msg : list Z) : list Z :=
  let block := Z.of_nat (16 * wordBytes) in
  let len := Z.of_nat (List.length msg) in
  let fill := (block - (len + 1 + Z.of_nat (2 * wordBytes)) mod block) mod block in
  msg ++ [128] ++ repeat 0 (Z.to_nat fill) ++ bytesOf (2 * wordBytes) (8 * len).

Definition digest (msg : list Z) : list Z :=
  let padded := pad msg in
  firstn (digestBytes v)
    (flat_map (bytesOf wordBytes) (blocks (List.length padded) (H0 v) padded)).

Definition Sum (msg : string) : string :=
  string_of_list_ascii
    (List.map (fun b => ascii_of_N (Z.to_N b))
       (digest (List.map (fun c => Z.of_N (N_of_ascii c)) (list_ascii_of_string msg)))).

End WithVariant.

End sha2.

Module crypto.

(** The hash functions of the HMAC signing methods. *)
Inductive Hash : Type := SHA256 | SHA384 | SHA512.

(** [h.New()], written to and summed. *)
Definition Sum (h : Hash) (message : string) : string :=
  match h with
  | SHA256 => sha2.Sum sha2.sha256 message
  | SHA384 => sha2.Sum sha2.sha384 message
  | SHA512 => sha2.Sum sha2.sha512 message
  end.

(** [h.BlockSize()] in bytes. *)
Definition BlockSize (h : Hash) : nat :=
  match h with
  | SHA256 => 64
  | SHA384 | SHA512 => 128
  end.

End crypto.

Module hmac.

Definition xor (pad : N) (c : ascii) : ascii :=
  ascii_of_N (N.lxor (N_of_ascii c) pad).

Fixpoint mapBytes (f : ascii -> ascii) (s : string) : string :=
  match s with
  | EmptyString => EmptyString
  | String c s' => String (f c) (mapBytes f s')
  end.

Fixpoint zeros (n : nat) : string :=
  match n with
  | O => EmptyString
  | S n' => String Ascii.zero (zeros n')
  end.

(** The key as [hmac.New] lays it out in a block: a key longer than a block
    is hashed first, and the rest of the block is zero. *)
Definition blockKey (h : crypto.Hash) (key : string) : string :=
  let k := if (crypto.BlockSize h <? String.length key)%nat
           then crypto.Sum h key else key in
  k ++ zeros (crypto.BlockSize h - String.length k).

(** [mac := hmac.New(h, key); mac.Write(message); mac.Sum(nil)]. *)
Definition Sum (h : crypto.Hash) (key message : string) : string :=
  let k := blockKey h key in
  crypto.Sum h (mapBytes (xor 92) k ++ crypto.Sum h (mapBytes (xor 54) k ++ message)).

(** [hmac.Equal]: the comparison takes constant time; its result is
    equality. *)
Definition Equal (mac1 mac2 : string) : bool := String.eqb mac1 mac2.

End hmac.

(* ================================================================== *)
(** * Package github.com/golang-jwt/jwt/v5 *)
(* ================================================================== *)

Module jwt.

Definition ErrTokenMalformed : error := errorString "token is malformed".
Definition ErrTokenUnverifiable : error := errorString "token is unverifiable".
Definition ErrTokenSignatureInvalid : error := errorString "token signature is invalid".
Definition ErrTokenRequiredClaimMissing : error := errorString "token is missing required claim".
Definition ErrTokenExpired : error := errorString "token is expired".
Definition ErrTokenNotValidYet : error := errorString "token is not valid yet".
Definition ErrTokenInvalidClaims : error := errorString "token has invalid claims".
Definition ErrSignatureInvalid : error := errorString "signature is invalid".
Definition ErrInvalidKeyType : error := errorString "key is of invalid type".
Definition ErrInvalidType : error := errorString "invalid type for claim".

(** [newError(message, err, more...)]: the sentinel [err], its detail and
    cause joined. *)
Definition newError (message : string) (err : error) (cause : option error) : error :=
  let detail := match cause with
                | Some c => wrapError message c
                | None => errorString message
                end in
  match err with
  | errorString m => wrapError m detail
  | wrapError m _ => wrapError m detail
  end.

(** ** Numeric dates *)

Definition NumericDate : Type := time.Time.

Definition TimePrecision : time.Duration := time.Second.

Definition NewNumericDate (t : time.Time) : NumericDate :=
  time.Truncate t TimePrecision.

(** [newNumericDateFromSeconds(f)]: [math.Modf] splits [f] into its integer
    part and its fraction, both of the sign of [f]; the fraction counts
    nanoseconds, rounded toward zero. *)
Definition newNumericDateFromSeconds (f : Q) : NumericDate :=
  let den := Z.pos (Qden f) in
  let round := Z.quot (Qnum f) den in
  let nsec := Z.quot ((Qnum f - round * den) * time.Second) den in
  NewNumericDate (time.Add (time.FromUnix round) nsec).

(** [date.MarshalJSON()]: the seconds of the truncated date. *)
Definition NumericDate_MarshalJSON (date : NumericDate) : json.Value :=
  json.JNumber (inject_Z (time.Unix (time.Truncate date TimePrecision))).

(** [date.UnmarshalJSON(b)]: only a number is a date. *)
Definition NumericDate_UnmarshalJSON (v : json.Value) : result NumericDate :=
  match v with
  | json.JNumber f => Ok (newNumericDateFromSeconds f)
  | _ => Err (errorString "could not parse NumericData")
  end.

(** Decoding into a [*NumericDate] field: null makes it nil. *)
Definition intoNumericDate (v : json.Value) : result (option NumericDate) :=
  match v with
  | json.JNull => Ok None
  | _ => match NumericDate_UnmarshalJSON v with
         | Ok d => Ok (Some d)
         | Err e => Err e
         end
  end.

(** ** Claim strings (the audience) *)

Definition ClaimStrings : Type := list string.

Fixpoint allStrings (elems : list json.Value) : result (list string) :=
  match elems with
  | [] => Ok []
  | json.JString s :: rest =>
      match allStrings rest with
      | Ok l => Ok (s :: l)
      | Err e => Err e
      end
  | _ :: _ => Err ErrInvalidType
  end.

(** [s.UnmarshalJSON(data)]: one string or an array of strings. *)
Definition ClaimStrings_UnmarshalJSON (old : ClaimStrings) (v : json.Value)
  : result ClaimStrings :=
  match v with
  | json.JNull => Ok old
  | json.JString s => Ok [s]
  | json.JArray elems => allStrings elems
  | _ => Err ErrInvalidType
  end.

(** [s.MarshalJSON()]: an array (MarshalSingleStringAsArray is true). *)
Definition ClaimStrings_MarshalJSON (s : ClaimStrings) : option json.Value :=
  match s with
  | [] => None
  | _ => Some (json.JArray (List.map json.JString s))
  end.

(** ** Registered claims *)

Record RegisteredClaims : Type := {
  Issuer : string;
  Subject : string;
  Audience : ClaimStrings;
  ExpiresAt : option NumericDate;
  NotBefore : option NumericDate;
  IssuedAt : option NumericDate;
  ID : string
}.

Definition zeroRegisteredClaims : RegisteredClaims :=
  {| Issuer := ""; Subject := ""; Audience := []; ExpiresAt := None;
     NotBefore := None; IssuedAt := None; ID := "" |}.

Definition RegisteredClaims_names : list string :=
  ["iss"; "sub"; "aud"; "exp"; "nbf"; "iat"; "jti"].

(** Every date of the claims is a whole number of seconds, as
    [NewNumericDate] makes them. *)
Definition wholeDate (d : option NumericDate) : Prop :=
  match d with
  | Some t => t mod time.Second = 0
  | None => True
  end.

Definition wholeSeconds (c : RegisteredClaims) : Prop :=
  wholeDate (ExpiresAt c) /\ wholeDate (NotBefore c) /\ wholeDate (IssuedAt c).

(** The time window of the validator: [now] is before the expiry and not
    before not-before, for the dates that are set. *)
Definition notExpired (now : time.Time) (exp : option NumericDate) : Prop :=
  match exp with
  | Some e => now < e
  | None => True
  end.

Definition notEarly (now : time.Time) (nbf : option NumericDate) : Prop :=
  match nbf with
  | Some n => n <= now
  | None => True
  end.

(** The members [json.Marshal] writes for the struct, in the order of its
    fields; every field is tagged [omitempty]. *)
Definition RegisteredClaims_members (c : RegisteredClaims) : list (string * json.Value) :=
  json.omitempty
    [ ("iss", json.nonEmptyString (Issuer c));
      ("sub", json.nonEmptyString (Subject c));
      ("aud", ClaimStrings_MarshalJSON (Audience c));
      ("exp", option_map NumericDate_MarshalJSON (ExpiresAt c));
      ("nbf", option_map NumericDate_MarshalJSON (NotBefore c));
      ("iat", option_map NumericDate_MarshalJSON (IssuedAt c));
      ("jti", json.nonEmptyString (ID c)) ].

(** Storing one member into the field of that JSON name. *)
Definition RegisteredClaims_store (c : RegisteredClaims) (name : string) (v : json.Value)
  : result RegisteredClaims :=
  let '{| Issuer := iss; Subject := sub; Audience := aud; ExpiresAt := exp;
          NotBefore := nbf; IssuedAt := iat; ID := jti |} := c in
  if String.eqb name "iss" then
    bind (json.intoString iss v) (fun x =>
      Ok {| Issuer := x; Subject := sub; Audience := aud; ExpiresAt := exp;
            NotBefore := nbf; IssuedAt := iat; ID := jti |})
  else if String.eqb name "sub" then
    bind (json.intoString sub v) (fun x =>
      Ok {| Issuer := iss; Subject := x; Audience := aud; ExpiresAt := exp;
            NotBefore := nbf; IssuedAt := iat; ID := jti |})
  else if String.eqb name "aud" then
    bind (ClaimStrings_UnmarshalJSON aud v) (fun x =>
      Ok {| Issuer := iss; Subject := sub; Audience := x; ExpiresAt := exp;
            NotBefore := nbf; IssuedAt := iat; ID := jti |})
  else if String.eqb name "exp" then
    bind (intoNumericDate v) (fun x =>
      Ok {| Issuer := iss; Subject := sub; Audience := aud; ExpiresAt := x;
            NotBefore := nbf; IssuedAt := iat; ID := jti |})
  else if String.eqb name "nbf" then
    bind (intoNumericDate v) (fun x =>
      Ok {| Issuer := iss; Subject := sub; Audience := aud; ExpiresAt := exp;
            NotBefore := x; IssuedAt := iat; ID := jti |})
  else if String.eqb name "iat" then
    bind (intoNumericDate v) (fun x =>
      Ok {| Issuer := iss; Subject := sub; Audience := aud; ExpiresAt := exp;
            NotBefore := nbf; IssuedAt := x; ID := jti |})
  else if String.eqb name "jti" then
    bind (json.intoString jti v) (fun x =>
      Ok {| Issuer := iss; Subject := sub; Audience := aud; ExpiresAt := exp;
            NotBefore := nbf; IssuedAt := iat; ID := x |})
  else Ok c.

(** ** The Claims interface *)

(** What the parser and the validator need of a claims type: the getters of
    the interface, and how [encoding/json] writes and reads the type. *)
Class Claims (C : Type) : Type := {
  GetExpirationTime : C -> option NumericDate;
  GetNotBefore : C -> option NumericDate;
  GetIssuedAt : C -> option NumericDate;
  GetIssuer : C -> string;
  GetSubject : C -> string;
  GetAudience : C -> ClaimStrings;
  toJSON : C -> json.Value;
  fromJSON : json.Value -> result C
}.

#[global] Instance RegisteredClaims_Claims `{json.Text} : Claims RegisteredClaims := {
  GetExpirationTime := ExpiresAt;
  GetNotBefore := NotBefore;
  GetIssuedAt := IssuedAt;
  GetIssuer := Issuer;
  GetSubject := Subject;
  GetAudience := Audience;
  toJSON c := json.JObject (RegisteredClaims_members c);
  fromJSON := json.intoStruct RegisteredClaims_names RegisteredClaims_store
                zeroRegisteredClaims
}.

(** ** Signing methods *)

(** The registered methods.  Of those that are not [*SigningMethodHMAC] only
    the name matters here. *)
Inductive SigningMethod : Type :=
| SigningMethodHMAC (Hash : crypto.Hash)
| SigningMethodOther (alg : string).

Definition SigningMethodHS256 : SigningMethod := SigningMethodHMAC crypto.SHA256.
Definition SigningMethodHS384 : SigningMethod := SigningMethodHMAC crypto.SHA384.
Definition SigningMethodHS512 : SigningMethod := SigningMethodHMAC crypto.SHA512.

Definition Alg (m : SigningMethod) : string :=
  match m with
  | SigningMethodHMAC crypto.SHA256 => "HS256"
  | SigningMethodHMAC crypto.SHA384 => "HS384"
  | SigningMethodHMAC crypto.SHA512 => "HS512"
  | SigningMethodOther alg => alg
  end.

Definition otherMethods : list string :=
  ["RS256"; "RS384"; "RS512"; "PS256"; "PS384"; "PS512";
   "ES256"; "ES384"; "ES512"; "EdDSA"; "none"].

(** [GetSigningMethod(alg)]: nil for a name that is not registered. *)
Definition GetSigningMethod (alg : string) : option SigningMethod :=
  if String.eqb alg "HS256" then Some SigningMethodHS256
  else if String.eqb alg "HS384" then Some SigningMethodHS384
  else if String.eqb alg "HS512" then Some SigningMethodHS512
  else if existsb (String.eqb alg) otherMethods then Some (SigningMethodOther alg)
  else None.

Section WithLibraries.
Context `{json.Text}.

(** [m.Sign(signingString, key)] for a key that is a byte slice. *)
Definition Sign (m : SigningMethod) (signingString : string) (key : string)
  : result string :=
  match m with
  | SigningMethodHMAC h => Ok (hmac.Sum h key signingString)
  | SigningMethodOther _ => Err ErrInvalidKeyType
  end.

(** [m.Verify(signingString, sig, key)] for a key that is a byte slice. *)
Definition Verify (m : SigningMethod) (signingString : string) (sig : string)
    (key : string) : result unit :=
  match m with
  | SigningMethodHMAC h =>
      if hmac.Equal sig (hmac.Sum h key signingString) then Ok tt
      else Err ErrSignatureInvalid
  | SigningMethodOther _ => Err ErrInvalidKeyType
  end.

(** ** Tokens *)

Record Token (C : Type) : Type := {
  Raw : string;
  Method : SigningMethod;
  Header : list (string * json.Value);
  TokenClaims : C;
  Signature : string;
  Valid : bool
}.

(** [NewWithClaims(method, claims)].  [json.Marshal] writes a map with its
    keys sorted. *)
Definition NewWithClaims {C : Type} (method : SigningMethod) (claims : C) : Token C :=
  {| Raw := "";
     Method := method;
     Header := [("alg", json.JString (Alg method)); ("typ", json.JString "JWT")];
     TokenClaims := claims;
     Signature := "";
     Valid := false |}.

Definition EncodeSegment (seg : string) : string :=
  base64.EncodeToString base64.encodeURL seg.

Definition DecodeSegment (seg : string) : option string :=
  base64.DecodeString base64.encodeURL seg.

(** [t.SigningString()]. *)
Definition SigningString {C : Type} `{Claims C} (t : Token C) : string :=
  EncodeSegment (json.Marshal (json.JObject (Header t))) ++ "."
  ++ EncodeSegment (json.Marshal (toJSON (TokenClaims t))).

(** [t.SignedString(key)]. *)
Definition SignedString {C : Type} `{Claims C} (t : Token C) (key : string)
  : result string :=
  let sstr := SigningString t in
  bind (Sign (Method t) sstr key) (fun sig =>
    Ok (sstr ++ "." ++ EncodeSegment sig)).

(** ** The validator *)

Definition verifyExpiresAt (exp : option NumericDate) (cmp : time.Time)
    (required : bool) : option error :=
  match exp with
  | None => if required then Some ErrTokenRequiredClaimMissing else None
  | Some e => if time.Before cmp e then None else Some ErrTokenExpired
  end.

Definition verifyNotBefore (nbf : option NumericDate) (cmp : time.Time)
    (required : bool) : option error :=
  match nbf with
  | None => if required then Some ErrTokenRequiredClaimMissing else None
  | Some n => if negb (time.Before cmp n) then None else Some ErrTokenNotValidYet
  end.

Definition errorList (checks : list (option error)) : list error :=
  flat_map (fun c => match c with Some e => [e] | None => [] end) checks.

Fixpoint joinErrors (first : error) (more : list error) : error :=
  match more with
  | [] => first
  | e :: rest =>
      match first with
      | errorString m => wrapError m (joinErrors e rest)
      | wrapError m _ => wrapError m (joinErrors e rest)
      end
  end.

(** [NewValidator().Validate(claims)] with the clock reading [now]: no
    leeway, no expected issuer, audience or subject, issued-at not verified;
    neither claims type of this program has a [Validate] method of its own. *)
Definition Validate {C : Type} `{Claims C} (now : time.Time) (claims : C)
  : result unit :=
  match errorList [ verifyExpiresAt (GetExpirationTime claims) now false;
                    verifyNotBefore (GetNotBefore claims) now false ] with
  | [] => Ok tt
  | e :: rest => Err (joinErrors e rest)
  end.

(** ** The parser *)

Definition Keyfunc (C : Type) : Type := Token C -> result string.

Definition malformed {A : Type} (message : string) (cause : option error) : result A :=
  Err (newError message ErrTokenMalformed cause).

(** [p.ParseUnverified(tokenString, claims)]: the token and its three
    segments. *)
Definition ParseUnverified {C : Type} `{Claims C} (tokenString : string)
  : result (Token C * (string * string * string)) :=
  match strings.Split tokenString "." with
  | [p0; p1; p2] =>
      match DecodeSegment p0 with
      | None => malformed "could not base64 decode header" None
      | Some headerBytes =>
      match json.Unmarshal headerBytes with
      | None => malformed "could not JSON decode header" (Some json.SyntaxError)
      | Some headerDoc =>
      match json.intoMap headerDoc with
      | Err e => malformed "could not JSON decode header" (Some e)
      | Ok header =>
      match DecodeSegment p1 with
      | None => malformed "could not base64 decode claim" None
      | Some claimBytes =>
      match json.Unmarshal claimBytes with
      | None => malformed "could not JSON decode claim" (Some json.SyntaxError)
      | Some claimsDoc =>
      match fromJSON claimsDoc with
      | Err e => malformed "could not JSON decode claim" (Some e)
      | Ok claims =>
      match json.mapIndex header "alg" with
      | Some (json.JString alg) =>
          match GetSigningMethod alg with
          | None =>
              Err (newError "signing method (alg) is unavailable"
                     ErrTokenUnverifiable None)
          | Some method =>
              Ok ({| Raw := tokenString; Method := method; Header := header;
                     TokenClaims := claims; Signature := ""; Valid := false |},
                  (p0, p1, p2))
          end
      | _ =>
          Err (newError "signing method (alg) is unspecified"
                 ErrTokenUnverifiable None)
      end end end end end end end
  | _ => malformed "token contains an invalid number of segments" None
  end.

(** [ParseWithClaims(tokenString, claims, keyFunc)] with the default parser;
    [now] is the validator's reading of the clock.  The Go function returns
    the token beside the error; both callers drop it then. *)
Definition ParseWithClaims {C : Type} `{Claims C} (now : time.Time)
    (tokenString : string) (keyFunc : Keyfunc C) : result (Token C) :=
  match ParseUnverified tokenString with
  | Err e => Err e
  | Ok (token, (p0, p1, p2)) =>
      match keyFunc token with
      | Err e => Err (newError "error while executing keyfunc" ErrTokenUnverifiable (Some e))
      | Ok key =>
      match DecodeSegment p2 with
      | None => malformed "could not base64 decode signature" None
      | Some sig =>
      match Verify (Method token) (p0 ++ "." ++ p1) sig key with
      | Err e => Err (newError "" ErrTokenSignatureInvalid (Some e))
      | Ok _ =>
      match Validate now (TokenClaims token) with
      | Err e => Err (newError "" ErrTokenInvalidClaims (Some e))
      | Ok _ =>
          Ok {| Raw := Raw token; Method := Method token; Header := Header token;
                TokenClaims := TokenClaims token; Signature := sig; Valid := true |}
      end end end end
  end.

End WithLibraries.

End jwt.

(* ================================================================== *)
(** * Package github.com/google/uuid *)
(* ================================================================== *)

Module uuid.

(** A UUID is an array of sixteen bytes. *)
Record UUID : Type := {
  bytes : string;
  bytes_len : String.length bytes = 16%nat
}.

Definition hexDigit (n : N) : ascii :=
  if (n <? 10)%N then ascii_of_N (48 + n) else ascii_of_N (87 + n).

Fixpoint encodeHex (src : string) : string :=
  match src with
  | EmptyString => EmptyString
  | String c rest =>
      String (hexDigit (N_of_ascii c / 16)) (String (hexDigit (N_of_ascii c mod 16))
        (encodeHex rest))
  end.

(** [u.String()]: xxxxxxxx-xxxx-xxxx-xxxx-xxxxxxxxxxxx. *)
Definition String_ (u : UUID) : string :=
  let b := bytes u in
  encodeHex (strings.take 4 b) ++ "-"
  ++ encodeHex (strings.take 2 (strings.drop 4 b)) ++ "-"
  ++ encodeHex (strings.take 2 (strings.drop 6 b)) ++ "-"
  ++ encodeHex (strings.take 2 (strings.drop 8 b)) ++ "-"
  ++ encodeHex (strings.drop 10 b).

End uuid.

(* ================================================================== *)
(** * Package golang.org/x/crypto/bcrypt *)
(* ================================================================== *)

Module bcrypt.

Definition MinCost : Z := 4.
Definition MaxCost : Z := 31.
Definition DefaultCost : Z := 10.

Definition majorVersion : ascii := "2"%char.
Definition minorVersion : ascii := "a"%char.
Definition maxSaltSize : nat := 16.
Definition encodedSaltSize : nat := 22.
Definition encodedHashSize : nat := 31.
Definition minHashSize : nat := 59.

Definition ErrMismatchedHashAndPassword : error :=
  errorString "crypto/bcrypt: hashedPassword is not the hash of the given password".
Definition ErrHashTooShort : error :=
  errorString "crypto/bcrypt: hashedSecret too short to be a bcrypted password".
Definition ErrPasswordTooLong : error :=
  errorString "bcrypt: password length exceeds 72 bytes".
Definition HashVersionTooNewError : error :=
  errorString "crypto/bcrypt: bcrypt algorithm version requested is newer than current version".
Definition InvalidHashPrefixError : error :=
  errorString "crypto/bcrypt: bcrypt hashes must start with '$'".
Definition InvalidCostError : error :=
  errorString "crypto/bcrypt: cost is outside allowed range (4,31)".
Definition AtoiSyntaxError : error :=
  errorString "strconv.Atoi: invalid syntax".

Definition alphabet : base64.Encoding :=
  "./ABCDEFGHIJKLMNOPQRSTUVWXYZabcdefghijklmnopqrstuvwxyz0123456789".

(** [base64Encode(src)]: the padding characters are cut off. *)
Definition base64Encode (src : string) : string :=
  base64.EncodeToString alphabet src.

(** The cipher proper is not part of this development.  [crypt stream cost
    salt] stands for the Eksblowfish key setup at that cost with the decoded
    salt, the 64 encryptions of the magic text and the encoding of the first
    23 bytes of the result; it fails when the salt does not decode.  Its first
    argument is all it sees of the key: the Blowfish key schedule
    ([ExpandKey], [expandKeyWithSalt]) reads eighteen 32-bit words from the
    key, starting over at its first byte when it reaches the end. *)
Class Cipher : Type := {
  crypt : string -> Z -> string -> result string
}.

(** The first [n] bytes of [key] repeated without end; [cur] is what is left
    of the current pass. *)
Fixpoint cycle (n : nat) (key cur : string) : string :=
  match n with
  | O => EmptyString
  | S n' =>
      match cur with
      | String c cur' => String c (cycle n' key cur')
      | EmptyString =>
          match key with
          | String c key' => String c (cycle n' key key')
          | EmptyString => EmptyString
          end
      end
  end.

Definition keyStream (key : string) : string := cycle 72 key key.

(** [copy(arr, src)] on an array: as many bytes as fit. *)
Fixpoint overwrite (arr src : string) : string :=
  match arr, src with
  | String _ arr', String c src' => String c (overwrite arr' src')
  | _, _ => arr
  end.

(** [copy(arr[n:], src)]. *)
Fixpoint copyAt (arr : string) (n : nat) (src : string) : string :=
  match n, arr with
  | O, _ => overwrite arr src
  | S n', String a arr' => String a (copyAt arr' n' src)
  | S _, EmptyString => EmptyString
  end.

(** The 31 bytes [Hash] lays out for a digest. *)
Definition stored (digest : string) : string :=
  overwrite (hmac.zeros encodedHashSize) digest.

Section WithCipher.
Context `{Cipher}.

(** [bcrypt(password, cost, salt)]: the key is the password and a zero
    byte. *)
Definition bcrypt (password : string) (cost : Z) (salt : string) : result string :=
  crypt (keyStream (password ++ String Ascii.zero EmptyString)) cost salt.

(** The digest of a password as a credential stores it, if there is one. *)
Definition digest (password : string) (cost : Z) (salt : string) : option string :=
  match bcrypt password cost salt with
  | Ok d => Some (stored d)
  | Err _ => None
  end.

Record hashed : Type := {
  hash : string;
  salt : string;
  cost : Z;
  major : ascii;
  minor : ascii
}.

Definition checkCost (cost : Z) : result unit :=
  if (cost <? MinCost) || (MaxCost <? cost) then Err InvalidCostError else Ok tt.

Definition digit (n : Z) : ascii := ascii_of_N (48 + Z.to_N n).

(** [fmt.Sprintf("%02d", cost)] for a cost that passed [checkCost]. *)
Definition Sprintf02d (cost : Z) : string :=
  String (digit (cost / 10)) (String (digit (cost mod 10)) EmptyString).

(** [p.Hash()]: the fields laid out in an array of 60 bytes. *)
Definition Hash (p : hashed) : string :=
  let arr := hmac.zeros 60 in
  let arr := copyAt arr 0 (String "$"%char (String (major p) EmptyString)) in
  let '(arr, n) := if Ascii.eqb (minor p) Ascii.zero then (arr, 2%nat)
                   else (copyAt arr 2 (String (minor p) EmptyString), 3%nat) in
  let arr := copyAt arr n "$" in
  let n := S n in
  let arr := copyAt arr n (Sprintf02d (cost p)) in
  let n := (n + 2)%nat in
  let arr := copyAt arr n "$" in
  let n := S n in
  let arr := copyAt arr n (salt p) in
  let n := (n + encodedSaltSize)%nat in
  let arr := copyAt arr n (hash p) in
  let n := (n + encodedHashSize)%nat in
  strings.take n arr.

(** [newFromPassword(password, cost)]; [entropy] is what reading 16 bytes
    from [rand.Reader] gives. *)
Definition newFromPassword (entropy : result string) (password : string) (cost : Z)
  : result hashed :=
  let cost := if cost <? MinCost then DefaultCost else cost in
  bind (checkCost cost) (fun _ =>
  bind entropy (fun unencodedSalt =>
  let salt := base64Encode unencodedSalt in
  bind (bcrypt password cost salt) (fun hash =>
  Ok {| hash := hash; salt := salt; cost := cost;
        major := majorVersion; minor := minorVersion |}))).

(** [GenerateFromPassword(password, cost)]. *)
Definition GenerateFromPassword (entropy : result string) (password : string) (cost : Z)
  : result string :=
  if (72 <? String.length password)%nat then Err ErrPasswordTooLong
  else bind (newFromPassword entropy password cost) (fun p => Ok (Hash p)).

Definition isDigit (c : ascii) : bool :=
  ((48 <=? N_of_ascii c) && (N_of_ascii c <=? 57))%N.

Definition digitValue (c : ascii) : Z := Z.of_N (N_of_ascii c) - 48.

(** [strconv.Atoi] of two bytes: two digits, or a sign and a digit. *)
Definition Atoi2 (a b : ascii) : result Z :=
  if isDigit a && isDigit b then Ok (10 * digitValue a + digitValue b)
  else if Ascii.eqb a "+"%char && isDigit b then Ok (digitValue b)
  else if Ascii.eqb a "-"%char && isDigit b then Ok (- digitValue b)
  else Err AtoiSyntaxError.

(** [newFromHash(hashedSecret)], with [decodeVersion] and [decodeCost]. *)
Definition newFromHash (hashedSecret : string) : result hashed :=
  if (String.length hashedSecret <? minHashSize)%nat then Err ErrHashTooShort
  else
    match hashedSecret with
    | String s0 (String s1 (String s2 _)) =>
        if negb (Ascii.eqb s0 "$"%char) then Err InvalidHashPrefixError
        else if (N_of_ascii majorVersion <? N_of_ascii s1)%N
        then Err HashVersionTooNewError
        else
          let '(minor, n) := if Ascii.eqb s2 "$"%char then (Ascii.zero, 3%nat)
                             else (s2, 4%nat) in
          let rest := strings.drop n hashedSecret in
          match rest with
          | String c0 (String c1 _) =>
              bind (Atoi2 c0 c1) (fun cost =>
              bind (checkCost cost) (fun _ =>
              let rest := strings.drop 3 rest in
              Ok {| hash := strings.drop encodedSaltSize rest;
                    salt := strings.take encodedSaltSize rest;
                    cost := cost; major := s1; minor := minor |}))
          | _ => Err ErrHashTooShort
          end
    | _ => Err ErrHashTooShort
    end.

(** [CompareHashAndPassword(hashedPassword, password)]: nil on a match. *)
Definition CompareHashAndPassword (hashedPassword password : string) : result unit :=
  bind (newFromHash hashedPassword) (fun p =>
  bind (bcrypt password (cost p) (salt p)) (fun otherHash =>
  let otherP := {| hash := otherHash; salt := salt p; cost := cost p;
                   major := major p; minor := minor p |} in
  if String.eqb (Hash p) (Hash otherP) then Ok tt
  else Err ErrMismatchedHashAndPassword)).

End WithCipher.

End bcrypt.

(* ================================================================== *)
(** * Package internal/auth *)
(* ================================================================== *)

Module auth.

(** ** jwt.go: the claims of an access token *)

(** [Claims] holds JWT claims for the user; [jwt.RegisteredClaims] is
    embedded, so its fields and getters are those of [Claims] too. *)
Record Claims : Type := {
  UserID : string;
  Email : string;
  RegisteredClaims : jwt.RegisteredClaims
}.

Definition zeroClaims : Claims :=
  {| UserID := ""; Email := ""; RegisteredClaims := jwt.zeroRegisteredClaims |}.

Definition Claims_names : list string :=
  ("user_id" :: "email" :: jwt.RegisteredClaims_names)%list.

Definition Claims_members (c : Claims) : list (string * json.Value) :=
  (("user_id", json.JString (UserID c)) :: ("email", json.JString (Email c))
   :: jwt.RegisteredClaims_members (RegisteredClaims c))%list.

Definition Claims_store (c : Claims) (name : string) (v : json.Value) : result Claims :=
  if String.eqb name "user_id" then
    bind (json.intoString (UserID c) v) (fun x =>
      Ok {| UserID := x; Email := Email c; RegisteredClaims := RegisteredClaims c |})
  else if String.eqb name "email" then
    bind (json.intoString (Email c) v) (fun x =>
      Ok {| UserID := UserID c; Email := x; RegisteredClaims := RegisteredClaims c |})
  else
    bind (jwt.RegisteredClaims_store (RegisteredClaims c) name v) (fun x =>
      Ok {| UserID := UserID c; Email := Email c; RegisteredClaims := x |}).

#[global] Instance Claims_Claims `{json.Text} : jwt.Claims Claims := {
  jwt.GetExpirationTime c := jwt.ExpiresAt (RegisteredClaims c);
  jwt.GetNotBefore c := jwt.NotBefore (RegisteredClaims c);
  jwt.GetIssuedAt c := jwt.IssuedAt (RegisteredClaims c);
  jwt.GetIssuer c := jwt.Issuer (RegisteredClaims c);
  jwt.GetSubject c := jwt.Subject (RegisteredClaims c);
  jwt.GetAudience c := jwt.Audience (RegisteredClaims c);
  jwt.toJSON c := json.JObject (Claims_members c);
  jwt.fromJSON := json.intoStruct Claims_names Claims_store zeroClaims
}.

(** [JWTManager] manages creating and validating JWTs. *)
Record JWTManager : Type := {
  secret : string;
  accessTokenDuration : time.Duration;
  refreshTokenDuration : time.Duration
}.

Definition NewJWTManager (secret : string) (accessDuration refreshDuration : time.Duration)
  : JWTManager :=
  {| secret := secret;
     accessTokenDuration := accessDuration;
     refreshTokenDuration := refreshDuration |}.

(** The three readings of the clock one token takes, in the order of the
    struct literal: for the expiry, for issued-at, for not-before. *)
Record Clock3 : Type := {
  nowExp : time.Time;
  nowIat : time.Time;
  nowNbf : time.Time
}.

(** A clock that stands still at [t]. *)
Definition frozen (t : time.Time) : Clock3 :=
  {| nowExp := t; nowIat := t; nowNbf := t |}.

(** The issuer string of this deployment. *)
Definition issuer : string := "secure-task-api".

(** The claims [GenerateAccessToken] signs. *)
Definition accessClaims (j : JWTManager) (clock : Clock3) (userID : uuid.UUID)
    (email : string) : Claims :=
  {| UserID := uuid.String_ userID;
     Email := email;
     RegisteredClaims :=
       {| jwt.Issuer := issuer;
          jwt.Subject := "";
          jwt.Audience := [];
          jwt.ExpiresAt :=
            Some (jwt.NewNumericDate (time.Add (nowExp clock) (accessTokenDuration j)));
          jwt.NotBefore := Some (jwt.NewNumericDate (nowNbf clock));
          jwt.IssuedAt := Some (jwt.NewNumericDate (nowIat clock));
          jwt.ID := "" |} |}.

(** The claims [GenerateRefreshToken] signs. *)
Definition refreshClaims (j : JWTManager) (clock : Clock3) (userID : uuid.UUID)
  : jwt.RegisteredClaims :=
  {| jwt.Issuer := issuer;
     jwt.Subject := uuid.String_ userID;
     jwt.Audience := [];
     jwt.ExpiresAt :=
       Some (jwt.NewNumericDate (time.Add (nowExp clock) (refreshTokenDuration j)));
     jwt.NotBefore := Some (jwt.NewNumericDate (nowNbf clock));
     jwt.IssuedAt := Some (jwt.NewNumericDate (nowIat clock));
     jwt.ID := "" |}.

(** The header of every token this program signs. *)
Definition hs256Header : json.Value :=
  json.JObject [("alg", json.JString "HS256"); ("typ", json.JString "JWT")].

Section WithLibraries.
Context `{json.Text} `{bcrypt.Cipher}.

(** ** password.go *)

(** [HashPassword] takes a plain password and returns a bcrypt hash. *)
Definition HashPassword (entropy : result string) (password : string) : result string :=
  match bcrypt.GenerateFromPassword entropy password bcrypt.DefaultCost with
  | Err err => Err (wrapError "could not hash password" err)
  | Ok hashed => Ok hashed
  end.

(** [CheckPassword] compares a plain password with its hashed version; the
    result is Go's [error], [None] for nil. *)
Definition CheckPassword (password hashed : string) : option error :=
  match bcrypt.CompareHashAndPassword hashed password with
  | Err _ => Some (errorString "password does not match")
  | Ok _ => None
  end.

(** ** jwt.go *)

(** [GenerateAccessToken] creates a JWT access token for a user. *)
Definition GenerateAccessToken (j : JWTManager) (clock : Clock3)
    (userID : uuid.UUID) (email : string) : result string :=
  let claims :=
    {| UserID := uuid.String_ userID;
       Email := email;
       RegisteredClaims :=
         {| jwt.Issuer := "secure-task-api";
            jwt.Subject := "";
            jwt.Audience := [];
            jwt.ExpiresAt :=
              Some (jwt.NewNumericDate (time.Add (nowExp clock) (accessTokenDuration j)));
            jwt.IssuedAt := Some (jwt.NewNumericDate (nowIat clock));
            jwt.NotBefore := Some (jwt.NewNumericDate (nowNbf clock));
            jwt.ID := "" |} |} in
  let token := jwt.NewWithClaims jwt.SigningMethodHS256 claims in
  jwt.SignedString token (secret j).

(** [GenerateRefreshToken] creates a refresh token for a user. *)
Definition GenerateRefreshToken (j : JWTManager) (clock : Clock3)
    (userID : uuid.UUID) : result string :=
  let claims :=
    {| jwt.Subject := uuid.String_ userID;
       jwt.ExpiresAt :=
         Some (jwt.NewNumericDate (time.Add (nowExp clock) (refreshTokenDuration j)));
       jwt.IssuedAt := Some (jwt.NewNumericDate (nowIat clock));
       jwt.NotBefore := Some (jwt.NewNumericDate (nowNbf clock));
       jwt.Issuer := "secure-task-api";
       jwt.Audience := [];
       jwt.ID := "" |} in
  let token := jwt.NewWithClaims jwt.SigningMethodHS256 claims in
  jwt.SignedString token (secret j).

(** The key function both validators pass to the parser. *)
Definition keyFunc {C : Type} (j : JWTManager) : jwt.Keyfunc C :=
  fun token =>
    match jwt.Method token with
    | jwt.SigningMethodHMAC _ => Ok (secret j)
    | jwt.SigningMethodOther alg =>
        Err (errorString ("unexpected signing method: " ++ alg))
    end.

(** [ValidateToken] parses and validates a JWT, returning the claims if
    valid; [now] is the clock as the parser's validator reads it. *)
Definition ValidateToken (j : JWTManager) (now : time.Time) (tokenString : string)
  : result Claims :=
  match jwt.ParseWithClaims now tokenString (keyFunc j) with
  | Err err => Err err
  | Ok token =>
      if jwt.Valid token then Ok (jwt.TokenClaims token)
      else Err (errorString "invalid token")
  end.

(** [GenerateTokenPair] creates both access and refresh tokens for a user. *)
Definition GenerateTokenPair (j : JWTManager) (accessClock refreshClock : Clock3)
    (userID : uuid.UUID) (email : string) : result (string * string) :=
  match GenerateAccessToken j accessClock userID email with
  | Err err => Err err
  | Ok accessToken =>
      match GenerateRefreshToken j refreshClock userID with
      | Err err => Err err
      | Ok refreshToken => Ok (accessToken, refreshToken)
      end
  end.

(** [ValidateRefreshToken] parses and validates a refresh token, returning
    the user ID if valid; [now] is the clock as the parser's validator reads
    it, [nowCheck] the reading of the expiry check that follows. *)
Definition ValidateRefreshToken (j : JWTManager) (now nowCheck : time.Time)
    (tokenString : string) : result string :=
  match jwt.ParseWithClaims (C := jwt.RegisteredClaims) now tokenString (keyFunc j) with
  | Err err => Err (wrapError "failed to parse refresh token" err)
  | Ok token =>
      let claims := jwt.TokenClaims token in
      if negb (jwt.Valid token) then Err (errorString "invalid refresh token")
      else if negb (String.eqb (jwt.Issuer claims) "secure-task-api")
      then Err (errorString "invalid token issuer")
      else
        match jwt.ExpiresAt claims with
        | None => Err (errorString "refresh token has expired")
        | Some exp =>
            if time.After nowCheck exp
            then Err (errorString "refresh token has expired")
            else if String.eqb (jwt.Subject claims) ""
            then Err (errorString "token missing subject")
            else Ok (jwt.Subject claims)
        end
  end.

(** What [ValidateRefreshToken] requires of a token string to return
    [subject]: three segments that decode to a header and registered claims,
    an HMAC method, the MAC of the first two segments under the secret as
    signature, not-before (if set) not after [now], the issuer of this
    deployment, an expiry after [now] and not before [nowCheck], a subject
    that is not empty. *)
Definition refreshAccepts (j : JWTManager) (now nowCheck : time.Time)
    (tokenString subject : string) : Prop :=
  exists (token : jwt.Token jwt.RegisteredClaims) p0 p1 p2 h sig exp,
    jwt.ParseUnverified tokenString = Ok (token, (p0, p1, p2))
    /\ jwt.Method token = jwt.SigningMethodHMAC h
    /\ jwt.DecodeSegment p2 = Some sig
    /\ sig = hmac.Sum h (secret j) (p0 ++ "." ++ p1)
    /\ jwt.notEarly now (jwt.NotBefore (jwt.TokenClaims token))
    /\ jwt.Issuer (jwt.TokenClaims token) = issuer
    /\ jwt.ExpiresAt (jwt.TokenClaims token) = Some exp
    /\ now < exp /\ nowCheck <= exp
    /\ jwt.Subject (jwt.TokenClaims token) <> ""
    /\ subject = jwt.Subject (jwt.TokenClaims token).

End WithLibraries.

End auth.

(* ================================================================== *)
(** * Packages net/http, context and the logger *)
(* ================================================================== *)

Module http.

Definition StatusOK : Z := 200.
Definition StatusBadRequest : Z := 400.
Definition StatusUnauthorized : Z := 401.
Definition StatusInternalServerError : Z := 500.

Definition StatusText (code : Z) : string :=
  if code =? 200 then "OK"
  else if code =? 201 then "Created"
  else if code =? 400 then "Bad Request"
  else if code =? 401 then "Unauthorized"
  else if code =? 404 then "Not Found"
  else if code =? 500 then "Internal Server Error"
  else if code =? 503 then "Service Unavailable"
  else "".

(** A header: the values of each key, the keys in canonical form. *)
Definition Header : Type := list (string * list string).

Fixpoint Get (h : Header) (key : string) : string :=
  match h with
  | [] => ""
  | (k, vs) :: rest =>
      if String.eqb k key then match vs with v :: _ => v | [] => "" end
      else Get rest key
  end.

Fixpoint Set_ (h : Header) (key value : string) : Header :=
  match h with
  | [] => [(key, [value])]
  | (k, vs) :: rest =>
      if String.eqb k key then (k, [value]) :: rest
      else (k, vs) :: Set_ rest key value
  end.

(** What a handler has done to its [ResponseWriter]: the header map, the
    status and header sent by the first [WriteHeader], the body written. *)
Record ResponseWriter : Type := {
  header : Header;
  sent : option (Z * Header);
  body : string
}.

Definition newResponseWriter : ResponseWriter :=
  {| header := []; sent := None; body := "" |}.

Definition HeaderSet (key value : string) (w : ResponseWriter) : ResponseWriter :=
  {| header := Set_ (header w) key value; sent := sent w; body := body w |}.

Definition WriteHeader (code : Z) (w : ResponseWriter) : ResponseWriter :=
  match sent w with
  | Some _ => w
  | None => {| header := header w; sent := Some (code, header w); body := body w |}
  end.

Definition Write (b : string) (w : ResponseWriter) : ResponseWriter :=
  let w := WriteHeader StatusOK w in
  {| header := header w; sent := sent w; body := body w ++ b |}.

(** The status the client sees. *)
Definition statusCode (w : ResponseWriter) : option Z := option_map fst (sent w).

(** Values a request's context carries, the latest first. *)
Definition Context : Type := list (string * string).

Definition WithValue (ctx : Context) (key value : string) : Context :=
  (key, value) :: ctx.

Fixpoint Value (ctx : Context) (key : string) : option string :=
  match ctx with
  | [] => None
  | (k, v) :: rest => if String.eqb k key then Some v else Value rest key
  end.

Record Request : Type := {
  ReqHeader : Header;
  Body : string;
  Ctx : Context
}.

Definition WithContext (r : Request) (ctx : Context) : Request :=
  {| ReqHeader := ReqHeader r; Body := Body r; Ctx := ctx |}.

End http.

Module logger.

Inductive Level : Type := InfoLevel | WarnLevel | ErrorLevel.

(** An entry as zap writes it: stamped with the time it was made at. *)
Record Entry : Type := {
  entryTime : time.Time;
  level : Level;
  message : string;
  errorField : option error
}.

(** A logger: the levels its configuration lets through, and the error field
    [WithError] gave it. *)
Record Logger : Type := {
  enabled : Level -> bool;
  withError : option error
}.

Definition WithError (l : Logger) (err : error) : Logger :=
  {| enabled := enabled l; withError := Some err |}.

End logger.

(** What serving one request acts on: the response writer, the log, and the
    clock, of which [reads] readings have been taken. *)
Record World : Type := {
  response : http.ResponseWriter;
  log : list logger.Entry;
  clock : nat -> time.Time;
  reads : nat
}.

Definition onResponse (f : http.ResponseWriter -> http.ResponseWriter) (s : World) : World :=
  {| response := f (response s); log := log s; clock := clock s; reads := reads s |}.

(** [time.Now()]. *)
Definition time_Now (s : World) : time.Time * World :=
  (clock s (reads s),
   {| response := response s; log := log s; clock := clock s; reads := S (reads s) |}).

(** [l.Warn(msg)], [l.Error(msg)]: a level the logger does not let through is
    dropped at once; for the others zap reads the clock and writes the
    entry. *)
Definition emit (lvl : logger.Level) (l : logger.Logger) (msg : string) (s : World) : World :=
  if logger.enabled l lvl
  then
    let '(now, s) := time_Now s in
    {| response := response s;
       log := (log s ++ [{| logger.entryTime := now; logger.level := lvl;
                            logger.message := msg;
                            logger.errorField := logger.withError l |}])%list;
       clock := clock s; reads := reads s |}
  else s.

(** The three readings one token takes. *)
Definition readClock3 (s : World) : auth.Clock3 * World :=
  let '(t1, s) := time_Now s in
  let '(t2, s) := time_Now s in
  let '(t3, s) := time_Now s in
  ({| auth.nowExp := t1; auth.nowIat := t2; auth.nowNbf := t3 |}, s).

Definition Handler : Type := http.Request -> World -> World.

(* ================================================================== *)
(** * Package internal/middleware *)
(* ================================================================== *)

Module middleware.

(** Private context keys. *)
Definition userIDKey : string := "user_id".
Definition emailKey : string := "email".

(** The double quote, for the string literals that hold one. *)
Definition quote : string := String "034"%char EmptyString.

(** [bearerToken] extracts the token part from [Authorization: Bearer
    <token>]. *)
Definition bearerToken (header : string) : string :=
  match strings.SplitN header " " 2 with
  | [p0; p1] => if String.eqb p0 "Bearer" then strings.TrimSpace p1 else ""
  | _ => ""
  end.

(** [unauthorized] sends a consistent unauthorized response. *)
Definition unauthorized (msg : string) (s : World) : World :=
  let s := onResponse (http.HeaderSet "Content-Type" "application/json") s in
  let s := onResponse (http.WriteHeader http.StatusUnauthorized) s in
  onResponse
    (http.Write ("{" ++ quote ++ "error" ++ quote ++ ":" ++ quote ++ "unauthorized"
                 ++ quote ++ "," ++ quote ++ "message" ++ quote ++ ":" ++ quote
                 ++ msg ++ quote ++ "}")) s.

Section WithLibraries.
Context `{json.Text}.

(** [AuthMiddleware] validates the JWT and attaches user data to the request
    context. *)
Definition AuthMiddleware (jwtManager : auth.JWTManager) (log : logger.Logger)
    (next : Handler) : Handler :=
  fun r s =>
    let authHeader := http.Get (http.ReqHeader r) "Authorization" in
    if String.eqb authHeader "" then unauthorized "authorization header missing" s
    else
      let token := bearerToken authHeader in
      if String.eqb token "" then unauthorized "invalid authorization header" s
      else
        let '(now, s) := time_Now s in
        match auth.ValidateToken jwtManager now token with
        | Err err =>
            let s := emit logger.WarnLevel (logger.WithError log err)
                       "token validation failed" s in
            unauthorized "invalid or expired token" s
        | Ok claims =>
            let ctx := http.Ctx r in
            let ctx := http.WithValue ctx userIDKey (auth.UserID claims) in
            let ctx := http.WithValue ctx emailKey (auth.Email claims) in
            next (http.WithContext r ctx) s
        end.

End WithLibraries.

(** Helpers used by handlers to read the user from the context. *)
Definition GetUserIDFromContext (ctx : http.Context) : option string :=
  http.Value ctx userIDKey.

Definition GetEmailFromContext (ctx : http.Context) : option string :=
  http.Value ctx emailKey.

End middleware.

(* ================================================================== *)
(** * Packages internal/models, internal/repository and pkg/utils *)
(* ================================================================== *)

Module models.

Record User : Type := {
  ID : uuid.UUID;
  Email : string;
  PasswordHash : string;
  Name : string;
  CreatedAt : time.Time;
  UpdatedAt : time.Time
}.

Record LoginRequest : Type := {
  LoginEmail : string;
  LoginPassword : string
}.

Definition LoginRequest_names : list string := ["email"; "password"].

Definition LoginRequest_store (r : LoginRequest) (name : string) (v : json.Value)
  : result LoginRequest :=
  if String.eqb name "email" then
    bind (json.intoString (LoginEmail r) v) (fun x =>
      Ok {| LoginEmail := x; LoginPassword := LoginPassword r |})
  else if String.eqb name "password" then
    bind (json.intoString (LoginPassword r) v) (fun x =>
      Ok {| LoginEmail := LoginEmail r; LoginPassword := x |})
  else Ok r.

Record AuthResponse : Type := {
  AuthUser : User;
  Token : string;
  RefreshToken : string
}.

Record ErrorResponse : Type := {
  Error : string;
  Message : string;
  Timestamp : time.Time;
  StatusCode : Z
}.

Section WithLayout.
Context `{time.Layout}.

Definition Time_MarshalJSON (t : time.Time) : json.Value :=
  json.JString (time.RFC3339Nano t).

(** The password hash is tagged [json:"-"]. *)
Definition User_toJSON (u : User) : json.Value :=
  json.JObject
    [ ("id", json.JString (uuid.String_ (ID u)));
      ("email", json.JString (Email u));
      ("name", json.JString (Name u));
      ("created_at", Time_MarshalJSON (CreatedAt u));
      ("updated_at", Time_MarshalJSON (UpdatedAt u)) ].

Definition AuthResponse_toJSON (a : AuthResponse) : json.Value :=
  json.JObject
    [ ("user", User_toJSON (AuthUser a));
      ("token", json.JString (Token a));
      ("refresh_token", json.JString (RefreshToken a)) ].

Definition ErrorResponse_toJSON (e : ErrorResponse) : json.Value :=
  json.JObject
    [ ("error", json.JString (Error e));
      ("message", json.JString (Message e));
      ("timestamp", Time_MarshalJSON (Timestamp e));
      ("status_code", json.JNumber (inject_Z (StatusCode e))) ].

End WithLayout.

End models.

Module repository.

(** What the handlers see of the user table. *)
Record UserRepositoryInterface : Type := {
  GetByEmail : string -> result (option models.User);
  GetByID : uuid.UUID -> result (option models.User)
}.

Record Repository : Type := {
  User : UserRepositoryInterface
}.

End repository.

Module utils.

Section WithLibraries.
Context `{json.Text} `{time.Layout}.

(** [JSONResponse] sends a JSON response; the encoder ends the document
    with a line feed. *)
Definition JSONResponse (status : Z) (data : json.Value) (s : World) : World :=
  let s := onResponse (http.HeaderSet "Content-Type" "application/json") s in
  let s := onResponse (http.WriteHeader status) s in
  onResponse (http.Write (json.Marshal data ++ String "010"%char EmptyString)) s.

(** [JSONError] sends an error response. *)
Definition JSONError (status : Z) (message : string) (s : World) : World :=
  let '(now, s) := time_Now s in
  JSONResponse status
    (models.ErrorResponse_toJSON
       {| models.Error := http.StatusText status;
          models.Message := message;
          models.Timestamp := now;
          models.StatusCode := status |}) s.

(** [JSONSuccess] sends a success response; a map is written with its keys
    sorted. *)
Definition JSONSuccess (status : Z) (data : json.Value) (s : World) : World :=
  JSONResponse status
    (json.JObject [("data", data); ("success", json.JBool true)]) s.

Definition Unauthorized (message : string) : World -> World :=
  JSONError http.StatusUnauthorized message.

Definition InternalServerError (message : string) : World -> World :=
  JSONError http.StatusInternalServerError message.

Definition BadRequest (message : string) : World -> World :=
  JSONError http.StatusBadRequest message.

(** [ParseJSON] parses JSON from the request body into a struct. *)
Definition ParseJSON {A : Type} (r : http.Request)
    (into : json.Value -> result A) : result A :=
  match json.Unmarshal (http.Body r) with
  | None => Err json.SyntaxError
  | Some doc => into doc
  end.

End WithLibraries.

End utils.

(* ================================================================== *)
(** * Package internal/handlers: auth.go *)
(* ================================================================== *)

Module handlers.

Record AuthHandler : Type := {
  repo : repository.Repository;
  jwtManager : auth.JWTManager;
  log : logger.Logger
}.

Definition zeroLoginRequest : models.LoginRequest :=
  {| models.LoginEmail := ""; models.LoginPassword := "" |}.

Section WithLibraries.
Context `{json.Text} `{bcrypt.Cipher} `{time.Layout}.

(** [Login] authenticates a user and returns a fresh token pair.  The clock
    is read for both tokens before [GenerateTokenPair] is entered; signing
    with an HMAC method does not fail, so the refresh token is never left
    out. *)
Definition Login (h : AuthHandler) : Handler :=
  fun r s =>
    match utils.ParseJSON r
            (json.intoStruct models.LoginRequest_names models.LoginRequest_store
               zeroLoginRequest) with
    | Err err =>
        let s := emit logger.ErrorLevel (logger.WithError (log h) err)
                   "invalid login payload" s in
        utils.BadRequest "Invalid request body" s
    | Ok req =>
        if String.eqb (models.LoginEmail req) ""
           || String.eqb (models.LoginPassword req) ""
        then utils.BadRequest "Email and password are required" s
        else
          match repository.GetByEmail (repository.User (repo h)) (models.LoginEmail req) with
          | Err err =>
              let s := emit logger.ErrorLevel (logger.WithError (log h) err)
                         "failed to fetch user during login" s in
              utils.InternalServerError "Failed to login" s
          | Ok None => utils.Unauthorized "Invalid email or password" s
          | Ok (Some user) =>
              match auth.CheckPassword (models.LoginPassword req)
                      (models.PasswordHash user) with
              | Some err =>
                  let s := emit logger.WarnLevel (logger.WithError (log h) err)
                             "password verification failed" s in
                  utils.Unauthorized "Invalid email or password" s
              | None =>
                  let '(accessClock, s) := readClock3 s in
                  let '(refreshClock, s) := readClock3 s in
                  match auth.GenerateTokenPair (jwtManager h) accessClock refreshClock
                          (models.ID user) (models.Email user) with
                  | Err err =>
                      let s := emit logger.ErrorLevel (logger.WithError (log h) err)
                                 "token generation failed" s in
                      utils.InternalServerError "Failed to login" s
                  | Ok (accessToken, refreshToken) =>
                      utils.JSONSuccess http.StatusOK
                        (models.AuthResponse_toJSON
                           {| models.AuthUser :=
                                {| models.ID := models.ID user;
                                   models.Email := models.Email user;
                                   models.PasswordHash := "";
                                   models.Name := models.Name user;
                                   models.CreatedAt := models.CreatedAt user;
                                   models.UpdatedAt := models.UpdatedAt user |};
                              models.Token := accessToken;
                              models.RefreshToken := refreshToken |}) s
                  end
              end
          end
    end.

End WithLibraries.

End handlers.

(* ================================================================== *)
(** * Reference libraries *)
(* ================================================================== *)

(** The development is parametric in the JSON text level, the calendar and
    the Blowfish cipher.  What follows gives each of them a definition to
    compute with: a reader and a writer of JSON text, the RFC 3339 layout in
    UTC, and a cipher of the same interface as Eksblowfish. *)

(** ** JSON text (RFC 8259, as [encoding/json] writes and reads it) *)

Module jsontext.

Definition byte (n : N) : ascii := ascii_of_N n.
Definition code (c : ascii) : N := N_of_ascii c.

Definition hexDigit (n : N) : ascii :=
  if (n <? 10)%N then byte (48 + n) else byte (87 + n).

(** The escape [\u00XX]. *)
Definition escapeU (n : N) : string :=
  String "\"%char (String "u"%char (String "0"%char (String "0"%char
    (String (hexDigit (n / 16)) (String (hexDigit (n mod 16)) EmptyString))))).

Definition isCont (c : ascii) : bool :=
  ((128 <=? code c) && (code c <=? 191))%N.

(** The length of the UTF-8 sequence [s] starts with, if it starts with a
    valid one of more than one byte. *)
Definition utf8Len (s : list ascii) : option nat :=
  match s with
  | a :: b :: rest =>
      let x := code a in
      let y := code b in
      if ((194 <=? x) && (x <=? 223))%N then
        if isCont b then Some 2%nat else None
      else if ((224 <=? x) && (x <=? 239))%N then
        match rest with
        | c :: _ =>
            if isCont b && isCont c
               && negb ((x =? 224)%N && (y <? 160)%N)
               && negb ((x =? 237)%N && (159 <? y)%N)
            then Some 3%nat else None
        | [] => None
        end
      else if ((240 <=? x) && (x <=? 244))%N then
        match rest with
        | c :: d :: _ =>
            if isCont b && isCont c && isCont d
               && negb ((x =? 240)%N && (y <? 144)%N)
               && negb ((x =? 244)%N && (143 <? y)%N)
            then Some 4%nat else None
        | _ => None
        end
      else None
  | _ => None
  end.

Definition replacement : string :=
  String "\"%char "ufffd".

(** The body of a string literal: quotes, backslashes, control characters
    and the characters HTML is wary of are escaped, bytes that are not UTF-8
    are replaced. *)
Fixpoint escape (fuel : nat) (s : list ascii) : string :=
  match fuel, s with
  | S fuel', c :: rest =>
      let n := code c in
      if (n =? 34)%N then String "\"%char (String c (escape fuel' rest))
      else if (n =? 92)%N then String "\"%char (String c (escape fuel' rest))
      else if (n =? 10)%N then String "\"%char (String "n"%char (escape fuel' rest))
      else if (n =? 13)%N then String "\"%char (String "r"%char (escape fuel' rest))
      else if (n =? 9)%N then String "\"%char (String "t"%char (escape fuel' rest))
      else if (n <? 32)%N || (n =? 60)%N || (n =? 62)%N || (n =? 38)%N
      then escapeU n ++ escape fuel' rest
      else if (n <? 128)%N then String c (escape fuel' rest)
      else
        match utf8Len s with
        | None => replacement ++ escape fuel' rest
        | Some len =>
            let seq := firstn len s in
            if list_eq_dec ascii_dec seq [byte 226; byte 128; byte 168]
            then String "\"%char "u2028" ++ escape fuel' (skipn len s)
            else if list_eq_dec ascii_dec seq [byte 226; byte 128; byte 169]
            then String "\"%char "u2029" ++ escape fuel' (skipn len s)
            else string_of_list_ascii seq ++ escape fuel' (skipn len s)
        end
  | _, _ => EmptyString
  end.

Definition quote : string := String "034"%char EmptyString.

Definition printString (s : string) : string :=
  quote ++ escape (String.length s) (list_ascii_of_string s) ++ quote.

Definition printZ (z : Z) : string := NilZero.string_of_int (Z.to_int z).

(** The digits after the decimal point, at most [n] of them. *)
Fixpoint fraction (n : nat) (num den : Z) : string :=
  match n with
  | O => EmptyString
  | S n' =>
      if num =? 0 then EmptyString
      else String (byte (48 + Z.to_N (num * 10 / den)))
             (fraction n' ((num * 10) mod den) den)
  end.

Definition printNumber (q : Q) : string :=
  let den := Z.pos (Qden q) in
  let whole := Z.quot (Qnum q) den in
  let rest := Z.abs (Qnum q - whole * den) in
  if rest =? 0 then printZ whole
  else (if (Qnum q <? 0) && (whole =? 0) then "-" else "")
       ++ printZ whole ++ "." ++ fraction 17 rest den.

Fixpoint print (v : json.Value) : string :=
  match v with
  | json.JNull => "null"
  | json.JBool true => "true"
  | json.JBool false => "false"
  | json.JNumber q => printNumber q
  | json.JString s => printString s
  | json.JArray elems =>
      "[" ++ (fix go (l : list json.Value) : string :=
                match l with
                | [] => ""
                | [x] => print x
                | x :: rest => print x ++ "," ++ go rest
                end) elems ++ "]"
  | json.JObject members =>
      "{" ++ (fix go (l : list (string * json.Value)) : string :=
                match l with
                | [] => ""
                | [(k, x)] => printString k ++ ":" ++ print x
                | (k, x) :: rest => printString k ++ ":" ++ print x ++ "," ++ go rest
                end) members ++ "}"
  end.

(** *** Reading *)

Definition isSpace (c : ascii) : bool :=
  match code c with
  | 32%N | 9%N | 10%N | 13%N => true
  | _ => false
  end.

Fixpoint skipSpace (s : list ascii) : list ascii :=
  match s with
  | c :: rest => if isSpace c then skipSpace rest else s
  | [] => []
  end.

Definition isDigit (c : ascii) : bool :=
  ((48 <=? code c) && (code c <=? 57))%N.

Fixpoint digits (s : list ascii) (acc : Z) (count : Z) : Z * Z * list ascii :=
  match s with
  | c :: rest =>
      if isDigit c then digits rest (acc * 10 + (Z.of_N (code c) - 48)) (count + 1)
      else (acc, count, s)
  | [] => (acc, count, [])
  end.

(** The UTF-8 encoding of a code point. *)
Definition utf8 (cp : N) : list ascii :=
  if (cp <? 128)%N then [byte cp]
  else if (cp <? 2048)%N then [byte (192 + cp / 64); byte (128 + cp mod 64)]
  else if (cp <? 65536)%N then
    [byte (224 + cp / 4096); byte (128 + (cp / 64) mod 64); byte (128 + cp mod 64)]
  else [byte (240 + cp / 262144); byte (128 + (cp / 4096) mod 64);
        byte (128 + (cp / 64) mod 64); byte (128 + cp mod 64)].

Definition hexValue (c : ascii) : option N :=
  let n := code c in
  if ((48 <=? n) && (n <=? 57))%N then Some (n - 48)%N
  else if ((97 <=? n) && (n <=? 102))%N then Some (n - 87)%N
  else if ((65 <=? n) && (n <=? 70))%N then Some (n - 55)%N
  else None.

Definition hex4 (s : list ascii) : option (N * list ascii) :=
  match s with
  | a :: b :: c :: d :: rest =>
      match hexValue a, hexValue b, hexValue c, hexValue d with
      | Some w, Some x, Some y, Some z => Some (((w * 16 + x) * 16 + y) * 16 + z, rest)%N
      | _, _, _, _ => None
      end
  | _ => None
  end.

(** The text of a string literal after its opening quote. *)
Fixpoint stringBody (fuel : nat) (s : list ascii) : option (list ascii * list ascii) :=
  match fuel, s with
  | S fuel', c :: rest =>
      let n := code c in
      let cons (x : list ascii) r :=
        match r with
        | Some (body, rest') => Some ((x ++ body)%list, rest')
        | None => None
        end in
      if (n =? 34)%N then Some ([], rest)
      else if (n <? 32)%N then None
      else if (n =? 92)%N then
        match rest with
        | e :: rest' =>
            match code e with
            | 34%N | 92%N | 47%N => cons [e] (stringBody fuel' rest')
            | 98%N => cons [byte 8] (stringBody fuel' rest')
            | 102%N => cons [byte 12] (stringBody fuel' rest')
            | 110%N => cons [byte 10] (stringBody fuel' rest')
            | 114%N => cons [byte 13] (stringBody fuel' rest')
            | 116%N => cons [byte 9] (stringBody fuel' rest')
            | 117%N =>
                match hex4 rest' with
                | None => None
                | Some (hi, rest2) =>
                    if ((55296 <=? hi) && (hi <? 56320))%N then
                      match rest2 with
                      | b :: u :: rest3 =>
                          match code b, code u, hex4 rest3 with
                          | 92%N, 117%N, Some (lo, rest4) =>
                              if ((56320 <=? lo) && (lo <? 57344))%N
                              then cons (utf8 (65536 + (hi - 55296) * 1024 + (lo - 56320)))
                                     (stringBody fuel' rest4)
                              else cons (utf8 65533) (stringBody fuel' rest2)
                          | _, _, _ => cons (utf8 65533) (stringBody fuel' rest2)
                          end
                      | _ => cons (utf8 65533) (stringBody fuel' rest2)
                      end
                    else if ((56320 <=? hi) && (hi <? 57344))%N
                    then cons (utf8 65533) (stringBody fuel' rest2)
                    else cons (utf8 hi) (stringBody fuel' rest2)
                end
            | _ => None
            end
        | [] => None
        end
      else if (n <? 128)%N then cons [c] (stringBody fuel' rest)
      else
        match utf8Len s with
        | Some len => cons (firstn len s) (stringBody fuel' (skipn len s))
        | None => cons (utf8 65533) (stringBody fuel' rest)
        end
  | _, _ => None
  end.

(** A number: an optional minus, an integer part without leading zeros, an
    optional fraction, an optional exponent. *)
Definition number (s : list ascii) : option (Q * list ascii) :=
  let '(neg, s) := match s with
                   | c :: rest => if (code c =? 45)%N then (true, rest) else (false, s)
                   | [] => (false, s)
                   end in
  let '(whole, n, rest) := digits s 0 0 in
  if (n =? 0) || ((1 <? n) && match s with c :: _ => (code c =? 48)%N | [] => false end)
  then None
  else
    let '(mant, scale, rest, okFrac) :=
      match rest with
      | c :: rest' =>
          if (code c =? 46)%N then
            let '(m, k, rest2) := digits rest' whole 0 in (m, k, rest2, 0 <? k)
          else (whole, 0, rest, true)
      | [] => (whole, 0, rest, true)
      end in
    let '(expo, rest, okExp) :=
      match rest with
      | c :: rest' =>
          if (code c =? 101)%N || (code c =? 69)%N then
            let '(sign, rest2) :=
              match rest' with
              | d :: rest3 =>
                  if (code d =? 45)%N then (-1, rest3)
                  else if (code d =? 43)%N then (1, rest3) else (1, rest')
              | [] => (1, rest')
              end in
            let '(e, k, rest3) := digits rest2 0 0 in (sign * e, rest3, 0 <? k)
          else (0, rest, true)
      | [] => (0, rest, true)
      end in
    if okFrac && okExp then
      let m := if neg then - mant else mant in
      let e := expo - scale in
      Some (if 0 <=? e then inject_Z (m * 10 ^ e)
            else Qmake m (Z.to_pos (10 ^ (- e))), rest)
    else None.

Definition literal (word : string) (v : json.Value) (s : list ascii)
  : option (json.Value * list ascii) :=
  let w := list_ascii_of_string word in
  if list_eq_dec ascii_dec (firstn (List.length w) s) w
  then Some (v, skipn (List.length w) s) else None.

Fixpoint value (fuel : nat) (s : list ascii) {struct fuel}
  : option (json.Value * list ascii) :=
  match fuel with
  | O => None
  | S fuel' =>
      match skipSpace s with
      | [] => None
      | c :: rest =>
          match code c with
          | 110%N => literal "null" json.JNull (c :: rest)
          | 116%N => literal "true" (json.JBool true) (c :: rest)
          | 102%N => literal "false" (json.JBool false) (c :: rest)
          | 34%N =>
              match stringBody (List.length rest) rest with
              | Some (body, rest') => Some (json.JString (string_of_list_ascii body), rest')
              | None => None
              end
          | 91%N =>
              match skipSpace rest with
              | d :: rest' =>
                  if (code d =? 93)%N then Some (json.JArray [], rest')
                  else match elements fuel' rest with
                       | Some (l, rest2) => Some (json.JArray l, rest2)
                       | None => None
                       end
              | [] => None
              end
          | 123%N =>
              match skipSpace rest with
              | d :: rest' =>
                  if (code d =? 125)%N then Some (json.JObject [], rest')
                  else match members fuel' rest with
                       | Some (l, rest2) => Some (json.JObject l, rest2)
                       | None => None
                       end
              | [] => None
              end
          | _ =>
              match number (c :: rest) with
              | Some (q, rest') => Some (json.JNumber q, rest')
              | None => None
              end
          end
      end
  end
with elements (fuel : nat) (s : list ascii) {struct fuel}
  : option (list json.Value * list ascii) :=
  match fuel with
  | O => None
  | S fuel' =>
      match value fuel' s with
      | None => None
      | Some (v, rest) =>
          match skipSpace rest with
          | c :: rest' =>
              if (code c =? 93)%N then Some ([v], rest')
              else if (code c =? 44)%N then
                match elements fuel' rest' with
                | Some (l, rest2) => Some (v :: l, rest2)
                | None => None
                end
              else None
          | [] => None
          end
      end
  end
with members (fuel : nat) (s : list ascii) {struct fuel}
  : option (list (string * json.Value) * list ascii) :=
  match fuel with
  | O => None
  | S fuel' =>
      match skipSpace s with
      | q :: rest =>
          if negb (code q =? 34)%N then None
          else
            match stringBody (List.length rest) rest with
            | None => None
            | Some (key, rest1) =>
                match skipSpace rest1 with
                | c :: rest2 =>
                    if negb (code c =? 58)%N then None
                    else
                      match value fuel' rest2 with
                      | None => None
                      | Some (v, rest3) =>
                          match skipSpace rest3 with
                          | d :: rest4 =>
                              if (code d =? 125)%N
                              then Some ([(string_of_list_ascii key, v)], rest4)
                              else if (code d =? 44)%N then
                                match members fuel' rest4 with
                                | Some (l, rest5) =>
                                    Some ((string_of_list_ascii key, v) :: l, rest5)
                                | None => None
                                end
                              else None
                          | [] => None
                          end
                      end
                | [] => None
                end
            end
      | [] => None
      end
  end.

(** One document and nothing but white space after it. *)
Definition parse (text : string) : option json.Value :=
  let s := list_ascii_of_string text in
  match value (S (List.length s)) s with
  | Some (v, rest) =>
      match skipSpace rest with
      | [] => Some v
      | _ :: _ => None
      end
  | None => None
  end.

End jsontext.

(** ** Instants in the RFC 3339 layout, in UTC *)

Module rfc3339.

(** The civil date of a day counted from the epoch. *)
Definition civil (days : Z) : Z * Z * Z :=
  let z := days + 719468 in
  let era := z / 146097 in
  let doe := z - era * 146097 in
  let yoe := (doe - doe / 1460 + doe / 36524 - doe / 146096) / 365 in
  let doy := doe - (365 * yoe + yoe / 4 - yoe / 100) in
  let mp := (5 * doy + 2) / 153 in
  let d := doy - (153 * mp + 2) / 5 + 1 in
  let m := if mp <? 10 then mp + 3 else mp - 9 in
  let y := yoe + era * 400 in
  (if m <=? 2 then y + 1 else y, m, d).

Definition digit (n : Z) : ascii := ascii_of_N (48 + Z.to_N n).

(** [n] in [width] digits. *)
Fixpoint fixed (width : nat) (n : Z) : string :=
  match width with
  | O => EmptyString
  | S w => fixed w (n / 10) ++ String (digit (n mod 10)) EmptyString
  end.

(** The digits of the fraction, trailing zeros left out. *)
Fixpoint trimmed (width : nat) (n : Z) : string :=
  match width with
  | O => EmptyString
  | S w => if n mod 10 =? 0 then trimmed w (n / 10) else fixed width n
  end.

Definition format (t : Z) : string :=
  let sec := t / 1000000000 in
  let nsec := t mod 1000000000 in
  let '(y, m, d) := civil (sec / 86400) in
  let rem := sec mod 86400 in
  fixed 4 y ++ "-" ++ fixed 2 m ++ "-" ++ fixed 2 d ++ "T"
  ++ fixed 2 (rem / 3600) ++ ":" ++ fixed 2 (rem mod 3600 / 60) ++ ":"
  ++ fixed 2 (rem mod 60)
  ++ (if nsec =? 0 then "" else "." ++ trimmed 9 nsec) ++ "Z".

End rfc3339.

Module reference.

(** ASCII letters folded to lower case. *)
Fixpoint lower (s : string) : string :=
  match s with
  | EmptyString => EmptyString
  | String c rest =>
      let n := N_of_ascii c in
      String (if ((65 <=? n) && (n <=? 90))%N then ascii_of_N (n + 32) else c)
        (lower rest)
  end.

Definition text : json.Text :=
  {| json.Marshal := jsontext.print;
     json.Unmarshal := jsontext.parse;
     json.foldName := lower |}.

Definition layout : time.Layout :=
  {| time.RFC3339Nano := rfc3339.format |}.

Definition inAlphabet (c : ascii) : bool :=
  match base64.indexOf c bcrypt.alphabet with
  | Some _ => true
  | None => false
  end.

(** A stand-in for Eksblowfish: a digest of 23 bytes that depends on the key
    stream, the cost and the salt, encoded as bcrypt encodes its own; a salt
    that is not 22 characters of the alphabet does not decode. *)
Definition crypt (stream : string) (cost : Z) (salt : string) : result string :=
  if (String.length salt =? 22)%nat && strings.allBytes inAlphabet salt
  then Ok (bcrypt.base64Encode
             (strings.take 23
                (crypto.Sum crypto.SHA512
                   (stream ++ String (ascii_of_N (Z.to_N cost)) salt))))
  else Err (errorString "illegal base64 data").

Definition cipher : bcrypt.Cipher :=
  {| bcrypt.crypt := crypt |}.

End reference.

(* ================================================================== *)
(** * Notions the statements use *)
(* ================================================================== *)

Unset Implicit Arguments.

Section Notions.
Context `{json.Text} `{time.Layout}.

(** The body [unauthorized] writes. *)
Definition unauthorizedBody (msg : string) : string :=
  "{" ++ middleware.quote ++ "error" ++ middleware.quote ++ ":" ++ middleware.quote
  ++ "unauthorized" ++ middleware.quote ++ "," ++ middleware.quote ++ "message"
  ++ middleware.quote ++ ":" ++ middleware.quote ++ msg ++ middleware.quote ++ "}".

(** The credential [GenerateFromPassword] returns: version 2a, the cost, the
    salt, the digest. *)
Definition credential (salt digest : string) : bcrypt.hashed :=
  {| bcrypt.hash := digest; bcrypt.salt := salt; bcrypt.cost := bcrypt.DefaultCost;
     bcrypt.major := bcrypt.majorVersion; bcrypt.minor := bcrypt.minorVersion |}.

(** The validator's verdict on claims, as [ValidateToken] passes it on. *)
Definition verdict {C : Type} `{jwt.Claims C} (now : time.Time) (claims : C) : result C :=
  match jwt.Validate now claims with
  | Ok _ => Ok claims
  | Err e => Err (jwt.newError "" jwt.ErrTokenInvalidClaims (Some e))
  end.

(** The context the gate hands on for the claims of a token. *)
Definition authenticated (r : http.Request) (claims : auth.Claims) : http.Request :=
  http.WithContext r
    (http.WithValue
       (http.WithValue (http.Ctx r) middleware.userIDKey (auth.UserID claims))
       middleware.emailKey (auth.Email claims)).

Definition passwordDoesNotMatch : error := errorString "password does not match".

(** The login request a body decodes to. *)
Definition loginRequest (r : http.Request) : result models.LoginRequest :=
  utils.ParseJSON r
    (json.intoStruct models.LoginRequest_names models.LoginRequest_store
       handlers.zeroLoginRequest).

(** The document of the error response of [status] with [message], written
    at [now]. *)
Definition errorDocument (status : Z) (message : string) (now : time.Time) : json.Value :=
  models.ErrorResponse_toJSON
    {| models.Error := http.StatusText status; models.Message := message;
       models.Timestamp := now; models.StatusCode := status |}.

End Notions.

(* ================================================================== *)
(** * Fixtures: one deployment, its tokens and its stored user *)
(* ================================================================== *)

Module fixtures.

Section WithReference.
Local Existing Instance reference.text.
Local Existing Instance reference.layout.
Local Existing Instance reference.cipher.

Definition userID : uuid.UUID :=
  {| uuid.bytes := "0123456789abcdef"; uuid.bytes_len := eq_refl |}.

Definition email : string := "a@b.com".

(** Tokens live 15 minutes and 7 days, as the configuration defaults say. *)
Definition manager : auth.JWTManager :=
  auth.NewJWTManager "topsecret" (15 * time.Minute) (7 * 24 * time.Hour).

Definition otherManager : auth.JWTManager :=
  auth.NewJWTManager "another-secret" (15 * time.Minute) (7 * 24 * time.Hour).

(** The same secret followed by a zero byte. *)
Definition paddedManager : auth.JWTManager :=
  auth.NewJWTManager ("topsecret" ++ String Ascii.zero EmptyString)
    (15 * time.Minute) (7 * 24 * time.Hour).

(** 2023-11-14T22:13:20Z. *)
Definition issued : time.Time := 1700000000 * time.Second.

Definition accessToken : string :=
  Eval vm_compute in
    match auth.GenerateAccessToken manager (auth.frozen issued) userID email with
    | Ok token => token
    | Err _ => EmptyString
    end.

Definition refreshToken : string :=
  Eval vm_compute in
    match auth.GenerateRefreshToken manager (auth.frozen issued) userID with
    | Ok token => token
    | Err _ => EmptyString
    end.

(** Claims as another service holding the same secret would sign them. *)
Definition foreignClaims : auth.Claims :=
  {| auth.UserID := "someone"; auth.Email := "x@y.org";
     auth.RegisteredClaims :=
       {| jwt.Issuer := "some-other-service"; jwt.Subject := ""; jwt.Audience := [];
          jwt.ExpiresAt := Some (issued + time.Hour);
          jwt.NotBefore := Some issued; jwt.IssuedAt := Some issued; jwt.ID := "" |} |}.

Definition foreignToken : string :=
  Eval vm_compute in
    match jwt.SignedString (jwt.NewWithClaims jwt.SigningMethodHS256 foreignClaims)
            (auth.secret manager) with
    | Ok token => token
    | Err _ => EmptyString
    end.

(** A refresh token of another issuer. *)
Definition foreignRefreshClaims : jwt.RegisteredClaims :=
  {| jwt.Issuer := "some-other-service"; jwt.Subject := "someone"; jwt.Audience := [];
     jwt.ExpiresAt := Some (issued + time.Hour);
     jwt.NotBefore := Some issued; jwt.IssuedAt := Some issued; jwt.ID := "" |}.

Definition foreignRefreshToken : string :=
  Eval vm_compute in
    match jwt.SignedString (jwt.NewWithClaims jwt.SigningMethodHS256 foreignRefreshClaims)
            (auth.secret manager) with
    | Ok token => token
    | Err _ => EmptyString
    end.

(** A refresh token that is not valid before an hour from [issued]. *)
Definition earlyClaims : jwt.RegisteredClaims :=
  {| jwt.Issuer := auth.issuer; jwt.Subject := uuid.String_ userID; jwt.Audience := [];
     jwt.ExpiresAt := Some (issued + 2 * time.Hour);
     jwt.NotBefore := Some (issued + time.Hour);
     jwt.IssuedAt := Some issued; jwt.ID := "" |}.

Definition earlyToken : string :=
  Eval vm_compute in
    match jwt.SignedString (jwt.NewWithClaims jwt.SigningMethodHS256 earlyClaims)
            (auth.secret manager) with
    | Ok token => token
    | Err _ => EmptyString
    end.

Definition freshWorld : World :=
  {| response := http.newResponseWriter; log := [];
     clock := fun n => issued + Z.of_nat n; reads := 0 |}.

Definition noLogger : logger.Logger :=
  {| logger.enabled := fun _ => true; logger.withError := None |}.

(** Business logic: it answers with the user id it finds in the context. *)
Definition business : Handler :=
  fun r s =>
    onResponse
      (http.Write
         (match middleware.GetUserIDFromContext (http.Ctx r) with
          | Some id => "tasks of " ++ id
          | None => "no user"
          end)) s.

Definition request (headers : http.Header) (body : string) : http.Request :=
  {| http.ReqHeader := headers; http.Body := body; http.Ctx := [] |}.

Definition authorization (value : string) : http.Request :=
  request [("Authorization", [value])] "".

Definition salt16 : string := "0123456789abcdef".

Definition password : string := "hunter2".

Definition storedDigest : string :=
  Eval vm_compute in
    match bcrypt.bcrypt password bcrypt.DefaultCost (bcrypt.base64Encode salt16) with
    | Ok d => d
    | Err _ => EmptyString
    end.

Definition storedHash : string :=
  Eval vm_compute in
    match auth.HashPassword (Ok salt16) password with
    | Ok h => h
    | Err _ => EmptyString
    end.

Definition user : models.User :=
  {| models.ID := userID; models.Email := email; models.PasswordHash := storedHash;
     models.Name := "A"; models.CreatedAt := issued; models.UpdatedAt := issued |}.

(** A user table without the user, and one with. *)
Definition emptyRepo : repository.Repository :=
  {| repository.User :=
       {| repository.GetByEmail := fun _ => Ok None;
          repository.GetByID := fun _ => Ok None |} |}.

Definition userRepo : repository.Repository :=
  {| repository.User :=
       {| repository.GetByEmail :=
            fun e => if String.eqb e email then Ok (Some user) else Ok None;
          repository.GetByID := fun _ => Ok (Some user) |} |}.

Definition handler (repo : repository.Repository) : handlers.AuthHandler :=
  {| handlers.repo := repo; handlers.jwtManager := manager; handlers.log := noLogger |}.

(** The body [{"email":"a@b.com","password":"wrong"}]. *)
Definition loginBody : string :=
  jsontext.print
    (json.JObject [("email", json.JString email); ("password", json.JString "wrong")]).

End WithReference.

End fixtures.

(* ================================================================== *)
(** * Packages strconv and net/url *)
(* ================================================================== *)

Module strconv.

Definition ErrSyntax : error := errorString "invalid syntax".
Definition ErrRange : error := errorString "value out of range".

(** [&NumError{Func, Num, Err}], as its three fields. *)
Definition NumError (func num : string) (err : error) : error :=
  wrapError ("strconv." ++ func) (wrapError num err).

Definition isDigit (c : ascii) : bool :=
  ((48 <=? N_of_ascii c) && (N_of_ascii c <=? 57))%N.

(** The loop of [ParseUint(s, 10, 64)]: a byte that is no digit is a syntax
    error, a value beyond 64 bits a range error, whichever comes first. *)
Fixpoint parseDigits (s : string) (n : Z) : result Z :=
  match s with
  | EmptyString => Ok n
  | String c rest =>
      if negb (isDigit c) then Err ErrSyntax
      else if (2 ^ 64 - 1) / 10 + 1 <=? n then Err ErrRange
      else
        let n1 := n * 10 + (Z.of_N (N_of_ascii c) - 48) in
        if 2 ^ 64 - 1 <? n1 then Err ErrRange else parseDigits rest n1
  end.

(** [Atoi(s)], an [int] being 64 bits wide: an optional sign and decimal
    digits, within the range of the type. *)
Definition Atoi (s : string) : result Z :=
  let '(neg, ds) :=
    match s with
    | String c rest =>
        if Ascii.eqb c "-"%char then (true, rest)
        else if Ascii.eqb c "+"%char then (false, rest)
        else (false, s)
    | EmptyString => (false, s)
    end in
  match ds with
  | EmptyString => Err (NumError "Atoi" s ErrSyntax)
  | String _ _ =>
      match parseDigits ds 0 with
      | Err e => Err (NumError "Atoi" s e)
      | Ok un =>
          if negb neg && (2 ^ 63 <=? un) then Err (NumError "Atoi" s ErrRange)
          else if neg && (2 ^ 63 <? un) then Err (NumError "Atoi" s ErrRange)
          else Ok (if neg then - un else un)
      end
  end.

End strconv.

Module url.

(** [url.Values]: the values of each key of a query.  [r.URL.Query()], the
    parsing of the raw query, is not part of this development. *)
Definition Values : Type := list (string * list string).

(** [v.Get(key)]: the first value of the key, or the empty string. *)
Fixpoint Get (v : Values) (key : string) : string :=
  match v with
  | [] => ""
  | (k, vs) :: rest =>
      if String.eqb k key then match vs with x :: _ => x | [] => "" end
      else Get rest key
  end.

End url.

(* ================================================================== *)
(** * pkg/utils: the parameters of a request *)
(* ================================================================== *)

Module request.

(** [GetQueryParam] gets a query parameter with default value; [query] is
    [r.URL.Query()]. *)
Definition GetQueryParam (query : url.Values) (key defaultValue : string) : string :=
  let value := url.Get query key in
  if String.eqb value "" then defaultValue else value.

(** [GetQueryParamInt] gets a query parameter as integer with default
    value. *)
Definition GetQueryParamInt (query : url.Values) (key : string) (defaultValue : Z) : Z :=
  let value := url.Get query key in
  if String.eqb value "" then defaultValue
  else match strconv.Atoi value with
       | Err _ => defaultValue
       | Ok intValue => intValue
       end.

(** [GetPaginationParams] gets pagination parameters from request. *)
Definition GetPaginationParams (query : url.Values) : Z * Z :=
  let page := GetQueryParamInt query "page" 1 in
  let limit := GetQueryParamInt query "limit" 10 in
  let page := if page <? 1 then 1 else page in
  let limit := if limit <? 1 then 10 else limit in
  let limit := if 100 <? limit then 100 else limit in
  (page, limit).

End request.

(* ================================================================== *)
(** * internal/middleware: the path of a request *)
(* ================================================================== *)

Module slash.

(** A handler that reads the path of the request URL takes it beside the
    request. *)
Definition PathHandler : Type := string -> Handler.

(** [StripTrailingSlash] normalizes URLs like [/tasks/] to [/tasks]. *)
Definition StripTrailingSlash (next : PathHandler) : PathHandler :=
  fun path r s =>
    if (1 <? String.length path)%nat
       && match String.get (String.length path - 1) path with
          | Some c => Ascii.eqb c "/"%char
          | None => false
          end
    then next (strings.take (String.length path - 1) path) r s
    else next path r s.

End slash.


(* ================================================================== *)
(** * Package github.com/google/uuid: parsing *)
(* ================================================================== *)

Module uuidtext.

Definition ErrInvalidUUIDFormat : error := errorString "invalid UUID format".

(** [invalidLengthError{len}]. *)
Definition invalidLengthError (len : nat) : error :=
  errorString ("invalid UUID length: " ++ NilZero.string_of_uint (Nat.to_uint len)).

(** [fmt.Errorf("invalid urn prefix: %q", prefix)]; the quoting of the prefix
    is not part of this development, the error holds the prefix as it is. *)
Definition invalidURNPrefix (prefix : string) : error :=
  wrapError "invalid urn prefix" (errorString prefix).

(** The table [xvalues]: the value of a hexadecimal digit. *)
Definition xvalue (c : ascii) : option N :=
  let n := N_of_ascii c in
  if ((48 <=? n) && (n <=? 57))%N then Some (n - 48)%N
  else if ((65 <=? n) && (n <=? 70))%N then Some (n - 55)%N
  else if ((97 <=? n) && (n <=? 102))%N then Some (n - 87)%N
  else None.

(** [xtob(x1, x2)]: the byte of two hexadecimal digits. *)
Definition xtob (x1 x2 : ascii) : option ascii :=
  match xvalue x1, xvalue x2 with
  | Some a, Some b => Some (ascii_of_N (a * 16 + b))
  | _, _ => None
  end.

(** [s[i]], for an index within bounds. *)
Definition byteAt (s : string) (i : nat) : ascii :=
  match String.get i s with
  | Some c => c
  | None => Ascii.zero
  end.

(** The bytes of the digit pairs at the given offsets, if all are
    hexadecimal. *)
Fixpoint decodeAt (s : string) (offsets : list nat) : option string :=
  match offsets with
  | [] => Some EmptyString
  | x :: rest =>
      match xtob (byteAt s x) (byteAt s (S x)) with
      | None => None
      | Some b =>
          match decodeAt s rest with
          | Some bs => Some (String b bs)
          | None => None
          end
      end
  end.

(** Sixteen bytes as a UUID. *)
Definition fromBytes (b : string) : option uuid.UUID :=
  match Nat.eq_dec (String.length b) 16 with
  | left e => Some {| uuid.bytes := b; uuid.bytes_len := e |}
  | right _ => None
  end.

Definition decoded (s : string) (offsets : list nat) : result uuid.UUID :=
  match decodeAt s offsets with
  | None => Err ErrInvalidUUIDFormat
  | Some b =>
      match fromBytes b with
      | Some u => Ok u
      | None => Err ErrInvalidUUIDFormat
      end
  end.

(** ASCII letters in lower case: what [strings.EqualFold] with a text of the
    letters d, i, n, r, u compares. *)
Fixpoint asciiLower (s : string) : string :=
  match s with
  | EmptyString => EmptyString
  | String c rest =>
      let n := N_of_ascii c in
      String (if ((65 <=? n) && (n <=? 90))%N then ascii_of_N (n + 32) else c)
        (asciiLower rest)
  end.

(** The offsets of the digit pairs in xxxxxxxx-xxxx-xxxx-xxxx-xxxxxxxxxxxx. *)
Definition hyphenated : list nat :=
  [0; 2; 4; 6; 9; 11; 14; 16; 19; 21; 24; 26; 28; 30; 32; 34]%nat.

Definition plain : list nat :=
  [0; 2; 4; 6; 8; 10; 12; 14; 16; 18; 20; 22; 24; 26; 28; 30]%nat.

(** The standard form after its prefix, if any, is cut off. *)
Definition parseHyphenated (s : string) : result uuid.UUID :=
  if negb (Ascii.eqb (byteAt s 8) "-"%char) || negb (Ascii.eqb (byteAt s 13) "-"%char)
     || negb (Ascii.eqb (byteAt s 18) "-"%char) || negb (Ascii.eqb (byteAt s 23) "-"%char)
  then Err ErrInvalidUUIDFormat
  else decoded s hyphenated.

(** [uuid.Parse(s)]: the standard form, the same behind [urn:uuid:] or in
    braces, or 32 hexadecimal digits. *)
Definition Parse (s : string) : result uuid.UUID :=
  let len := String.length s in
  if (len =? 36)%nat then parseHyphenated s
  else if (len =? 36 + 9)%nat then
    if negb (String.eqb (asciiLower (strings.take 9 s)) "urn:uuid:")
    then Err (invalidURNPrefix (strings.take 9 s))
    else parseHyphenated (strings.drop 9 s)
  else if (len =? 36 + 2)%nat then parseHyphenated (strings.drop 1 s)
  else if (len =? 32)%nat then decoded s plain
  else Err (invalidLengthError len).

End uuidtext.


(* ================================================================== *)
(** * internal/handlers: registration and token refresh *)
(* ================================================================== *)

Module authhandler.

Definition StatusCreated : Z := 201.

(** [models.RegisterRequest]. *)
Record RegisterRequest : Type := {
  RegisterEmail : string;
  RegisterPassword : string;
  RegisterName : string
}.

Definition RegisterRequest_names : list string := ["email"; "password"; "name"].

Definition RegisterRequest_store (r : RegisterRequest) (name : string) (v : json.Value)
  : result RegisterRequest :=
  if String.eqb name "email" then
    bind (json.intoString (RegisterEmail r) v) (fun x =>
      Ok {| RegisterEmail := x; RegisterPassword := RegisterPassword r;
            RegisterName := RegisterName r |})
  else if String.eqb name "password" then
    bind (json.intoString (RegisterPassword r) v) (fun x =>
      Ok {| RegisterEmail := RegisterEmail r; RegisterPassword := x;
            RegisterName := RegisterName r |})
  else if String.eqb name "name" then
    bind (json.intoString (RegisterName r) v) (fun x =>
      Ok {| RegisterEmail := RegisterEmail r; RegisterPassword := RegisterPassword r;
            RegisterName := x |})
  else Ok r.

Definition zeroRegisterRequest : RegisterRequest :=
  {| RegisterEmail := ""; RegisterPassword := ""; RegisterName := "" |}.

(** The request of [Refresh]: a struct of the one field [refresh_token]. *)
Definition refreshRequest_names : list string := ["refresh_token"].

Definition refreshRequest_store (token : string) (name : string) (v : json.Value)
  : result string :=
  if String.eqb name "refresh_token" then json.intoString token v else Ok token.

(** The zero values of [uuid.UUID] and [time.Time]: sixteen zero bytes, and
    the first instant of year 1. *)
Definition zeroUUID : uuid.UUID :=
  {| uuid.bytes := hmac.zeros 16; uuid.bytes_len := eq_refl |}.

Definition zeroTime : time.Time := -62135596800 * time.Second.

(** [UserRepositoryInterface.Create(ctx, user)]: the method fills in the
    user it is given, may read the clock, and returns an error or nil. *)
Definition Create : Type := models.User -> World -> (models.User * option error) * World.

Section WithLibraries.
Context `{json.Text} `{bcrypt.Cipher} `{time.Layout}.

(** The answer both handlers end with: the user without the password hash,
    and the token pair. *)
Definition authResponse (user : models.User) (accessToken refreshToken : string)
  : json.Value :=
  models.AuthResponse_toJSON
    {| models.AuthUser :=
         {| models.ID := models.ID user;
            models.Email := models.Email user;
            models.PasswordHash := "";
            models.Name := models.Name user;
            models.CreatedAt := models.CreatedAt user;
            models.UpdatedAt := models.UpdatedAt user |};
       models.Token := accessToken;
       models.RefreshToken := refreshToken |}.

(** [Register] creates a new user account and returns a token pair on
    success; [create] is [h.repo.User.Create], [entropy] what bcrypt reads
    from the random source. *)
Definition Register (h : handlers.AuthHandler) (create : Create)
    (entropy : result string) : Handler :=
  fun r s =>
    match utils.ParseJSON r
            (json.intoStruct RegisterRequest_names RegisterRequest_store
               zeroRegisterRequest) with
    | Err err =>
        let s := emit logger.ErrorLevel (logger.WithError (handlers.log h) err)
                   "invalid register payload" s in
        utils.BadRequest "Invalid request body" s
    | Ok req =>
        if String.eqb (RegisterEmail req) "" || String.eqb (RegisterPassword req) ""
           || String.eqb (RegisterName req) ""
        then utils.BadRequest "Email, password, and name are required" s
        else
          match repository.GetByEmail (repository.User (handlers.repo h))
                  (RegisterEmail req) with
          | Err err =>
              let s := emit logger.ErrorLevel (logger.WithError (handlers.log h) err)
                         "failed to check existing user" s in
              utils.InternalServerError "Failed to register user" s
          | Ok (Some _) => utils.BadRequest "User with this email already exists" s
          | Ok None =>
              match auth.HashPassword entropy (RegisterPassword req) with
              | Err err =>
                  let s := emit logger.ErrorLevel (logger.WithError (handlers.log h) err)
                             "password hashing failed" s in
                  utils.InternalServerError "Failed to register user" s
              | Ok passwordHash =>
                  let user :=
                    {| models.ID := zeroUUID;
                       models.Email := RegisterEmail req;
                       models.PasswordHash := passwordHash;
                       models.Name := RegisterName req;
                       models.CreatedAt := zeroTime;
                       models.UpdatedAt := zeroTime |} in
                  let '((user, failure), s) := create user s in
                  match failure with
                  | Some err =>
                      let s := emit logger.ErrorLevel
                                 (logger.WithError (handlers.log h) err)
                                 "failed to persist user" s in
                      utils.InternalServerError "Failed to register user" s
                  | None =>
                      let '(accessClock, s) := readClock3 s in
                      let '(refreshClock, s) := readClock3 s in
                      match auth.GenerateTokenPair (handlers.jwtManager h) accessClock
                              refreshClock (models.ID user) (models.Email user) with
                      | Err err =>
                          let s := emit logger.ErrorLevel
                                     (logger.WithError (handlers.log h) err)
                                     "token generation failed" s in
                          utils.InternalServerError "Failed to register user" s
                      | Ok (accessToken, refreshToken) =>
                          utils.JSONSuccess StatusCreated
                            (authResponse user accessToken refreshToken) s
                      end
                  end
              end
          end
    end.

(** [Refresh] handles token refresh requests.  The clock is read for the
    validator and for the expiry check before [ValidateRefreshToken] is
    entered. *)
Definition Refresh (h : handlers.AuthHandler) : Handler :=
  fun r s =>
    match utils.ParseJSON r
            (json.intoStruct refreshRequest_names refreshRequest_store "") with
    | Err err =>
        let s := emit logger.ErrorLevel (logger.WithError (handlers.log h) err)
                   "invalid refresh payload" s in
        utils.BadRequest "Invalid request body" s
    | Ok refreshToken =>
        if String.eqb refreshToken "" then utils.BadRequest "refresh_token is required" s
        else
          let '(now, s) := time_Now s in
          let '(nowCheck, s) := time_Now s in
          match auth.ValidateRefreshToken (handlers.jwtManager h) now nowCheck
                  refreshToken with
          | Err err =>
              let s := emit logger.WarnLevel (logger.WithError (handlers.log h) err)
                         "refresh token validation failed" s in
              utils.Unauthorized "Invalid or expired refresh token" s
          | Ok userIDStr =>
              match uuidtext.Parse userIDStr with
              | Err err =>
                  let s := emit logger.ErrorLevel (logger.WithError (handlers.log h) err)
                             "invalid user ID in refresh token" s in
                  utils.Unauthorized "Invalid token" s
              | Ok userID =>
                  match repository.GetByID (repository.User (handlers.repo h)) userID with
                  | Err err =>
                      let s := emit logger.ErrorLevel
                                 (logger.WithError (handlers.log h) err)
                                 "failed to fetch user during refresh" s in
                      utils.InternalServerError "Failed to refresh token" s
                  | Ok None => utils.Unauthorized "User not found" s
                  | Ok (Some user) =>
                      let '(accessClock, s) := readClock3 s in
                      let '(refreshClock, s) := readClock3 s in
                      match auth.GenerateTokenPair (handlers.jwtManager h) accessClock
                              refreshClock (models.ID user) (models.Email user) with
                      | Err err =>
                          let s := emit logger.ErrorLevel
                                     (logger.WithError (handlers.log h) err)
                                     "token generation failed during refresh" s in
                          utils.InternalServerError "Failed to refresh token" s
                      | Ok (accessToken, refreshToken) =>
                          utils.JSONSuccess http.StatusOK
                            (authResponse user accessToken refreshToken) s
                      end
                  end
              end
          end
    end.

(** The requests the bodies decode to. *)
Definition registerRequest (r : http.Request) : result RegisterRequest :=
  utils.ParseJSON r
    (json.intoStruct RegisterRequest_names RegisterRequest_store zeroRegisterRequest).

Definition refreshRequest (r : http.Request) : result string :=
  utils.ParseJSON r (json.intoStruct refreshRequest_names refreshRequest_store "").

End WithLibraries.

End authhandler.

(* ================================================================== *)
(** * internal/handlers: the task handlers behind the gate *)
(* ================================================================== *)

Module taskhandler.

Definition StatusNoContent : Z := 204.

(** Go's [int], 64 bits wide: sums wrap around, quotients drop the
    fraction. *)
Definition wrap (x : Z) : Z := (x + 2 ^ 63) mod 2 ^ 64 - 2 ^ 63.

(** [models.Task]. *)
Record Task : Type := {
  ID : uuid.UUID;
  Title : string;
  Description : string;
  Status : string;
  DueDate : time.Time;
  UserID : uuid.UUID;
  CreatedAt : time.Time;
  UpdatedAt : time.Time;
  DeletedAt : option time.Time
}.

(** [models.Pagination]. *)
Record Pagination : Type := {
  Page : Z;
  Limit : Z;
  Total : Z;
  TotalPages : Z
}.

(** What the two handlers here use of [TaskRepositoryInterface].  A slice of
    tasks is [None] when it is nil. *)
Record TaskRepositoryInterface : Type := {
  GetAll : uuid.UUID -> Z -> Z -> result (option (list Task) * Z);
  Delete : uuid.UUID -> uuid.UUID -> option error
}.

(** [TaskHandler]; [repoTask] is [h.repo.Task]. *)
Record TaskHandler : Type := {
  repoTask : TaskRepositoryInterface;
  log : logger.Logger
}.

Section WithLibraries.
Context `{json.Text} `{time.Layout}.

Definition Task_toJSON (t : Task) : json.Value :=
  json.JObject
    (json.omitempty
       [ ("id", json.always (json.JString (uuid.String_ (ID t))));
         ("title", json.always (json.JString (Title t)));
         ("description", json.always (json.JString (Description t)));
         ("status", json.always (json.JString (Status t)));
         ("due_date", json.always (models.Time_MarshalJSON (DueDate t)));
         ("user_id", json.always (json.JString (uuid.String_ (UserID t))));
         ("created_at", json.always (models.Time_MarshalJSON (CreatedAt t)));
         ("updated_at", json.always (models.Time_MarshalJSON (UpdatedAt t)));
         ("deleted_at", option_map models.Time_MarshalJSON (DeletedAt t)) ]).

Definition Pagination_toJSON (p : Pagination) : json.Value :=
  json.JObject
    [ ("page", json.JNumber (inject_Z (Page p)));
      ("limit", json.JNumber (inject_Z (Limit p)));
      ("total", json.JNumber (inject_Z (Total p)));
      ("total_pages", json.JNumber (inject_Z (TotalPages p))) ].

(** [models.TaskListResponse]; a nil slice is written as null. *)
Definition TaskListResponse_toJSON (tasks : option (list Task)) (p : Pagination)
  : json.Value :=
  json.JObject
    [ ("tasks", match tasks with
                | Some l => json.JArray (List.map Task_toJSON l)
                | None => json.JNull
                end);
      ("pagination", Pagination_toJSON p) ].

(** [ListTasks]; [query] is [r.URL.Query()].  The limit is at least 1, so
    the division does not panic. *)
Definition ListTasks (h : TaskHandler) (query : url.Values) : Handler :=
  fun r s =>
    match middleware.GetUserIDFromContext (http.Ctx r) with
    | None => utils.Unauthorized "User not authenticated" s
    | Some userIDStr =>
        match uuidtext.Parse userIDStr with
        | Err err =>
            let s := emit logger.ErrorLevel (logger.WithError (log h) err)
                       "Invalid user ID in context" s in
            utils.InternalServerError "Invalid user context" s
        | Ok userID =>
            let '(page, limit) := request.GetPaginationParams query in
            match GetAll (repoTask h) userID page limit with
            | Err err =>
                let s := emit logger.ErrorLevel (logger.WithError (log h) err)
                           "Failed to fetch tasks" s in
                utils.InternalServerError "Failed to get tasks" s
            | Ok (tasks, total) =>
                let totalPages := Z.quot (wrap (wrap (total + limit) - 1)) limit in
                utils.JSONSuccess http.StatusOK
                  (TaskListResponse_toJSON tasks
                     {| Page := page; Limit := limit; Total := total;
                        TotalPages := totalPages |}) s
            end
        end
    end.

(** [DeleteTask]; [taskIDStr] is [chi.URLParam(r, "id")]. *)
Definition DeleteTask (h : TaskHandler) (taskIDStr : string) : Handler :=
  fun r s =>
    match middleware.GetUserIDFromContext (http.Ctx r) with
    | None => utils.Unauthorized "User not authenticated" s
    | Some userIDStr =>
        match uuidtext.Parse userIDStr with
        | Err err =>
            let s := emit logger.ErrorLevel (logger.WithError (log h) err)
                       "Invalid user ID in context" s in
            utils.InternalServerError "Invalid user context" s
        | Ok userID =>
            match uuidtext.Parse taskIDStr with
            | Err _ => utils.BadRequest "Invalid task ID" s
            | Ok taskID =>
                match Delete (repoTask h) taskID userID with
                | Some err =>
                    let s := emit logger.ErrorLevel (logger.WithError (log h) err)
                               "Failed to delete task" s in
                    utils.InternalServerError "Failed to delete task" s
                | None => onResponse (http.WriteHeader StatusNoContent) s
                end
            end
        end
    end.

End WithLibraries.

End taskhandler.

(* ================================================================== *)
(** * Fixtures: requests to the handlers *)
(* ================================================================== *)

Module scenarios.

Section WithReference.
Local Existing Instance reference.text.
Local Existing Instance reference.layout.
Local Existing Instance reference.cipher.

Import fixtures.

(** The body [{"email":"a@b.com","password":"hunter2"}], and the same
    without a password. *)
Definition rightLoginBody : string :=
  jsontext.print
    (json.JObject [("email", json.JString email); ("password", json.JString password)]).

Definition incompleteLoginBody : string :=
  jsontext.print (json.JObject [("email", json.JString email)]).

Definition refreshBody (token : string) : string :=
  jsontext.print (json.JObject [("refresh_token", json.JString token)]).

(** A registration: the email of the fixtures, a password and a name. *)
Definition newcomer : authhandler.RegisterRequest :=
  {| authhandler.RegisterEmail := email;
     authhandler.RegisterPassword := "secret1";
     authhandler.RegisterName := "A" |}.

Definition registerBody : string :=
  jsontext.print
    (json.JObject [("email", json.JString email); ("password", json.JString "secret1");
                   ("name", json.JString "A")]).

Definition newcomerHash : string :=
  Eval vm_compute in
    match auth.HashPassword (Ok salt16) "secret1" with
    | Ok h => h
    | Err _ => EmptyString
    end.

(** A user table that gives every new user the id [userID] and the time
    [issued]. *)
Definition createUser : authhandler.Create :=
  fun u s =>
    (({| models.ID := userID; models.Email := models.Email u;
         models.PasswordHash := models.PasswordHash u; models.Name := models.Name u;
         models.CreatedAt := issued; models.UpdatedAt := issued |}, None),
     snd (time_Now s)).

Definition taskID : uuid.UUID :=
  {| uuid.bytes := "fedcba9876543210"; uuid.bytes_len := eq_refl |}.

(** A task table that holds 25 tasks of every user and deletes the task
    [taskID] of the user [userID] only. *)
Definition taskRepo : taskhandler.TaskRepositoryInterface :=
  {| taskhandler.GetAll := fun _ _ _ => Ok (None, 25);
     taskhandler.Delete :=
       fun t u =>
         if String.eqb (uuid.bytes t) (uuid.bytes taskID)
            && String.eqb (uuid.bytes u) (uuid.bytes userID)
         then None else Some (errorString "task not found") |}.

Definition tasks : taskhandler.TaskHandler :=
  {| taskhandler.repoTask := taskRepo; taskhandler.log := noLogger |}.

(** A request as the gate hands it on for the user. *)
Definition authenticatedRequest : http.Request :=
  {| http.ReqHeader := []; http.Body := "";
     http.Ctx := [(middleware.userIDKey, uuid.String_ userID)] |}.

Definition pageTwo : url.Values := [("page", ["2"]); ("limit", ["10"])].

End WithReference.

End scenarios.

(* ================================================================== *)
(** * Facts about strings *)
(* ================================================================== *)

Section StringFacts.

Lemma append_nil_r (s : string) : s ++ "" = s.
Proof. induction s as [|c s IH]; simpl; [reflexivity | now rewrite IH]. Qed.

Lemma append_assoc (a b c : string) : (a ++ b) ++ c = a ++ (b ++ c).
Proof. induction a as [|x a IH]; simpl; [reflexivity | now rewrite IH]. Qed.

Lemma length_append (a b : string) :
  String.length (a ++ b) = (String.length a + String.length b)%nat.
Proof. induction a as [|x a IH]; simpl; [reflexivity | now rewrite IH]. Qed.

Lemma append_eq_nil (a b : string) : a ++ b = "" -> a = "" /\ b = "".
Proof. destruct a; simpl; [auto | discriminate]. Qed.

Lemma append_cancel_r (a b c : string) : a ++ c = b ++ c -> a = b.
Proof.
  revert b; induction a as [|x a IH]; intros [|y b] Heq; cbn [append] in Heq.
  - reflexivity.
  - apply (f_equal String.length) in Heq. cbn [String.length] in Heq.
    rewrite length_append in Heq. lia.
  - apply (f_equal String.length) in Heq. cbn [String.length] in Heq.
    rewrite length_append in Heq. lia.
  - injection Heq as -> Heq. f_equal. now apply IH.
Qed.

Lemma take_append (a b : string) : strings.take (String.length a) (a ++ b) = a.
Proof. induction a as [|x a IH]; simpl; [now destruct b | now rewrite IH]. Qed.

Lemma drop_append (a b : string) : strings.drop (String.length a) (a ++ b) = b.
Proof. induction a as [|x a IH]; simpl; [reflexivity | exact IH]. Qed.

Lemma take_all (n : nat) (s : string) :
  (String.length s <= n)%nat -> strings.take n s = s.
Proof.
  revert n; induction s as [|c s IH]; intros [|n] Hn; simpl in *;
    try reflexivity; try lia.
  now rewrite IH by lia.
Qed.

Lemma length_take (n : nat) (s : string) :
  String.length (strings.take n s) = Nat.min n (String.length s).
Proof.
  revert s; induction n as [|n IH]; intros [|c s]; simpl; try reflexivity.
  now rewrite IH.
Qed.

Lemma length_drop (n : nat) (s : string) :
  String.length (strings.drop n s) = (String.length s - n)%nat.
Proof.
  revert s; induction n as [|n IH]; intros [|c s]; simpl; try reflexivity.
  apply IH.
Qed.

Lemma take_drop (n : nat) (s : string) : strings.take n s ++ strings.drop n s = s.
Proof.
  revert s; induction n as [|n IH]; intros [|c s]; simpl; try reflexivity.
  now rewrite IH.
Qed.

(** A three-step induction on strings, for the codecs that read three bytes
    at a time. *)
Lemma string_triples (P : string -> Prop) :
  P "" ->
  (forall a, P (String a "")) ->
  (forall a b, P (String a (String b ""))) ->
  (forall a b c rest, P rest -> P (String a (String b (String c rest)))) ->
  forall s, P s.
Proof.
  intros H0 H1 H2 H3 s.
  assert (Hall : P s /\ (forall a, P (String a s))
                 /\ (forall a b, P (String a (String b s)))).
  { induction s as [|c s (IHa & IHb & IHc)].
    - repeat split; auto.
    - repeat split; auto. }
  exact (proj1 Hall).
Qed.

Lemma absent_append (c : ascii) (a b : string) :
  strings.absent c (a ++ b) = strings.absent c a && strings.absent c b.
Proof.
  induction a as [|x a IH]; simpl; [reflexivity|].
  now rewrite IH, andb_assoc.
Qed.

Lemma Cut_absent (c : ascii) (s : string) :
  strings.absent c s = true -> strings.Cut s (String c "") = None.
Proof.
  induction s as [|x s IH]; simpl; intros Hs; [reflexivity|].
  apply andb_prop in Hs as [Hx Hs].
  apply negb_true_iff in Hx. rewrite Hx. simpl. now rewrite IH.
Qed.

Lemma Cut_first (c : ascii) (a b : string) :
  strings.absent c a = true ->
  strings.Cut (a ++ String c b) (String c "") = Some (a, b).
Proof.
  induction a as [|x a IH]; simpl; intros Ha.
  - rewrite Ascii.eqb_refl. reflexivity.
  - apply andb_prop in Ha as [Hx Ha].
    apply negb_true_iff in Hx. rewrite Hx. simpl. now rewrite IH.
Qed.

Lemma HasPrefix_sound (s prefix : string) :
  strings.HasPrefix s prefix = true ->
  s = prefix ++ strings.drop (String.length prefix) s.
Proof.
  revert s; induction prefix as [|p prefix IH]; intros [|c s] Hp;
    simpl in *; try reflexivity; try discriminate.
  apply andb_prop in Hp as [Hc Hp].
  apply Ascii.eqb_eq in Hc as ->. f_equal. now apply IH.
Qed.

Lemma Cut_sound (s sep before after : string) :
  strings.Cut s sep = Some (before, after) -> s = before ++ sep ++ after.
Proof.
  revert before after.
  induction s as [|x s IH]; intros before after; simpl.
  - destruct sep; simpl; [|discriminate]. intros [= <- <-]. reflexivity.
  - destruct (strings.HasPrefix (String x s) sep) eqn:Hp.
    + intros [= <- <-]. simpl. now apply HasPrefix_sound.
    + destruct (strings.Cut s sep) as [[b a]|] eqn:Hc; [|discriminate].
      intros [= <- <-]. simpl. f_equal. now apply IH.
Qed.

Lemma SplitN_two (s sep : string) :
  strings.SplitN s sep 2 =
  match strings.Cut s sep with
  | Some (before, after) => [before; after]
  | None => [s]
  end.
Proof. simpl. now destruct (strings.Cut s sep) as [[b a]|]. Qed.

Lemma Split_three (c : ascii) (a b d : string) :
  strings.absent c a = true -> strings.absent c b = true -> strings.absent c d = true ->
  strings.Split (a ++ String c (b ++ String c d)) (String c "") = [a; b; d].
Proof.
  intros Ha Hb Hd. unfold strings.Split.
  rewrite length_append. simpl String.length. rewrite length_append. simpl String.length.
  replace (S (String.length a + S (String.length b + S (String.length d))))
    with (S (S (S (String.length a + String.length b + String.length d)))) by lia.
  set (n := (String.length a + String.length b + String.length d)%nat).
  change (strings.SplitN ?s ?sep (S (S (S n))))
    with (match strings.Cut s sep with
          | None => [s]
          | Some (before, after) => before :: strings.SplitN after sep (S (S n))
          end).
  rewrite Cut_first by assumption.
  change (strings.SplitN ?s ?sep (S (S n)))
    with (match strings.Cut s sep with
          | None => [s]
          | Some (before, after) => before :: strings.SplitN after sep (S n)
          end).
  rewrite Cut_first by assumption.
  destruct n as [|n]; [reflexivity|].
  change (strings.SplitN ?s ?sep (S (S n)))
    with (match strings.Cut s sep with
          | None => [s]
          | Some (before, after) => before :: strings.SplitN after sep (S n)
          end).
  now rewrite Cut_absent.
Qed.

End StringFacts.

(* ================================================================== *)
(** * Facts about base64 *)
(* ================================================================== *)

Section Base64Facts.

Lemma value_char_URL (x : base64.sextet) :
  base64.value base64.encodeURL (base64.char base64.encodeURL x) = Some x.
Proof.
  destruct x as [[[[[b5 b4] b3] b2] b1] b0].
  destruct b5, b4, b3, b2, b1, b0; reflexivity.
Qed.

Lemma char_URL_plain (x : base64.sextet) :
  base64.isNewline (base64.char base64.encodeURL x) = false
  /\ Ascii.eqb "."%char (base64.char base64.encodeURL x) = false.
Proof.
  destruct x as [[[[[b5 b4] b3] b2] b1] b0].
  destruct b5, b4, b3, b2, b1, b0; split; reflexivity.
Qed.

Lemma values_chars_URL (xs : list base64.sextet) :
  base64.values base64.encodeURL (base64.chars base64.encodeURL xs) = Some xs.
Proof.
  induction xs as [|x xs IH]; cbn [base64.values base64.chars]; [reflexivity|].
  destruct (char_URL_plain x) as [-> _].
  now rewrite value_char_URL, IH.
Qed.

Lemma decodeQuanta_sextets (s : string) :
  base64.decodeQuanta (base64.sextets s) = Some s.
Proof.
  induction s as [ | a | a b | a b c rest IH ] using string_triples.
  - reflexivity.
  - now destruct a.
  - now destruct a, b.
  - destruct a, b, c. simpl. now rewrite IH.
Qed.

(** Decoding undoes encoding. *)
Lemma DecodeString_EncodeToString (s : string) :
  base64.DecodeString base64.encodeURL (base64.EncodeToString base64.encodeURL s)
  = Some s.
Proof.
  unfold base64.DecodeString, base64.EncodeToString.
  rewrite values_chars_URL. apply decodeQuanta_sextets.
Qed.

(** No full stop in an encoded segment. *)
Lemma EncodeToString_no_dot (s : string) :
  strings.absent "." (base64.EncodeToString base64.encodeURL s) = true.
Proof.
  unfold base64.EncodeToString.
  induction (base64.sextets s) as [|x xs IH];
    cbn [strings.absent base64.chars]; [reflexivity|].
  destruct (char_URL_plain x) as [_ ->]. exact IH.
Qed.

Lemma length_chars (enc : base64.Encoding) (xs : list base64.sextet) :
  String.length (base64.chars enc xs) = List.length xs.
Proof. induction xs as [|x xs IH]; simpl; [reflexivity | now rewrite IH]. Qed.

(** Sixteen bytes of salt make 22 characters. *)
Lemma length_base64Encode_salt (s : string) :
  String.length s = 16%nat ->
  String.length (bcrypt.base64Encode s) = bcrypt.encodedSaltSize.
Proof.
  intros Hs. unfold bcrypt.base64Encode, base64.EncodeToString.
  rewrite length_chars.
  do 17 (destruct s as [|[] s]; try discriminate Hs).
  reflexivity.
Qed.

End Base64Facts.

(* ================================================================== *)
(** * Facts about times and numeric dates *)
(* ================================================================== *)

Section TimeFacts.

Lemma Truncate_Second (t : time.Time) :
  time.Truncate t time.Second = t - t mod 1000000000.
Proof. reflexivity. Qed.

Lemma Truncate_whole (t : time.Time) :
  (time.Truncate t time.Second) mod time.Second = 0.
Proof.
  rewrite Truncate_Second. unfold time.Second.
  rewrite Zminus_mod, Z.mod_mod by lia.
  rewrite Z.sub_diag. reflexivity.
Qed.

Lemma Truncate_fixed (t : time.Time) :
  t mod time.Second = 0 -> time.Truncate t time.Second = t.
Proof. rewrite Truncate_Second. unfold time.Second. lia. Qed.

Lemma Truncate_le (t : time.Time) : time.Truncate t time.Second <= t.
Proof.
  rewrite Truncate_Second.
  pose proof (Z.mod_pos_bound t 1000000000 ltac:(lia)). lia.
Qed.

Lemma NewNumericDate_whole (t : time.Time) :
  (jwt.NewNumericDate t) mod time.Second = 0.
Proof. apply Truncate_whole. Qed.

(** A date of whole seconds survives its JSON form. *)
Lemma NumericDate_roundtrip (d : jwt.NumericDate) :
  d mod time.Second = 0 ->
  jwt.NumericDate_UnmarshalJSON (jwt.NumericDate_MarshalJSON d) = Ok d.
Proof.
  intros Hd. unfold jwt.NumericDate_MarshalJSON, jwt.NumericDate_UnmarshalJSON.
  f_equal. unfold jwt.newNumericDateFromSeconds, jwt.NewNumericDate, jwt.TimePrecision.
  rewrite (Truncate_fixed d Hd).
  cbn [inject_Z Qnum Qden]. rewrite Z.quot_1_r.
  replace ((time.Unix d - time.Unix d * 1) * time.Second) with 0 by lia.
  rewrite Z.quot_0_l by lia.
  unfold time.Add, time.FromUnix, time.Unix.
  assert (Heq : d / time.Second * time.Second + 0 = d).
  { unfold time.Second in *. pose proof (Z.div_mod d 1000000000 ltac:(lia)). lia. }
  rewrite Heq. exact (Truncate_fixed d Hd).
Qed.

Lemma intoNumericDate_roundtrip (d : jwt.NumericDate) :
  d mod time.Second = 0 ->
  jwt.intoNumericDate (jwt.NumericDate_MarshalJSON d) = Ok (Some d).
Proof.
  intros Hd. pose proof (NumericDate_roundtrip d Hd) as Hr.
  unfold jwt.intoNumericDate. cbv beta iota delta [jwt.NumericDate_MarshalJSON] in *.
  now rewrite Hr.
Qed.

End TimeFacts.

(* ================================================================== *)
(** * Facts about the JSON form of claims *)
(* ================================================================== *)

Section ClaimsFacts.
Context `{json.Text}.

Lemma allStrings_roundtrip (l : list string) :
  jwt.allStrings (List.map json.JString l) = Ok l.
Proof. induction l as [|s l IH]; simpl; [reflexivity | now rewrite IH]. Qed.

Lemma field_exact (names : list string) (key : string) :
  existsb (String.eqb key) names = true -> json.field names key = Some key.
Proof. intros Hk. unfold json.field. now rewrite Hk. Qed.

Ltac store_dates :=
  repeat match goal with
  | Hd : ?d mod time.Second = 0 |- context [jwt.intoNumericDate (jwt.NumericDate_MarshalJSON ?d)] =>
      rewrite (intoNumericDate_roundtrip d Hd)
  | |- context [jwt.allStrings (List.map json.JString ?l)] =>
      rewrite (allStrings_roundtrip l)
  end.

Ltac store_step :=
  cbn [json.storeMembers json.intoStruct json.omitempty flat_map List.app
       jwt.RegisteredClaims_members auth.Claims_members
       jwt.Issuer jwt.Subject jwt.Audience jwt.ExpiresAt jwt.NotBefore
       jwt.IssuedAt jwt.ID
       fst snd option_map json.nonEmptyString String.eqb Ascii.eqb Bool.eqb
       jwt.ClaimStrings_MarshalJSON];
  try rewrite !field_exact by reflexivity;
  cbn [jwt.RegisteredClaims_store auth.Claims_store json.intoString bind
       jwt.ClaimStrings_UnmarshalJSON String.eqb Ascii.eqb Bool.eqb
       auth.UserID auth.Email auth.RegisteredClaims];
  store_dates;
  cbn [bind].

(** The registered claims survive their JSON document. *)
Lemma RegisteredClaims_fromJSON_toJSON (c : jwt.RegisteredClaims) :
  jwt.wholeSeconds c ->
  jwt.fromJSON (jwt.toJSON c) = Ok c.
Proof.
  destruct c as [iss sub aud exp nbf iat jti].
  intros (Hexp & Hnbf & Hiat).
  cbn [jwt.fromJSON jwt.toJSON jwt.RegisteredClaims_Claims].
  unfold jwt.RegisteredClaims_names, jwt.zeroRegisteredClaims.
  destruct iss as [|? ?], sub as [|? ?], aud as [|? ?], exp as [?|], nbf as [?|],
    iat as [?|], jti as [|? ?];
    cbn [jwt.wholeDate jwt.ExpiresAt jwt.NotBefore jwt.IssuedAt] in Hexp, Hnbf, Hiat;
    repeat store_step; reflexivity.
Qed.

(** So do the claims of an access token. *)
Lemma Claims_fromJSON_toJSON (c : auth.Claims) :
  jwt.wholeSeconds (auth.RegisteredClaims c) ->
  jwt.fromJSON (jwt.toJSON c) = Ok c.
Proof.
  destruct c as [uid email [iss sub aud exp nbf iat jti]].
  intros (Hexp & Hnbf & Hiat).
  cbn [jwt.fromJSON jwt.toJSON auth.Claims_Claims].
  unfold auth.Claims_names, jwt.RegisteredClaims_names, auth.zeroClaims,
    jwt.zeroRegisteredClaims.
  destruct iss as [|? ?], sub as [|? ?], aud as [|? ?], exp as [?|], nbf as [?|],
    iat as [?|], jti as [|? ?];
    cbn [jwt.wholeDate jwt.ExpiresAt jwt.NotBefore jwt.IssuedAt auth.RegisteredClaims]
      in Hexp, Hnbf, Hiat;
    repeat store_step; reflexivity.
Qed.

(** Read as the claims of an access token, the document of registered claims
    alone leaves the user's id and email empty. *)
Lemma Claims_fromJSON_registered (c : jwt.RegisteredClaims) :
  jwt.wholeSeconds c ->
  jwt.fromJSON (C := auth.Claims) (jwt.toJSON c)
  = Ok {| auth.UserID := ""; auth.Email := ""; auth.RegisteredClaims := c |}.
Proof.
  destruct c as [iss sub aud exp nbf iat jti].
  intros (Hexp & Hnbf & Hiat).
  cbn [jwt.fromJSON jwt.toJSON auth.Claims_Claims jwt.RegisteredClaims_Claims].
  unfold auth.Claims_names, jwt.RegisteredClaims_names, auth.zeroClaims,
    jwt.zeroRegisteredClaims.
  destruct iss as [|? ?], sub as [|? ?], aud as [|? ?], exp as [?|], nbf as [?|],
    iat as [?|], jti as [|? ?];
    cbn [jwt.wholeDate jwt.ExpiresAt jwt.NotBefore jwt.IssuedAt] in Hexp, Hnbf, Hiat;
    repeat store_step; reflexivity.
Qed.

End ClaimsFacts.

(* ================================================================== *)
(** * Facts about the parser and the validator *)
(* ================================================================== *)

Section ParserFacts.
Context `{json.Text}.

Lemma GetSigningMethod_Alg (h : crypto.Hash) :
  jwt.GetSigningMethod (jwt.Alg (jwt.SigningMethodHMAC h))
  = Some (jwt.SigningMethodHMAC h).
Proof. destruct h; reflexivity. Qed.

(** The validator accepts exactly inside the time window. *)
Lemma Validate_Ok {C : Type} `{jwt.Claims C} (now : time.Time) (claims : C) :
  jwt.Validate now claims = Ok tt
  <-> jwt.notExpired now (jwt.GetExpirationTime claims)
      /\ jwt.notEarly now (jwt.GetNotBefore claims).
Proof.
  unfold jwt.Validate, jwt.verifyExpiresAt, jwt.verifyNotBefore,
    jwt.notExpired, jwt.notEarly, time.Before.
  destruct (jwt.GetExpirationTime claims) as [e|],
           (jwt.GetNotBefore claims) as [n|]; cbn [jwt.errorList flat_map List.app].
  - destruct (Z.ltb_spec now e), (Z.ltb_spec now n);
      cbn [negb List.app]; split; try discriminate; try tauto; try lia; intros; lia.
  - destruct (Z.ltb_spec now e); cbn [List.app];
      split; try discriminate; try tauto; intros; lia.
  - destruct (Z.ltb_spec now n); cbn [negb List.app];
      split; try discriminate; try tauto; intros; lia.
  - tauto.
Qed.

Lemma Validate_unit {C : Type} `{jwt.Claims C} (now : time.Time) (claims : C) (u : unit) :
  jwt.Validate now claims = Ok u <-> jwt.Validate now claims = Ok tt.
Proof. now destruct u. Qed.

(** What a successful parse has checked, and nothing else: the three
    segments decode, the key function gives a key, the signature is the MAC
    of the first two segments, the claims are inside the time window. *)
Lemma ParseWithClaims_Ok {C : Type} `{jwt.Claims C} (now : time.Time)
    (tokenString : string) (keyFunc : jwt.Keyfunc C) (tok : jwt.Token C) :
  jwt.ParseWithClaims now tokenString keyFunc = Ok tok
  <-> exists token p0 p1 p2 key sig,
        jwt.ParseUnverified tokenString = Ok (token, (p0, p1, p2))
        /\ keyFunc token = Ok key
        /\ jwt.DecodeSegment p2 = Some sig
        /\ jwt.Verify (jwt.Method token) (p0 ++ "." ++ p1) sig key = Ok tt
        /\ jwt.Validate now (jwt.TokenClaims token) = Ok tt
        /\ tok = {| jwt.Raw := jwt.Raw token; jwt.Method := jwt.Method token;
                    jwt.Header := jwt.Header token;
                    jwt.TokenClaims := jwt.TokenClaims token;
                    jwt.Signature := sig; jwt.Valid := true |}.
Proof.
  unfold jwt.ParseWithClaims. split.
  - destruct (jwt.ParseUnverified tokenString) as [[token [[p0 p1] p2]]|e];
      [|discriminate].
    destruct (keyFunc token) as [key|e] eqn:Hk; [|discriminate].
    destruct (jwt.DecodeSegment p2) as [sig|] eqn:Hs; [|discriminate].
    destruct (jwt.Verify (jwt.Method token) (p0 ++ "." ++ p1) sig key) as [[]|e] eqn:Hv;
      [|discriminate].
    destruct (jwt.Validate now (jwt.TokenClaims token)) as [[]|e] eqn:Hc;
      [|discriminate].
    intros [= <-]. exists token, p0, p1, p2, key, sig. repeat split; assumption.
  - intros (token & p0 & p1 & p2 & key & sig & -> & -> & -> & -> & -> & ->).
    reflexivity.
Qed.

(** Verification with an HMAC method is the comparison of the MACs. *)
Lemma Verify_HMAC (h : crypto.Hash) (signingString sig key : string) :
  jwt.Verify (jwt.SigningMethodHMAC h) signingString sig key = Ok tt
  <-> sig = hmac.Sum h key signingString.
Proof.
  unfold jwt.Verify, hmac.Equal.
  destruct (String.eqb_spec sig (hmac.Sum h key signingString)); split;
    try discriminate; tauto.
Qed.

Lemma Verify_Other (alg signingString sig key : string) :
  jwt.Verify (jwt.SigningMethodOther alg) signingString sig key <> Ok tt.
Proof. discriminate. Qed.

(** The key function of both validators gives the secret, to HMAC methods
    only. *)
Lemma keyFunc_Ok {C : Type} (j : auth.JWTManager) (token : jwt.Token C) (key : string) :
  auth.keyFunc j token = Ok key
  <-> (exists h, jwt.Method token = jwt.SigningMethodHMAC h) /\ key = auth.secret j.
Proof.
  unfold auth.keyFunc. destruct (jwt.Method token) as [h|alg]; split.
  - intros [= <-]. split; [now exists h | reflexivity].
  - intros [_ ->]. reflexivity.
  - discriminate.
  - intros [[h Hh] _]. discriminate.
Qed.

(** A token signed with an HMAC method parses back into its header and, in
    the claims type of the parser, whatever its claims document decodes
    to. *)
Lemma ParseUnverified_signed {C C' : Type} `{jwt.Claims C} `{jwt.Claims C'}
    (h : crypto.Hash) (claims : C) (claims' : C') (sigSeg : string) :
  let t := jwt.NewWithClaims (jwt.SigningMethodHMAC h) claims in
  json.roundtrips (json.JObject (jwt.Header t)) ->
  json.roundtrips (jwt.toJSON claims) ->
  jwt.fromJSON (jwt.toJSON claims) = Ok claims' ->
  strings.absent "." sigSeg = true ->
  jwt.ParseUnverified (jwt.SigningString t ++ "." ++ sigSeg)
  = Ok ({| jwt.Raw := jwt.SigningString t ++ "." ++ sigSeg;
           jwt.Method := jwt.SigningMethodHMAC h;
           jwt.Header := jwt.Header t;
           jwt.TokenClaims := claims';
           jwt.Signature := "";
           jwt.Valid := false |},
        (jwt.EncodeSegment (json.Marshal (json.JObject (jwt.Header t))),
         jwt.EncodeSegment (json.Marshal (jwt.toJSON claims)),
         sigSeg)).
Proof.
  intros t Hhdr Hdoc Hdec Hsig.
  unfold jwt.ParseUnverified, jwt.SigningString.
  cbn [jwt.TokenClaims t jwt.NewWithClaims].
  set (p0 := jwt.EncodeSegment (json.Marshal (json.JObject (jwt.Header t)))).
  set (p1 := jwt.EncodeSegment (json.Marshal (jwt.toJSON claims))).
  replace ((p0 ++ "." ++ p1) ++ "." ++ sigSeg)
    with (p0 ++ String "."%char (p1 ++ String "."%char sigSeg))
    by (now rewrite append_assoc).
  rewrite Split_three by (try apply EncodeToString_no_dot; assumption).
  subst p0 p1.
  unfold jwt.DecodeSegment, jwt.EncodeSegment.
  rewrite !DecodeString_EncodeToString.
  unfold json.roundtrips in Hhdr, Hdoc. rewrite Hhdr, Hdoc, Hdec.
  cbn [json.intoMap jwt.Header t jwt.NewWithClaims json.mapIndex String.eqb
       Ascii.eqb Bool.eqb].
  rewrite GetSigningMethod_Alg. reflexivity.
Qed.

End ParserFacts.

(* ================================================================== *)
(** * Signed tokens under the parser *)
(* ================================================================== *)

Section SignedTokens.
Context `{json.Text}.

(** The fate of a token signed with [key] before the parser of a manager:
    the MACs under the two keys are compared, then the time window is
    checked; nothing else is. *)
Lemma ParseWithClaims_signed {C C' : Type} `{jwt.Claims C} `{jwt.Claims C'}
    (h : crypto.Hash) (claims : C) (claims' : C') (key : string)
    (j : auth.JWTManager) (now : time.Time) :
  let t := jwt.NewWithClaims (jwt.SigningMethodHMAC h) claims in
  let sstr := jwt.SigningString t in
  let signed := sstr ++ "." ++ jwt.EncodeSegment (hmac.Sum h key sstr) in
  json.roundtrips (json.JObject (jwt.Header t)) ->
  json.roundtrips (jwt.toJSON claims) ->
  jwt.fromJSON (jwt.toJSON claims) = Ok claims' ->
  jwt.SignedString t key = Ok signed
  /\ jwt.ParseWithClaims now signed (auth.keyFunc j)
     = if hmac.Equal (hmac.Sum h key sstr) (hmac.Sum h (auth.secret j) sstr)
       then match jwt.Validate now claims' with
            | Ok _ =>
                Ok {| jwt.Raw := signed;
                      jwt.Method := jwt.SigningMethodHMAC h;
                      jwt.Header := jwt.Header t;
                      jwt.TokenClaims := claims';
                      jwt.Signature := hmac.Sum h key sstr;
                      jwt.Valid := true |}
            | Err e => Err (jwt.newError "" jwt.ErrTokenInvalidClaims (Some e))
            end
       else Err (jwt.newError "" jwt.ErrTokenSignatureInvalid
                   (Some jwt.ErrSignatureInvalid)).
Proof.
  intros t sstr signed Hhdr Hdoc Hdec. split; [reflexivity|].
  unfold jwt.ParseWithClaims. subst signed sstr.
  rewrite (ParseUnverified_signed h claims claims' _ Hhdr Hdoc Hdec)
    by apply EncodeToString_no_dot.
  cbn [auth.keyFunc jwt.Method].
  unfold jwt.DecodeSegment at 1. unfold jwt.EncodeSegment at 3.
  rewrite DecodeString_EncodeToString.
  cbn [jwt.Verify jwt.Method jwt.TokenClaims jwt.Raw jwt.Header].
  fold (jwt.SigningString t).
  destruct (hmac.Equal _ _); [|reflexivity].
  now destruct (jwt.Validate now claims') as [[]|e].
Qed.

(** [ValidateToken] accepts a token exactly when the parser does, and gives
    the claims the parser decoded. *)
Lemma ValidateToken_Ok (j : auth.JWTManager) (now : time.Time) (tokenString : string)
    (claims : auth.Claims) :
  auth.ValidateToken j now tokenString = Ok claims
  <-> exists tok, jwt.ParseWithClaims now tokenString (auth.keyFunc j) = Ok tok
                  /\ jwt.TokenClaims tok = claims.
Proof.
  unfold auth.ValidateToken. split.
  - destruct (jwt.ParseWithClaims now tokenString (auth.keyFunc j)) as [tok|e] eqn:Hp;
      [|discriminate].
    destruct (jwt.Valid tok); [|discriminate].
    intros [= <-]. now exists tok.
  - intros (tok & Hp & <-). rewrite Hp.
    apply ParseWithClaims_Ok in Hp as (token & p0 & p1 & p2 & key & sig & _ & _ & _ & _ & _ & ->).
    reflexivity.
Qed.

(** Token generation does not fail. *)
Lemma GenerateAccessToken_signed (j : auth.JWTManager) (clock : auth.Clock3)
    (userID : uuid.UUID) (email : string) :
  auth.GenerateAccessToken j clock userID email
  = jwt.SignedString
      (jwt.NewWithClaims jwt.SigningMethodHS256 (auth.accessClaims j clock userID email))
      (auth.secret j).
Proof. reflexivity. Qed.

Lemma GenerateRefreshToken_signed (j : auth.JWTManager) (clock : auth.Clock3)
    (userID : uuid.UUID) :
  auth.GenerateRefreshToken j clock userID
  = jwt.SignedString
      (jwt.NewWithClaims jwt.SigningMethodHS256 (auth.refreshClaims j clock userID))
      (auth.secret j).
Proof. reflexivity. Qed.

Lemma accessClaims_whole (j : auth.JWTManager) (clock : auth.Clock3)
    (userID : uuid.UUID) (email : string) :
  jwt.wholeSeconds (auth.RegisteredClaims (auth.accessClaims j clock userID email)).
Proof. repeat split; apply NewNumericDate_whole. Qed.

Lemma refreshClaims_whole (j : auth.JWTManager) (clock : auth.Clock3)
    (userID : uuid.UUID) :
  jwt.wholeSeconds (auth.refreshClaims j clock userID).
Proof. repeat split; apply NewNumericDate_whole. Qed.

End SignedTokens.

(* ================================================================== *)
(** * Facts about the authorization gate *)
(* ================================================================== *)

Section GateFacts.

(** A header [Bearer <rest>], split at its first space, gives the trimmed
    rest. *)
Lemma bearerToken_Bearer (rest : string) :
  middleware.bearerToken ("Bearer " ++ rest) = strings.TrimSpace rest.
Proof. reflexivity. Qed.

(** Only such a header gives a token. *)
Lemma bearerToken_inv (header : string) :
  middleware.bearerToken header <> "" ->
  exists rest, header = "Bearer " ++ rest
               /\ middleware.bearerToken header = strings.TrimSpace rest.
Proof.
  unfold middleware.bearerToken. rewrite SplitN_two.
  destruct (strings.Cut header " ") as [[before after]|] eqn:Hc;
    [|intros Hn; now elim Hn].
  destruct (String.eqb_spec before "Bearer") as [->|Hne];
    [|intros Hn; now elim Hn].
  intros _. exists after. split; [|reflexivity].
  now apply Cut_sound in Hc.
Qed.

Lemma bearerToken_no_prefix (header : string) :
  strings.HasPrefix header "Bearer " = false -> middleware.bearerToken header = "".
Proof.
  intros Hp.
  destruct (String.eqb_spec (middleware.bearerToken header) "") as [He|Hne];
    [exact He|].
  destruct (bearerToken_inv header Hne) as (rest & -> & _).
  discriminate Hp.
Qed.

(** On a writer that has sent nothing yet, [unauthorized] sends status 401,
    the JSON content type and that body. *)
Lemma unauthorized_response (msg : string) (s : World) :
  http.sent (response s) = None ->
  http.statusCode (response (middleware.unauthorized msg s)) = Some http.StatusUnauthorized
  /\ http.Get (http.header (response (middleware.unauthorized msg s))) "Content-Type"
     = "application/json"
  /\ http.body (response (middleware.unauthorized msg s))
     = http.body (response s) ++ unauthorizedBody msg.
Proof.
  intros Hs. unfold middleware.unauthorized, onResponse, http.statusCode.
  cbn [response]. unfold http.Write, http.WriteHeader, http.HeaderSet.
  cbn [http.sent http.header http.body]. rewrite Hs.
  cbn [http.sent http.header http.body option_map fst].
  repeat split.
  induction (http.header (response s)) as [|[k vs] hd IH]; cbn [http.Set_ http.Get].
  - reflexivity.
  - destruct (String.eqb_spec k "Content-Type") as [->|Hk]; cbn [http.Get].
    + reflexivity.
    + apply String.eqb_neq in Hk. now rewrite Hk.
Qed.

Lemma unauthorizedBody_inj (m1 m2 : string) :
  unauthorizedBody m1 = unauthorizedBody m2 -> m1 = m2.
Proof.
  unfold unauthorizedBody, middleware.quote. cbn [append].
  intros [= Heq]. now apply append_cancel_r in Heq.
Qed.

Context `{json.Text}.

(** The four ways through the gate. *)
Lemma AuthMiddleware_cases (jwtManager : auth.JWTManager) (log : logger.Logger)
    (next : Handler) (r : http.Request) (s : World) :
  let header := http.Get (http.ReqHeader r) "Authorization" in
  let token := middleware.bearerToken header in
  let now := clock s (reads s) in
  let out := middleware.AuthMiddleware jwtManager log next r s in
  (header = "" /\ out = middleware.unauthorized "authorization header missing" s)
  \/ (header <> "" /\ token = ""
      /\ out = middleware.unauthorized "invalid authorization header" s)
  \/ (exists err, header <> "" /\ token <> ""
      /\ auth.ValidateToken jwtManager now token = Err err
      /\ out = middleware.unauthorized "invalid or expired token"
                 (emit logger.WarnLevel (logger.WithError log err)
                    "token validation failed" (snd (time_Now s))))
  \/ (exists claims, header <> "" /\ token <> ""
      /\ auth.ValidateToken jwtManager now token = Ok claims
      /\ out = next (http.WithContext r
                       (http.WithValue
                          (http.WithValue (http.Ctx r) middleware.userIDKey
                             (auth.UserID claims))
                          middleware.emailKey (auth.Email claims)))
                 (snd (time_Now s))).
Proof.
  intros header token now out. subst out. unfold middleware.AuthMiddleware.
  fold header. destruct (String.eqb_spec header "") as [Hh|Hh]; [now left|].
  fold token. destruct (String.eqb_spec token "") as [Ht|Ht]; [right; now left|].
  cbn [time_Now]. fold now.
  destruct (auth.ValidateToken jwtManager now token) as [claims|err] eqn:Hv.
  - right; right; right. exists claims. repeat split; auto.
  - right; right; left. exists err. repeat split; auto.
Qed.

End GateFacts.

(* ================================================================== *)
(** * Facts about bcrypt credentials *)
(* ================================================================== *)

Section BcryptFacts.
Context `{bcrypt.Cipher}.

Lemma length_zeros (n : nat) : String.length (hmac.zeros n) = n.
Proof. induction n as [|n IH]; simpl; [reflexivity | now rewrite IH]. Qed.

Lemma length_overwrite (arr src : string) :
  String.length (bcrypt.overwrite arr src) = String.length arr.
Proof.
  revert src; induction arr as [|a arr IH]; intros [|c src]; simpl; try reflexivity.
  now rewrite IH.
Qed.

Lemma overwrite_full (arr src : string) :
  String.length src = String.length arr -> bcrypt.overwrite arr src = src.
Proof.
  revert src; induction arr as [|a arr IH]; intros [|c src] Hl; simpl in *;
    try reflexivity; try discriminate.
  f_equal. apply IH. now injection Hl.
Qed.

Lemma length_stored (d : string) :
  String.length (bcrypt.stored d) = bcrypt.encodedHashSize.
Proof. unfold bcrypt.stored. now rewrite length_overwrite, length_zeros. Qed.

Lemma stored_stored (d : string) : bcrypt.stored (bcrypt.stored d) = bcrypt.stored d.
Proof.
  unfold bcrypt.stored at 1. apply overwrite_full.
  now rewrite length_stored, length_zeros.
Qed.

Lemma copyAt_skip (a rest src : string) :
  bcrypt.copyAt (a ++ rest) (String.length a) src = a ++ bcrypt.overwrite rest src.
Proof. induction a as [|x a IH]; simpl; [now destruct rest | now rewrite IH]. Qed.

Lemma take_append_more (a b : string) (n : nat) :
  strings.take (String.length a + n) (a ++ b) = a ++ strings.take n b.
Proof. induction a as [|x a IH]; simpl; [reflexivity | now rewrite IH]. Qed.

Lemma Hash_credential (salt digest : string) :
  String.length salt = bcrypt.encodedSaltSize ->
  bcrypt.Hash (credential salt digest) = "$2a$10$" ++ salt ++ bcrypt.stored digest.
Proof.
  intros Hs.
  do 23 (destruct salt as [|? salt]; try discriminate Hs).
  clear Hs. unfold bcrypt.Hash, credential. cbv zeta.
  cbn [bcrypt.major bcrypt.minor bcrypt.cost bcrypt.salt bcrypt.hash].
  change (Ascii.eqb bcrypt.minorVersion Ascii.zero) with false. cbv iota.
  match goal with
  | |- strings.take ?n (bcrypt.copyAt ?arr ?m digest) = ?p ++ ?sl ++ ?st =>
      change (strings.take (String.length (p ++ sl) + 31)
                (bcrypt.copyAt ((p ++ sl) ++ hmac.zeros 31)
                   (String.length (p ++ sl)) digest) = (p ++ sl) ++ st)
  end.
  rewrite copyAt_skip, take_append_more. f_equal.
  apply take_all. unfold bcrypt.stored.
  rewrite length_overwrite, length_zeros. reflexivity.
Qed.

Lemma newFromHash_credential (salt digest : string) :
  String.length salt = bcrypt.encodedSaltSize ->
  bcrypt.newFromHash (bcrypt.Hash (credential salt digest))
  = Ok (credential salt (bcrypt.stored digest)).
Proof.
  intros Hs. rewrite (Hash_credential salt digest Hs).
  pose proof (length_stored digest) as Hx.
  remember (bcrypt.stored digest) as x eqn:Ex. clear Ex.
  unfold bcrypt.newFromHash.
  assert (Hlen : String.length ("$2a$10$" ++ salt ++ x) = 60%nat).
  { rewrite !length_append, Hs, Hx. reflexivity. }
  rewrite Hlen. change (60 <? bcrypt.minHashSize)%nat with false. cbv iota.
  change ("$2a$10$" ++ salt ++ x)
    with (String "$" (String "2" (String "a" (String "$" (String "1" (String "0"
            (String "$" (salt ++ x)))))))).
  cbv iota.
  change (negb (Ascii.eqb "$" "$")) with false.
  change (N_of_ascii bcrypt.majorVersion <? N_of_ascii "2")%N with false.
  change (Ascii.eqb "a" "$") with false. cbv iota beta.
  cbn [strings.drop].
  change (bcrypt.Atoi2 "1" "0") with (Ok bcrypt.DefaultCost : result Z).
  cbn [bind].
  change (bcrypt.checkCost bcrypt.DefaultCost) with (Ok tt : result unit).
  cbn [bind]. unfold credential.
  rewrite <- Hs, drop_append, take_append. reflexivity.
Qed.

(** What [HashPassword] returns when it returns a credential. *)
Lemma HashPassword_Ok (entropy : result string) (password hashed : string) :
  auth.HashPassword entropy password = Ok hashed ->
  exists unencodedSalt d,
    entropy = Ok unencodedSalt
    /\ (String.length password <= 72)%nat
    /\ bcrypt.bcrypt password bcrypt.DefaultCost (bcrypt.base64Encode unencodedSalt) = Ok d
    /\ hashed = bcrypt.Hash (credential (bcrypt.base64Encode unencodedSalt) d).
Proof.
  unfold auth.HashPassword, bcrypt.GenerateFromPassword.
  destruct (Nat.ltb_spec 72 (String.length password)) as [Hl|Hl]; [discriminate|].
  unfold bcrypt.newFromPassword.
  change (bcrypt.DefaultCost <? bcrypt.MinCost) with false. cbv iota.
  change (bcrypt.checkCost bcrypt.DefaultCost) with (Ok tt : result unit).
  cbn [bind]. destruct entropy as [unencodedSalt|e]; cbn [bind]; [|discriminate].
  destruct (bcrypt.bcrypt password bcrypt.DefaultCost (bcrypt.base64Encode unencodedSalt))
    as [d|e] eqn:Hd; cbn [bind]; [|discriminate].
  intros [= <-]. exists unencodedSalt, d. repeat split; auto.
Qed.

(** Comparing a password with a generated credential compares the stored
    digests. *)
Lemma CompareHashAndPassword_credential (salt digest password : string) :
  String.length salt = bcrypt.encodedSaltSize ->
  bcrypt.CompareHashAndPassword (bcrypt.Hash (credential salt digest)) password = Ok tt
  <-> bcrypt.digest password bcrypt.DefaultCost salt = Some (bcrypt.stored digest).
Proof.
  intros Hs. unfold bcrypt.CompareHashAndPassword, bcrypt.digest.
  rewrite (newFromHash_credential salt digest Hs). cbn [bind].
  cbn [bcrypt.cost bcrypt.salt bcrypt.major bcrypt.minor credential].
  destruct (bcrypt.bcrypt password bcrypt.DefaultCost salt) as [other|e];
    cbn [bind]; [|split; discriminate].
  fold (credential salt (bcrypt.stored digest)). fold (credential salt other).
  rewrite !(Hash_credential _ _ Hs), stored_stored.
  destruct (String.eqb_spec ("$2a$10$" ++ salt ++ bcrypt.stored digest)
              ("$2a$10$" ++ salt ++ bcrypt.stored other)) as [Heq|Hne]; split.
  - intros _. f_equal. injection Heq as Heq.
    apply (f_equal (strings.drop (String.length salt))) in Heq.
    rewrite !drop_append in Heq. now symmetry.
  - reflexivity.
  - discriminate.
  - intros [= Heq]. elim Hne. now rewrite Heq.
Qed.

End BcryptFacts.

(* ================================================================== *)
(** * The token validators *)
(* ================================================================== *)

Section TokenTheorems.
Context `{json.Text}.

Lemma Equal_refl (mac : string) : hmac.Equal mac mac = true.
Proof. apply String.eqb_refl. Qed.

(** The MAC depends on the key through its block only. *)
Lemma Sum_blockKey (h : crypto.Hash) (key1 key2 message : string) :
  hmac.blockKey h key1 = hmac.blockKey h key2 ->
  hmac.Sum h key1 message = hmac.Sum h key2 message.
Proof. intros Hk. unfold hmac.Sum. now rewrite Hk. Qed.

Lemma zeros_add (m n : nat) : hmac.zeros m ++ hmac.zeros n = hmac.zeros (m + n).
Proof. induction m as [|m IH]; simpl; [reflexivity | now rewrite IH]. Qed.

(** Zero bytes after a key that still fits the block do not change the
    block. *)
Lemma blockKey_zeros (h : crypto.Hash) (key : string) (n : nat) :
  (String.length key + n <= crypto.BlockSize h)%nat ->
  hmac.blockKey h (key ++ hmac.zeros n) = hmac.blockKey h key.
Proof.
  intros Hl. unfold hmac.blockKey.
  rewrite length_append, length_zeros.
  destruct (Nat.ltb_spec (crypto.BlockSize h) (String.length key + n)) as [Hx|_]; [lia|].
  destruct (Nat.ltb_spec (crypto.BlockSize h) (String.length key)) as [Hx|_]; [lia|].
  rewrite length_append, length_zeros, append_assoc, zeros_add.
  f_equal. f_equal. lia.
Qed.

(** A token signed with the secret of the manager itself, whatever its
    claims say, meets only the time window. *)
Lemma ValidateToken_own_secret {C : Type} `{jwt.Claims C} (j : auth.JWTManager)
    (claims : C) (claims' : auth.Claims) :
  let t := jwt.NewWithClaims jwt.SigningMethodHS256 claims in
  json.roundtrips auth.hs256Header ->
  json.roundtrips (jwt.toJSON claims) ->
  jwt.fromJSON (jwt.toJSON claims) = Ok claims' ->
  exists token,
    jwt.SignedString t (auth.secret j) = Ok token
    /\ forall now, auth.ValidateToken j now token = verdict now claims'.
Proof.
  intros t Hhdr Hdoc Hdec.
  eexists. split.
  - exact (proj1 (ParseWithClaims_signed crypto.SHA256 claims claims' (auth.secret j) j 0
                    Hhdr Hdoc Hdec)).
  - intros now.
    destruct (ParseWithClaims_signed crypto.SHA256 claims claims' (auth.secret j) j now
                Hhdr Hdoc Hdec) as [_ Hp].
    unfold auth.ValidateToken. rewrite Hp, Equal_refl. unfold verdict.
    now destruct (jwt.Validate now claims') as [[]|e].
Qed.

(** A token signed with a key whose MAC of the signing string differs from
    the MAC under the manager's secret is refused. *)
Lemma ParseWithClaims_other_key {C C' : Type} `{jwt.Claims C} `{jwt.Claims C'}
    (j : auth.JWTManager) (key : string) (claims : C) (claims' : C')
    (now : time.Time) :
  let t := jwt.NewWithClaims jwt.SigningMethodHS256 claims in
  json.roundtrips auth.hs256Header ->
  json.roundtrips (jwt.toJSON claims) ->
  jwt.fromJSON (jwt.toJSON claims) = Ok claims' ->
  hmac.Sum crypto.SHA256 key (jwt.SigningString t)
    <> hmac.Sum crypto.SHA256 (auth.secret j) (jwt.SigningString t) ->
  exists token,
    jwt.SignedString t key = Ok token
    /\ jwt.ParseWithClaims (C := C') now token (auth.keyFunc j)
       = Err (jwt.newError "" jwt.ErrTokenSignatureInvalid (Some jwt.ErrSignatureInvalid)).
Proof.
  intros t Hhdr Hdoc Hdec Hmac.
  destruct (ParseWithClaims_signed crypto.SHA256 claims claims' key j now
              Hhdr Hdoc Hdec) as [Hs Hp].
  eexists. split; [exact Hs|].
  rewrite Hp. unfold hmac.Equal. apply String.eqb_neq in Hmac.
  subst t. unfold jwt.SigningMethodHS256 in Hmac. now rewrite Hmac.
Qed.

(** The window in which an access token validates, for any three readings
    of the clock at issuance. *)
Lemma access_token_window (j : auth.JWTManager) (clock : auth.Clock3)
    (userID : uuid.UUID) (email : string) :
  let claims := auth.accessClaims j clock userID email in
  json.roundtrips auth.hs256Header ->
  json.roundtrips (jwt.toJSON claims) ->
  exists token,
    auth.GenerateAccessToken j clock userID email = Ok token
    /\ forall now,
         (jwt.NewNumericDate (auth.nowNbf clock) <= now
            < jwt.NewNumericDate (time.Add (auth.nowExp clock) (auth.accessTokenDuration j))
          -> auth.ValidateToken j now token = Ok claims)
         /\ (~ (jwt.NewNumericDate (auth.nowNbf clock) <= now
                  < jwt.NewNumericDate
                      (time.Add (auth.nowExp clock) (auth.accessTokenDuration j)))
             -> isOk (auth.ValidateToken j now token) = false).
Proof.
  intros claims Hhdr Hdoc.
  destruct (ValidateToken_own_secret j claims claims Hhdr Hdoc
              (Claims_fromJSON_toJSON claims (accessClaims_whole j clock userID email)))
    as (token & Hgen & Hval).
  exists token. split; [exact Hgen|]. intros now. rewrite Hval. unfold verdict.
  pose proof (Validate_Ok now claims) as Hw.
  cbn [jwt.GetExpirationTime jwt.GetNotBefore auth.Claims_Claims claims
       auth.accessClaims auth.RegisteredClaims jwt.ExpiresAt jwt.NotBefore
       jwt.notExpired jwt.notEarly] in Hw.
  destruct (jwt.Validate now claims) as [[]|e]; split.
  - reflexivity.
  - intros Hn. elim Hn. destruct Hw as [Hw _]. specialize (Hw eq_refl). tauto.
  - intros Hin. destruct Hw as [_ Hw]. discriminate Hw. tauto.
  - reflexivity.
Qed.

End TokenTheorems.

(* ================================================================== *)
(** * Tokens in the Authorization header *)
(* ================================================================== *)

Section TokenStrings.

Lemma allBytes_append (p : ascii -> bool) (a b : string) :
  strings.allBytes p (a ++ b) = strings.allBytes p a && strings.allBytes p b.
Proof.
  induction a as [|x a IH]; simpl; [reflexivity|]. now rewrite IH, andb_assoc.
Qed.

Lemma rev_cons (c : ascii) (s : string) :
  strings.rev (String c s) = strings.rev s ++ String c "".
Proof.
  unfold strings.rev. cbn [list_ascii_of_string List.rev].
  generalize (List.rev (list_ascii_of_string s)) as l.
  induction l as [|x l IH]; simpl; [reflexivity | now rewrite IH].
Qed.

Lemma rev_append_byte (s : string) (c : ascii) :
  strings.rev (s ++ String c "") = String c (strings.rev s).
Proof.
  induction s as [|x s IH]; [reflexivity|].
  cbn [append]. now rewrite !rev_cons, IH.
Qed.

Lemma rev_rev (s : string) : strings.rev (strings.rev s) = s.
Proof.
  induction s as [|c s IH]; [reflexivity|].
  now rewrite rev_cons, rev_append_byte, IH.
Qed.

Lemma length_rev (s : string) : String.length (strings.rev s) = String.length s.
Proof.
  induction s as [|c s IH]; [reflexivity|].
  rewrite rev_cons, length_append, IH. simpl. lia.
Qed.

Lemma allBytes_rev (p : ascii -> bool) (s : string) :
  strings.allBytes p (strings.rev s) = strings.allBytes p s.
Proof.
  induction s as [|c s IH]; [reflexivity|].
  rewrite rev_cons, allBytes_append, IH. simpl.
  now rewrite andb_true_r, andb_comm.
Qed.

(** No white space starts or ends with a byte of a token. *)
Lemma tokenByte_not_space (c : ascii) (rest : string) :
  base64.tokenByte c = true ->
  strings.leadingSpace (String c rest) = None
  /\ strings.trailingSpace (String c rest) = None.
Proof.
  destruct c as [b0 b1 b2 b3 b4 b5 b6 b7].
  destruct b0, b1, b2, b3, b4, b5, b6, b7;
    first [ discriminate | intros _; split; reflexivity ].
Qed.

(** [TrimSpace] leaves a string of such bytes as it is. *)
Lemma TrimSpace_token (s : string) :
  strings.allBytes base64.tokenByte s = true -> strings.TrimSpace s = s.
Proof.
  intros Hs. unfold strings.TrimSpace.
  assert (Hl : strings.TrimLeftSpace s = s).
  { unfold strings.TrimLeftSpace. destruct s as [|c s]; [reflexivity|].
    apply andb_prop in Hs as [Hc _].
    cbn [String.length strings.TrimLeft_fuel].
    now destruct (tokenByte_not_space c s Hc) as [-> _]. }
  rewrite Hl. unfold strings.TrimRightSpace.
  rewrite <- (length_rev s). rewrite <- allBytes_rev in Hs.
  destruct (strings.rev s) as [|c r] eqn:Hr.
  - cbn. rewrite <- (rev_rev s), Hr. reflexivity.
  - apply andb_prop in Hs as [Hc _].
    cbn [String.length strings.TrimRight_fuel].
    destruct (tokenByte_not_space c r Hc) as [_ ->].
    rewrite <- Hr. apply rev_rev.
Qed.

Lemma EncodeSegment_tokenBytes (seg : string) :
  strings.allBytes base64.tokenByte (jwt.EncodeSegment seg) = true.
Proof.
  unfold jwt.EncodeSegment, base64.EncodeToString.
  induction (base64.sextets seg) as [|x xs IH];
    cbn [base64.chars strings.allBytes]; [reflexivity|].
  rewrite IH, andb_true_r.
  destruct x as [[[[[b5 b4] b3] b2] b1] b0].
  destruct b5, b4, b3, b2, b1, b0; reflexivity.
Qed.

(** A signed token is what [bearerToken] extracts from [Bearer <token>]. *)
Lemma bearerToken_signed `{json.Text} {C : Type} `{jwt.Claims C}
    (t : jwt.Token C) (key token : string) :
  jwt.SignedString t key = Ok token ->
  middleware.bearerToken ("Bearer " ++ token) = token /\ token <> "".
Proof.
  unfold jwt.SignedString, jwt.SigningString.
  destruct (jwt.Sign (jwt.Method t) _ key) as [sig|e]; cbn [bind]; [|discriminate].
  intros [= <-]. rewrite bearerToken_Bearer. split.
  - apply TrimSpace_token.
    rewrite !allBytes_append. cbn [strings.allBytes].
    change (base64.tokenByte "."%char) with true.
    rewrite !EncodeSegment_tokenBytes. reflexivity.
  - intros He. apply append_eq_nil in He as [He _].
    apply append_eq_nil in He as [_ He]. discriminate He.
Qed.

End TokenStrings.

(* ================================================================== *)
(** * Claims about the token validators *)
(* ================================================================== *)

Section ValidatorClaims.
Context `{json.Text}.

(** A token the manager signed itself validates inside the time window of
    its claims, whatever issuer they name. *)
Lemma ValidateToken_any_issuer (j : auth.JWTManager) (claims : auth.Claims)
    (now : time.Time) :
  json.roundtrips auth.hs256Header ->
  json.roundtrips (jwt.toJSON claims) ->
  jwt.wholeSeconds (auth.RegisteredClaims claims) ->
  jwt.notExpired now (jwt.ExpiresAt (auth.RegisteredClaims claims)) ->
  jwt.notEarly now (jwt.NotBefore (auth.RegisteredClaims claims)) ->
  exists token,
    jwt.SignedString (jwt.NewWithClaims jwt.SigningMethodHS256 claims) (auth.secret j)
    = Ok token
    /\ auth.ValidateToken j now token = Ok claims.
Proof.
  intros Hhdr Hdoc Hwhole Hexp Hnbf.
  destruct (ValidateToken_own_secret j claims claims Hhdr Hdoc
              (Claims_fromJSON_toJSON claims Hwhole)) as (token & Hgen & Hval).
  exists token. split; [exact Hgen|]. rewrite Hval. unfold verdict.
  assert (Hok : jwt.Validate now claims = Ok tt) by (apply Validate_Ok; now split).
  now rewrite Hok.
Qed.

(** C6 (amended): for every identity and every TTL [d], the access token
    issued at [issued_at] validates at every [now] with
    [trunc issued_at <= now < trunc (issued_at + d)], where [trunc] rounds down
    to the whole second, and gives back its claims; it does not validate at
    any [now >= trunc (issued_at + d)], so neither at [issued_at + d] nor at
    [issued_at + d + 1]: the expiry instant itself is outside the window. *)
Theorem C6_access_token_lifetime (j : auth.JWTManager) (userID : uuid.UUID)
    (email : string) (issued_at : time.Time) :
  let d := auth.accessTokenDuration j in
  let claims := auth.accessClaims j (auth.frozen issued_at) userID email in
  json.roundtrips auth.hs256Header ->
  json.roundtrips (jwt.toJSON claims) ->
  exists token,
    auth.GenerateAccessToken j (auth.frozen issued_at) userID email = Ok token
    /\ (forall now,
          time.Truncate issued_at time.Second <= now
            < time.Truncate (time.Add issued_at d) time.Second ->
          auth.ValidateToken j now token = Ok claims)
    /\ (forall now,
          time.Truncate (time.Add issued_at d) time.Second <= now ->
          isOk (auth.ValidateToken j now token) = false)
    /\ (forall k, 0 <= k ->
          isOk (auth.ValidateToken j (issued_at + d + k) token) = false).
Proof.
  intros d claims Hhdr Hdoc.
  destruct (access_token_window j (auth.frozen issued_at) userID email Hhdr Hdoc)
    as (token & Hgen & Hwin).
  exists token. split; [exact Hgen|].
  unfold jwt.NewNumericDate, jwt.TimePrecision in Hwin.
  cbn [auth.frozen auth.nowNbf auth.nowExp] in Hwin. fold d in Hwin.
  split; [|split].
  - intros now Hnow. now apply (proj1 (Hwin now)).
  - intros now Hnow. apply (proj2 (Hwin now)). lia.
  - intros k Hk. apply (proj2 (Hwin (issued_at + d + k))).
    pose proof (Truncate_le (time.Add issued_at d)). unfold time.Add in *. lia.
Qed.

(** C7 (amended): for secrets S1 and S2, the access token and the refresh
    token issued under S1 fail validation under S2 whenever the HMAC-SHA256
    of their signing strings under S2 differs from the one under S1 (their
    signature).  Distinctness of the secrets alone is not enough: HMAC pads
    a short key with zero bytes and hashes a long one, and two secrets laid
    out as the same block key validate each other's tokens exactly as their
    own. *)
Theorem C7_cross_secret_rejection (j1 j2 : auth.JWTManager)
    (accessClock refreshClock : auth.Clock3) (userID : uuid.UUID) (email : string)
    (now nowCheck : time.Time) :
  let access := auth.accessClaims j1 accessClock userID email in
  let refresh := auth.refreshClaims j1 refreshClock userID in
  let accessString :=
    jwt.SigningString (jwt.NewWithClaims jwt.SigningMethodHS256 access) in
  let refreshString :=
    jwt.SigningString (jwt.NewWithClaims jwt.SigningMethodHS256 refresh) in
  json.roundtrips auth.hs256Header ->
  json.roundtrips (jwt.toJSON access) ->
  json.roundtrips (jwt.toJSON refresh) ->
  exists accessToken refreshToken,
    auth.GenerateTokenPair j1 accessClock refreshClock userID email
    = Ok (accessToken, refreshToken)
    /\ (hmac.Sum crypto.SHA256 (auth.secret j1) accessString
          <> hmac.Sum crypto.SHA256 (auth.secret j2) accessString ->
        isOk (auth.ValidateToken j2 now accessToken) = false)
    /\ (hmac.Sum crypto.SHA256 (auth.secret j1) refreshString
          <> hmac.Sum crypto.SHA256 (auth.secret j2) refreshString ->
        isOk (auth.ValidateRefreshToken j2 now nowCheck refreshToken) = false)
    /\ (hmac.blockKey crypto.SHA256 (auth.secret j1)
        = hmac.blockKey crypto.SHA256 (auth.secret j2) ->
        auth.ValidateToken j2 now accessToken = auth.ValidateToken j1 now accessToken
        /\ auth.ValidateRefreshToken j2 now nowCheck refreshToken
           = auth.ValidateRefreshToken j1 now nowCheck refreshToken).
Proof.
  intros access refresh accessString refreshString Hhdr Hadoc Hrdoc.
  pose proof (Claims_fromJSON_toJSON access
                (accessClaims_whole j1 accessClock userID email)) as Hadec.
  pose proof (RegisteredClaims_fromJSON_toJSON refresh
                (refreshClaims_whole j1 refreshClock userID)) as Hrdec.
  destruct (ParseWithClaims_signed crypto.SHA256 access access (auth.secret j1) j2 now
              Hhdr Hadoc Hadec) as [Hagen Ha2].
  destruct (ParseWithClaims_signed crypto.SHA256 access access (auth.secret j1) j1 now
              Hhdr Hadoc Hadec) as [_ Ha1].
  destruct (ParseWithClaims_signed crypto.SHA256 refresh refresh (auth.secret j1) j2 now
              Hhdr Hrdoc Hrdec) as [Hrgen Hr2].
  destruct (ParseWithClaims_signed crypto.SHA256 refresh refresh (auth.secret j1) j1 now
              Hhdr Hrdoc Hrdec) as [_ Hr1].
  fold jwt.SigningMethodHS256 in Hagen, Ha2, Ha1, Hrgen, Hr2, Hr1.
  fold accessString in Hagen, Ha2, Ha1. fold refreshString in Hrgen, Hr2, Hr1.
  eexists. eexists. split; [|split; [|split]].
  - unfold auth.GenerateTokenPair.
    rewrite GenerateAccessToken_signed, GenerateRefreshToken_signed.
    fold access refresh. rewrite Hagen, Hrgen. reflexivity.
  - intros Hmac. apply String.eqb_neq in Hmac.
    unfold auth.ValidateToken. rewrite Ha2. unfold hmac.Equal. now rewrite Hmac.
  - intros Hmac. apply String.eqb_neq in Hmac.
    unfold auth.ValidateRefreshToken. rewrite Hr2. unfold hmac.Equal. now rewrite Hmac.
  - intros Hkey.
    assert (Hsum : forall m, hmac.Sum crypto.SHA256 (auth.secret j2) m
                             = hmac.Sum crypto.SHA256 (auth.secret j1) m)
      by (intros m; symmetry; now apply Sum_blockKey).
    split.
    + unfold auth.ValidateToken. now rewrite Ha2, Ha1, Hsum.
    + unfold auth.ValidateRefreshToken. now rewrite Hr2, Hr1, Hsum.
Qed.

(** C4 (amended): [ValidateRefreshToken] returns [subject] for a token
    string if and only if the string parses, its algorithm is of the HMAC
    family and its signature verifies against the configured secret, its
    not-before time (when set) is not after now, its issuer is the deployment
    issuer constant, its expiry is set and in the future relative to now, and
    its subject is [subject] and not empty; in every other case it returns an
    error and no identity.  The not-before condition comes from the parser's
    validator and is needed: the four conditions of the claim alone do not
    make the validator accept. *)
Theorem C4_refresh_validation (j : auth.JWTManager) (now nowCheck : time.Time)
    (tokenString : string) :
  (forall subject,
     auth.ValidateRefreshToken j now nowCheck tokenString = Ok subject
     <-> auth.refreshAccepts j now nowCheck tokenString subject)
  /\ ((forall subject, ~ auth.refreshAccepts j now nowCheck tokenString subject)
      <-> exists e, auth.ValidateRefreshToken j now nowCheck tokenString = Err e).
Proof.
  assert (Hiff : forall subject,
     auth.ValidateRefreshToken j now nowCheck tokenString = Ok subject
     <-> auth.refreshAccepts j now nowCheck tokenString subject).
  { intros subject. unfold auth.ValidateRefreshToken, auth.refreshAccepts. split.
    - destruct (jwt.ParseWithClaims now tokenString (auth.keyFunc j)) as [tok|e] eqn:Hp;
        [|discriminate].
      apply ParseWithClaims_Ok in Hp
        as (token & p0 & p1 & p2 & key & sig & Hpu & Hk & Hs & Hv & Hc & ->).
      cbn [jwt.Valid jwt.TokenClaims negb].
      apply keyFunc_Ok in Hk as [[h Hh] ->].
      rewrite Hh in Hv. apply Verify_HMAC in Hv.
      apply Validate_Ok in Hc as [Hexp Hnbf].
      cbn [jwt.GetExpirationTime jwt.GetNotBefore jwt.RegisteredClaims_Claims] in Hexp, Hnbf.
      destruct (String.eqb_spec (jwt.Issuer (jwt.TokenClaims token)) "secure-task-api")
        as [Hi|Hi]; cbn [negb]; [|discriminate].
      destruct (jwt.ExpiresAt (jwt.TokenClaims token)) as [exp|] eqn:He; [|discriminate].
      unfold time.After. destruct (Z.ltb_spec exp nowCheck) as [Hlt|Hge]; [discriminate|].
      destruct (String.eqb_spec (jwt.Subject (jwt.TokenClaims token)) "") as [Hsub|Hsub];
        [discriminate|].
      intros [= <-].
      exists token, p0, p1, p2, h, sig, exp.
      cbn [jwt.notExpired] in Hexp. repeat split; auto.
    - intros (token & p0 & p1 & p2 & h & sig & exp & Hpu & Hh & Hs & Hsig & Hnbf & Hi
              & He & Hlt & Hle & Hsub & ->).
      assert (Hp : jwt.ParseWithClaims now tokenString (auth.keyFunc j)
                   = Ok {| jwt.Raw := jwt.Raw token; jwt.Method := jwt.Method token;
                           jwt.Header := jwt.Header token;
                           jwt.TokenClaims := jwt.TokenClaims token;
                           jwt.Signature := sig; jwt.Valid := true |}).
      { apply ParseWithClaims_Ok.
        exists token, p0, p1, p2, (auth.secret j), sig. repeat split; auto.
        - apply keyFunc_Ok. split; [now exists h | reflexivity].
        - rewrite Hh. now apply Verify_HMAC.
        - apply Validate_Ok.
          cbn [jwt.GetExpirationTime jwt.GetNotBefore jwt.RegisteredClaims_Claims].
          rewrite He. now split. }
      rewrite Hp. cbn [jwt.Valid jwt.TokenClaims negb].
      rewrite Hi. change (String.eqb auth.issuer "secure-task-api") with true.
      cbn [negb]. rewrite He. unfold time.After.
      destruct (Z.ltb_spec exp nowCheck) as [Hx|Hx]; [lia|].
      apply String.eqb_neq in Hsub. now rewrite Hsub. }
  split; [exact Hiff|]. split.
  - intros Hnone.
    destruct (auth.ValidateRefreshToken j now nowCheck tokenString) as [subject|e] eqn:Hv.
    + elim (Hnone subject). now apply (proj1 (Hiff subject)).
    + now exists e.
  - intros [e He] subject Hacc. apply Hiff in Hacc. rewrite He in Hacc. discriminate.
Qed.

End ValidatorClaims.

(* ================================================================== *)
(** * Claims about the authorization gate *)
(* ================================================================== *)

Section GateClaims.
Context `{json.Text}.

(** Logging leaves the response alone and may read the clock. *)
Lemma response_emit (lvl : logger.Level) (l : logger.Logger) (msg : string) (s : World) :
  response (emit lvl l msg s) = response s.
Proof. unfold emit. destruct (logger.enabled l lvl); reflexivity. Qed.

Lemma clock_emit (lvl : logger.Level) (l : logger.Logger) (msg : string) (s : World) :
  clock (emit lvl l msg s) = clock s.
Proof. unfold emit. destruct (logger.enabled l lvl); reflexivity. Qed.

Lemma reads_emit (lvl : logger.Level) (l : logger.Logger) (msg : string) (s : World) :
  reads (emit lvl l msg s) = if logger.enabled l lvl then S (reads s) else reads s.
Proof. unfold emit. destruct (logger.enabled l lvl); reflexivity. Qed.

Lemma response_unauthorized (msg : string) (s s' : World) :
  response s' = response s ->
  response (middleware.unauthorized msg s') = response (middleware.unauthorized msg s).
Proof.
  intros Hr. unfold middleware.unauthorized, onResponse. cbn [response].
  now rewrite Hr.
Qed.

(** C3 (amended): every rejection of the gate has status 401, the JSON
    content type and the body [{"error":"unauthorized","message":m}], but the
    message [m] names the cause: "authorization header missing" for a missing
    header, "invalid authorization header" for a header without the
    [Bearer ] prefix, and "invalid or expired token" for every failure of the
    token validator, an expired token and a wrong signature alike.  The
    responses are identical within each of the three causes, not across
    them. *)
Theorem C3_gate_rejections (jwtManager : auth.JWTManager) (log : logger.Logger)
    (next : Handler) (r : http.Request) (s : World) :
  let header := http.Get (http.ReqHeader r) "Authorization" in
  let now := clock s (reads s) in
  let out := response (middleware.AuthMiddleware jwtManager log next r s) in
  let rejection := fun msg => response (middleware.unauthorized msg s) in
  http.sent (response s) = None ->
  (forall msg,
     http.statusCode (rejection msg) = Some http.StatusUnauthorized
     /\ http.Get (http.header (rejection msg)) "Content-Type" = "application/json"
     /\ http.body (rejection msg) = http.body (response s) ++ unauthorizedBody msg)
  /\ (header = "" -> out = rejection "authorization header missing")
  /\ (header <> "" -> strings.HasPrefix header "Bearer " = false ->
      out = rejection "invalid authorization header")
  /\ (forall err,
        middleware.bearerToken header <> "" ->
        auth.ValidateToken jwtManager now (middleware.bearerToken header) = Err err ->
        out = rejection "invalid or expired token").
Proof.
  intros header now out rejection Hfresh.
  split; [intros msg; now apply unauthorized_response|].
  pose proof (AuthMiddleware_cases jwtManager log next r s) as Hcases.
  cbv zeta in Hcases. fold header now in Hcases. subst out rejection.
  destruct Hcases as [[Hh Ho] | [(Hh & Ht & Ho) | [(err & Hh & Ht & Hv & Ho)
                      | (claims & Hh & Ht & Hv & Ho)]]]; rewrite Ho;
    (split; [|split]).
  - reflexivity.
  - intros Hn. now elim Hn.
  - intros err Hn. rewrite Hh in Hn. now elim Hn.
  - intros He. now elim Hh.
  - reflexivity.
  - intros err Hn. now elim Hn.
  - intros He. now elim Hh.
  - intros _ Hp. apply bearerToken_no_prefix in Hp. now elim Ht.
  - intros err' _ _. apply response_unauthorized. now rewrite response_emit.
  - intros He. now elim Hh.
  - intros _ Hp. apply bearerToken_no_prefix in Hp. now elim Ht.
  - intros err _ Hv'. rewrite Hv in Hv'. discriminate.
Qed.

(** C8 (amended): the gate passes a request on exactly when its
    Authorization header is [Bearer ], one space, and a rest that, with the
    white space around it trimmed, is a non-empty token the validator
    accepts; then business logic runs with the claims in the context.  In
    every other case (no header, another scheme or separator, nothing but
    white space after the scheme, a token the validator refuses) the response
    is a 401 and business logic is not reached: the outcome does not depend
    on the next handler.  White space around the token is tolerated, not
    refused. *)
Theorem C8_gate_accepts (jwtManager : auth.JWTManager) (log : logger.Logger)
    (next : Handler) (r : http.Request) (s : World) :
  let header := http.Get (http.ReqHeader r) "Authorization" in
  let now := clock s (reads s) in
  let accepted := fun rest claims =>
    header = "Bearer " ++ rest /\ strings.TrimSpace rest <> ""
    /\ auth.ValidateToken jwtManager now (strings.TrimSpace rest) = Ok claims in
  http.sent (response s) = None ->
  (forall rest claims, accepted rest claims ->
     middleware.AuthMiddleware jwtManager log next r s
     = next (authenticated r claims) (snd (time_Now s)))
  /\ ((forall rest claims, ~ accepted rest claims) ->
      http.statusCode (response (middleware.AuthMiddleware jwtManager log next r s))
      = Some http.StatusUnauthorized
      /\ forall next',
           middleware.AuthMiddleware jwtManager log next' r s
           = middleware.AuthMiddleware jwtManager log next r s).
Proof.
  intros header now accepted Hfresh. subst accepted. cbv beta.
  assert (Hstatus : forall msg s', response s' = response s ->
            http.statusCode (response (middleware.unauthorized msg s'))
            = Some http.StatusUnauthorized).
  { intros msg s' Hr. rewrite (response_unauthorized msg s s' Hr).
    now apply unauthorized_response. }
  split.
  - intros rest claims (Hh & Ht & Hv).
    unfold middleware.AuthMiddleware. fold header. rewrite Hh.
    cbn [append String.eqb Ascii.eqb Bool.eqb].
    change (String "B" (String "e" (String "a" (String "r" (String "e" (String "r"
              (String " " rest))))))) with ("Bearer " ++ rest).
    rewrite bearerToken_Bearer.
    apply String.eqb_neq in Ht. rewrite Ht.
    cbn [time_Now]. fold now. rewrite Hv. reflexivity.
  - intros Hnone.
    pose proof (AuthMiddleware_cases jwtManager log next r s) as Hcases.
    cbv zeta in Hcases. fold header now in Hcases.
    destruct Hcases as [[Hh Ho] | [(Hh & Ht & Ho) | [(err & Hh & Ht & Hv & Ho)
                        | (claims & Hh & Ht & Hv & Ho)]]].
    + rewrite Ho. split; [now apply Hstatus|].
      intros next'. unfold middleware.AuthMiddleware. fold header. now rewrite Hh.
    + rewrite Ho. split; [now apply Hstatus|].
      intros next'. unfold middleware.AuthMiddleware. fold header.
      apply String.eqb_neq in Hh. rewrite Hh, Ht. reflexivity.
    + rewrite Ho. split; [apply Hstatus; now rewrite response_emit|].
      intros next'. unfold middleware.AuthMiddleware. fold header.
      apply String.eqb_neq in Hh, Ht. rewrite Hh, Ht.
      cbn [time_Now]. fold now. now rewrite Hv.
    + destruct (bearerToken_inv header Ht) as (rest & Hrest & Htok).
      elim (Hnone rest claims). rewrite <- Htok. repeat split; auto.
Qed.

(** C10: for every user id, the token [GenerateRefreshToken] produces is
    accepted by [ValidateToken], the validator of the gate, at every time
    inside its window, and the claims it yields have an empty [UserID] and an
    empty [Email]; presented as [Bearer <token>], it passes the gate, which
    hands the request on with both context values empty. *)
Theorem C10_refresh_token_passes_gate (j : auth.JWTManager) (clock3 : auth.Clock3)
    (userID : uuid.UUID) (now : time.Time) :
  let claims := auth.refreshClaims j clock3 userID in
  json.roundtrips auth.hs256Header ->
  json.roundtrips (jwt.toJSON claims) ->
  jwt.NewNumericDate (auth.nowNbf clock3) <= now
    < jwt.NewNumericDate (time.Add (auth.nowExp clock3) (auth.refreshTokenDuration j)) ->
  exists token accepted,
    auth.GenerateRefreshToken j clock3 userID = Ok token
    /\ auth.ValidateToken j now token = Ok accepted
    /\ auth.UserID accepted = "" /\ auth.Email accepted = ""
    /\ auth.RegisteredClaims accepted = claims
    /\ forall log next r s,
         http.Get (http.ReqHeader r) "Authorization" = "Bearer " ++ token ->
         clock s (reads s) = now ->
         middleware.AuthMiddleware j log next r s
         = next (authenticated r accepted) (snd (time_Now s))
         /\ middleware.GetUserIDFromContext (http.Ctx (authenticated r accepted)) = Some ""
         /\ middleware.GetEmailFromContext (http.Ctx (authenticated r accepted)) = Some "".
Proof.
  intros claims Hhdr Hdoc Hwin.
  set (accepted := {| auth.UserID := ""; auth.Email := "";
                      auth.RegisteredClaims := claims |}).
  destruct (ValidateToken_own_secret j claims accepted Hhdr Hdoc
              (Claims_fromJSON_registered claims (refreshClaims_whole j clock3 userID)))
    as (token & Hgen & Hval).
  assert (Hok : auth.ValidateToken j now token = Ok accepted).
  { rewrite Hval. unfold verdict.
    assert (Hv : jwt.Validate now accepted = Ok tt).
    { apply Validate_Ok. unfold accepted, claims.
      cbn [jwt.GetExpirationTime jwt.GetNotBefore auth.Claims_Claims
           auth.RegisteredClaims auth.refreshClaims jwt.ExpiresAt jwt.NotBefore
           jwt.notExpired jwt.notEarly].
      split; lia. }
    now rewrite Hv. }
  exists token, accepted. do 5 (split; [auto|]).
  intros lg nx rq st Hh Hnow.
  split; [|split; reflexivity].
  destruct (bearerToken_signed _ _ _ Hgen) as [Hb Hne].
  unfold middleware.AuthMiddleware. rewrite Hh.
  cbn [append String.eqb Ascii.eqb Bool.eqb].
  change (String "B" (String "e" (String "a" (String "r" (String "e" (String "r"
            (String " " token))))))) with ("Bearer " ++ token).
  rewrite Hb. apply String.eqb_neq in Hne. rewrite Hne.
  cbn [time_Now]. rewrite Hnow, Hok. reflexivity.
Qed.

End GateClaims.

(* ================================================================== *)
(** * Claims about passwords *)
(* ================================================================== *)

Section PasswordClaims.
Context `{bcrypt.Cipher}.

(** [CheckPassword] against a generated credential compares digests. *)
Lemma CheckPassword_credential (salt digest password : string) :
  String.length salt = bcrypt.encodedSaltSize ->
  auth.CheckPassword password (bcrypt.Hash (credential salt digest)) = None
  <-> bcrypt.digest password bcrypt.DefaultCost salt = Some (bcrypt.stored digest).
Proof.
  intros Hs. rewrite <- (CompareHashAndPassword_credential salt digest password Hs).
  unfold auth.CheckPassword.
  destruct (bcrypt.CompareHashAndPassword _ password) as [[]|e]; split;
    try discriminate; reflexivity.
Qed.

Lemma CheckPassword_two_values (password hashed : string) :
  auth.CheckPassword password hashed = None
  \/ auth.CheckPassword password hashed = Some passwordDoesNotMatch.
Proof.
  unfold auth.CheckPassword.
  destruct (bcrypt.CompareHashAndPassword hashed password); [now left | now right].
Qed.

(** C2 (amended): for every plaintext [p2] that can be hashed (at most 72
    bytes, the cipher accepting the fresh salt), [HashPassword] produces a
    credential against which [p2] verifies.  Another plaintext [p1] verifies
    against that credential exactly when bcrypt gives it the same digest under
    the credential's salt and cost: verification fails whenever the digests
    differ, and succeeds for every [p1] that gives bcrypt the same key stream
    (the password and a zero byte, repeated to 72 bytes), distinct from [p2]
    or not. *)
Theorem C2_password_roundtrip (unencodedSalt p2 d2 : string) :
  let salt := bcrypt.base64Encode unencodedSalt in
  String.length unencodedSalt = 16%nat ->
  (String.length p2 <= 72)%nat ->
  bcrypt.bcrypt p2 bcrypt.DefaultCost salt = Ok d2 ->
  exists hashed,
    auth.HashPassword (Ok unencodedSalt) p2 = Ok hashed
    /\ auth.CheckPassword p2 hashed = None
    /\ forall p1,
         (auth.CheckPassword p1 hashed = None
          <-> bcrypt.digest p1 bcrypt.DefaultCost salt
              = bcrypt.digest p2 bcrypt.DefaultCost salt)
         /\ (bcrypt.digest p1 bcrypt.DefaultCost salt
               <> bcrypt.digest p2 bcrypt.DefaultCost salt ->
             auth.CheckPassword p1 hashed = Some passwordDoesNotMatch)
         /\ (bcrypt.keyStream (p1 ++ String Ascii.zero "")
               = bcrypt.keyStream (p2 ++ String Ascii.zero "") ->
             auth.CheckPassword p1 hashed = None).
Proof.
  intros salt Hsalt Hlen Hd2.
  pose proof (length_base64Encode_salt unencodedSalt Hsalt) as Hs. fold salt in Hs.
  exists (bcrypt.Hash (credential salt d2)).
  assert (Hdig : bcrypt.digest p2 bcrypt.DefaultCost salt = Some (bcrypt.stored d2)).
  { unfold bcrypt.digest. now rewrite Hd2. }
  assert (Hchk : forall p1,
            auth.CheckPassword p1 (bcrypt.Hash (credential salt d2)) = None
            <-> bcrypt.digest p1 bcrypt.DefaultCost salt
                = bcrypt.digest p2 bcrypt.DefaultCost salt).
  { intros p1. rewrite Hdig. now apply CheckPassword_credential. }
  split; [|split].
  - unfold auth.HashPassword, bcrypt.GenerateFromPassword.
    destruct (Nat.ltb_spec 72 (String.length p2)) as [Hl|Hl]; [lia|].
    unfold bcrypt.newFromPassword.
    change (bcrypt.DefaultCost <? bcrypt.MinCost) with false. cbv iota.
    change (bcrypt.checkCost bcrypt.DefaultCost) with (Ok tt : result unit).
    cbn [bind]. fold salt. rewrite Hd2. reflexivity.
  - now apply Hchk.
  - intros p1. split; [apply Hchk | split].
    + intros Hne.
      destruct (CheckPassword_two_values p1 (bcrypt.Hash (credential salt d2)))
        as [Hnone|Hsome]; [|exact Hsome].
      apply Hchk in Hnone. now elim Hne.
    + intros Hstream. apply Hchk. unfold bcrypt.digest, bcrypt.bcrypt.
      now rewrite Hstream.
Qed.

(** C5 (amended): [CheckPassword] has one failure value: it returns nil when
    bcrypt's comparison succeeds and the error "password does not match" for
    every error of the comparison, a stored credential that does not parse
    as much as a digest that differs.  The caller cannot tell a malformed
    credential from a wrong password. *)
Theorem C5_check_password_single_error (password hashed : string) :
  (auth.CheckPassword password hashed = None
   <-> bcrypt.CompareHashAndPassword hashed password = Ok tt)
  /\ (forall e, bcrypt.CompareHashAndPassword hashed password = Err e ->
        auth.CheckPassword password hashed = Some passwordDoesNotMatch)
  /\ (forall e, bcrypt.newFromHash hashed = Err e ->
        auth.CheckPassword password hashed = Some passwordDoesNotMatch).
Proof.
  unfold auth.CheckPassword. split; [|split].
  - destruct (bcrypt.CompareHashAndPassword hashed password) as [[]|e]; split;
      try discriminate; reflexivity.
  - intros e ->. reflexivity.
  - intros e He. unfold bcrypt.CompareHashAndPassword. rewrite He. reflexivity.
Qed.

End PasswordClaims.

(* ================================================================== *)
(** * Claims about login *)
(* ================================================================== *)

Section LoginClaims.
Context `{json.Text} `{bcrypt.Cipher} `{time.Layout}.

(** The response of [JSONError]: the error document, stamped with the next
    reading of the clock. *)
Lemma JSONError_at (status : Z) (message : string) (s : World) :
  response (utils.JSONError status message s)
  = http.Write
      (json.Marshal (errorDocument status message (clock s (reads s)))
       ++ String "010"%char "")
      (http.WriteHeader status
         (http.HeaderSet "Content-Type" "application/json" (response s))).
Proof. reflexivity. Qed.

Lemma JSONError_response (status : Z) (message : string) (s : World) :
  http.sent (response s) = None ->
  http.statusCode (response (utils.JSONError status message s)) = Some status
  /\ http.body (response (utils.JSONError status message s))
     = http.body (response s)
       ++ json.Marshal (errorDocument status message (clock s (reads s)))
       ++ String "010"%char "".
Proof.
  intros Hs. rewrite JSONError_at.
  unfold http.statusCode, http.Write, http.WriteHeader, http.HeaderSet.
  cbn [http.sent http.header http.body]. rewrite Hs.
  cbn [http.sent http.header http.body option_map fst]. split; reflexivity.
Qed.

(** What is written does not change the status or the header. *)
Lemma Write_status_header (b b' : string) (w : http.ResponseWriter) :
  http.statusCode (http.Write b w) = http.statusCode (http.Write b' w)
  /\ http.header (http.Write b w) = http.header (http.Write b' w).
Proof. split; reflexivity. Qed.

(** C9: for every login request, the response produced when the email
    matches no user and the response produced when the user exists but the
    password does not match have the same status and the same header, and,
    when the request names an email and a password, both are the 401 response
    whose body is the error document with the message "Invalid email or
    password", each stamped with the reading of the clock at which it is
    written ([t] and [t'] below: the second run logs the failed verification
    first).  Readings apart, the two responses are the same response. *)
Theorem C9_login_failures_identical (j : auth.JWTManager) (l : logger.Logger)
    (unknown known : repository.Repository) (r : http.Request) (s : World) :
  let absent :=
    {| handlers.repo := unknown; handlers.jwtManager := j; handlers.log := l |} in
  let present :=
    {| handlers.repo := known; handlers.jwtManager := j; handlers.log := l |} in
  let t := clock s (reads s) in
  let t' := clock s (if logger.enabled l logger.WarnLevel
                     then S (reads s) else reads s) in
  (forall req, loginRequest r = Ok req ->
     repository.GetByEmail (repository.User unknown) (models.LoginEmail req) = Ok None) ->
  (forall req, loginRequest r = Ok req ->
     exists user,
       repository.GetByEmail (repository.User known) (models.LoginEmail req)
       = Ok (Some user)
       /\ auth.CheckPassword (models.LoginPassword req) (models.PasswordHash user)
          <> None) ->
  http.statusCode (response (handlers.Login absent r s))
  = http.statusCode (response (handlers.Login present r s))
  /\ http.header (response (handlers.Login absent r s))
     = http.header (response (handlers.Login present r s))
  /\ (t' = t ->
      response (handlers.Login absent r s) = response (handlers.Login present r s))
  /\ forall req,
       loginRequest r = Ok req ->
       models.LoginEmail req <> "" -> models.LoginPassword req <> "" ->
       http.sent (response s) = None ->
       http.statusCode (response (handlers.Login absent r s))
       = Some http.StatusUnauthorized
       /\ http.body (response (handlers.Login absent r s))
          = http.body (response s)
            ++ json.Marshal
                 (errorDocument http.StatusUnauthorized "Invalid email or password" t)
            ++ String "010"%char ""
       /\ http.body (response (handlers.Login present r s))
          = http.body (response s)
            ++ json.Marshal
                 (errorDocument http.StatusUnauthorized "Invalid email or password" t')
            ++ String "010"%char "".
Proof.
  intros absent present t t' Habsent Hpresent. subst absent present.
  unfold handlers.Login. fold (loginRequest r). cbn [handlers.repo handlers.log].
  destruct (loginRequest r) as [req|e] eqn:Hreq.
  - specialize (Habsent req eq_refl).
    destruct (Hpresent req eq_refl) as (user & Huser & Hpw).
    rewrite Habsent, Huser.
    destruct (auth.CheckPassword (models.LoginPassword req) (models.PasswordHash user))
      as [err|] eqn:Hc; [|now elim Hpw].
    destruct (String.eqb (models.LoginEmail req) "" || String.eqb (models.LoginPassword req) "")
      eqn:Hempty.
    + split; [reflexivity | split; [reflexivity | split; [reflexivity|]]].
      intros req' [= <-] He Hp.
      apply String.eqb_neq in He, Hp. rewrite He, Hp in Hempty. discriminate Hempty.
    + unfold utils.Unauthorized. rewrite !JSONError_at.
      rewrite response_emit, clock_emit, reads_emit.
      cbn [logger.enabled logger.WithError]. fold t t'.
      split; [apply Write_status_header | split; [apply Write_status_header|]].
      split; [intros ->; reflexivity|].
      intros req' _ _ _ Hfresh.
      unfold http.statusCode, http.Write, http.WriteHeader, http.HeaderSet.
      cbn [http.sent http.header http.body]. rewrite Hfresh.
      cbn [http.sent http.header http.body option_map fst].
      split; [reflexivity | split; reflexivity].
  - split; [reflexivity | split; [reflexivity | split; [reflexivity|]]].
    intros req' Hr. discriminate Hr.
Qed.

End LoginClaims.

(* ================================================================== *)
(** * The claims at concrete inputs *)
(* ================================================================== *)

Section AtConcreteInputs.
Local Existing Instance reference.text.
Local Existing Instance reference.layout.
Local Existing Instance reference.cipher.

Import fixtures.

Lemma accessToken_generated :
  auth.GenerateAccessToken manager (auth.frozen issued) userID email = Ok accessToken.
Proof. vm_compute. reflexivity. Qed.

Lemma refreshToken_generated :
  auth.GenerateRefreshToken manager (auth.frozen issued) userID = Ok refreshToken.
Proof. vm_compute. reflexivity. Qed.

(** C1: the code does not do what the claim says.  [foreignToken] carries
    the issuer "some-other-service", a correct HS256 signature under the
    manager's secret and a valid time window: [ValidateToken] accepts it and
    returns its claims, while [ValidateRefreshToken], which compares the
    issuer, refuses the refresh token of the same issuer. *)
Theorem C1_issuer_not_verified :
  jwt.SignedString (jwt.NewWithClaims jwt.SigningMethodHS256 foreignClaims)
    (auth.secret manager) = Ok foreignToken
  /\ auth.ValidateToken manager (issued + time.Minute) foreignToken = Ok foreignClaims
  /\ jwt.Issuer (auth.RegisteredClaims foreignClaims) <> auth.issuer
  /\ jwt.SignedString (jwt.NewWithClaims jwt.SigningMethodHS256 foreignRefreshClaims)
       (auth.secret manager) = Ok foreignRefreshToken
  /\ auth.ValidateRefreshToken manager (issued + time.Minute) (issued + time.Minute)
       foreignRefreshToken = Err (errorString "invalid token issuer").
Proof.
  split; [vm_compute; reflexivity|].
  split; [vm_compute; reflexivity|].
  split; [vm_compute; discriminate|].
  split; vm_compute; reflexivity.
Qed.

(** C6, a witness: the token issued at [issued] for 15 minutes validates one
    minute later and no longer at the expiry instant. *)
Lemma C6_access_token_lifetime_witness :
  json.roundtrips auth.hs256Header
  /\ json.roundtrips (jwt.toJSON (auth.accessClaims manager (auth.frozen issued) userID email))
  /\ exists token,
       auth.GenerateAccessToken manager (auth.frozen issued) userID email = Ok token
       /\ auth.ValidateToken manager (issued + time.Minute) token
          = Ok (auth.accessClaims manager (auth.frozen issued) userID email)
       /\ isOk (auth.ValidateToken manager (issued + 15 * time.Minute) token) = false.
Proof.
  assert (Hhdr : json.roundtrips auth.hs256Header) by (vm_compute; reflexivity).
  assert (Hdoc : json.roundtrips
                   (jwt.toJSON (auth.accessClaims manager (auth.frozen issued) userID email)))
    by (vm_compute; reflexivity).
  split; [exact Hhdr | split; [exact Hdoc|]].
  destruct (C6_access_token_lifetime manager userID email issued Hhdr Hdoc)
    as (token & Hgen & Hin & Hout & _).
  exists token. split; [exact Hgen | split].
  - apply Hin. vm_compute. split; [discriminate | reflexivity].
  - apply Hout. vm_compute. discriminate.
Defined.

(** C6, a counterexample to the claim as stated: with TTL [d] of 15 minutes,
    [now = issued_at + d] lies in [issued_at <= now <= issued_at + d], and the
    token does not validate there: it is expired. *)
Lemma C6_boundary_is_expired :
  0 < auth.accessTokenDuration manager
  /\ issued <= issued + auth.accessTokenDuration manager
       <= issued + auth.accessTokenDuration manager
  /\ auth.GenerateAccessToken manager (auth.frozen issued) userID email = Ok accessToken
  /\ auth.ValidateToken manager (issued + auth.accessTokenDuration manager) accessToken
     = Err (jwt.newError "" jwt.ErrTokenInvalidClaims (Some jwt.ErrTokenExpired)).
Proof.
  split; [reflexivity | split; [split; vm_compute; discriminate | split]];
    vm_compute; reflexivity.
Qed.

(** C7, a witness: tokens of the manager are refused under another secret,
    the MACs of their signing strings being different. *)
Lemma C7_cross_secret_rejection_witness :
  exists access refresh,
    auth.GenerateTokenPair manager (auth.frozen issued) (auth.frozen issued) userID email
    = Ok (access, refresh)
    /\ isOk (auth.ValidateToken otherManager (issued + time.Minute) access) = false
    /\ isOk (auth.ValidateRefreshToken otherManager (issued + time.Minute)
               (issued + time.Minute) refresh) = false.
Proof.
  destruct (C7_cross_secret_rejection manager otherManager (auth.frozen issued)
              (auth.frozen issued) userID email (issued + time.Minute)
              (issued + time.Minute))
    as (access & refresh & Hpair & Haccess & Hrefresh & _).
  - vm_compute. reflexivity.
  - vm_compute. reflexivity.
  - vm_compute. reflexivity.
  - exists access, refresh. split; [exact Hpair | split].
    + apply Haccess. vm_compute. discriminate.
    + apply Hrefresh. vm_compute. discriminate.
Defined.

(** C7, a counterexample to the claim as stated: the secret "topsecret" and
    the same bytes followed by a zero byte are distinct, and the access token
    and the refresh token issued under the first validate under the second:
    HMAC fills both keys with zero bytes to the same block. *)
Lemma C7_padded_secret_accepted :
  auth.secret manager <> auth.secret paddedManager
  /\ auth.GenerateTokenPair manager (auth.frozen issued) (auth.frozen issued) userID email
     = Ok (accessToken, refreshToken)
  /\ auth.ValidateToken paddedManager (issued + time.Minute) accessToken
     = Ok (auth.accessClaims manager (auth.frozen issued) userID email)
  /\ auth.ValidateRefreshToken paddedManager (issued + time.Minute) (issued + time.Minute)
       refreshToken = Ok (uuid.String_ userID).
Proof.
  split; [vm_compute; discriminate|].
  split; [vm_compute; reflexivity|].
  split; vm_compute; reflexivity.
Qed.

(** C10, a witness: the refresh token of the fixtures passes the gate. *)
Lemma C10_refresh_token_passes_gate_witness :
  exists token accepted,
    auth.GenerateRefreshToken manager (auth.frozen issued) userID = Ok token
    /\ auth.ValidateToken manager (issued + time.Minute) token = Ok accepted
    /\ auth.UserID accepted = "" /\ auth.Email accepted = ""
    /\ http.body
         (response
            (middleware.AuthMiddleware manager noLogger business
               (authorization ("Bearer " ++ token))
               {| response := http.newResponseWriter; log := [];
                  clock := fun _ => issued + time.Minute; reads := 0 |}))
       = "tasks of ".
Proof.
  destruct (C10_refresh_token_passes_gate manager (auth.frozen issued) userID
              (issued + time.Minute))
    as (token & accepted & Hgen & Hval & Hid & Hmail & _ & Hgate).
  - vm_compute. reflexivity.
  - vm_compute. reflexivity.
  - vm_compute. split; [discriminate | reflexivity].
  - exists token, accepted. do 4 (split; [assumption|]).
    destruct (Hgate noLogger business (authorization ("Bearer " ++ token))
                {| response := http.newResponseWriter; log := [];
                   clock := fun _ => issued + time.Minute; reads := 0 |}
                eq_refl eq_refl) as (-> & _ & _).
    unfold business, authenticated. cbn. rewrite Hid. reflexivity.
Defined.

(** C4, a counterexample to the claim as stated: [earlyToken] is signed with
    HS256 under the configured secret, names the deployment issuer, expires in
    the future and has a subject, so all of the claim's conditions hold; it is
    refused all the same, because its not-before time has not come. *)
Lemma C4_not_yet_valid_is_refused :
  jwt.SignedString (jwt.NewWithClaims jwt.SigningMethodHS256 earlyClaims)
    (auth.secret manager) = Ok earlyToken
  /\ jwt.Issuer earlyClaims = auth.issuer
  /\ (exists exp, jwt.ExpiresAt earlyClaims = Some exp /\ issued + time.Minute < exp)
  /\ jwt.Subject earlyClaims <> ""
  /\ auth.ValidateRefreshToken manager (issued + time.Minute) (issued + time.Minute)
       earlyToken
     = Err (wrapError "failed to parse refresh token"
              (jwt.newError "" jwt.ErrTokenInvalidClaims (Some jwt.ErrTokenNotValidYet))).
Proof.
  split; [vm_compute; reflexivity|].
  split; [reflexivity|].
  split; [eexists; split; [reflexivity | vm_compute; reflexivity]|].
  split; [vm_compute; discriminate|].
  vm_compute. reflexivity.
Qed.

(** C3, a witness: a request without the header, on a fresh writer. *)
Lemma C3_gate_rejections_witness :
  http.sent (response freshWorld) = None
  /\ http.statusCode
       (response (middleware.AuthMiddleware manager noLogger business (request [] "")
                    freshWorld))
     = Some http.StatusUnauthorized
  /\ http.body
       (response (middleware.AuthMiddleware manager noLogger business (request [] "")
                    freshWorld))
     = unauthorizedBody "authorization header missing".
Proof.
  split; [reflexivity|].
  destruct (C3_gate_rejections manager noLogger business (request [] "") freshWorld
              eq_refl) as (Hshape & Hmissing & _ & _).
  rewrite (Hmissing eq_refl).
  destruct (Hshape "authorization header missing") as (Hstatus & _ & Hbody).
  split; [exact Hstatus | exact Hbody].
Defined.

(** C3, a counterexample to the claim as stated: a request without the
    header, a request with the header [Token abc], and a request with an
    expired token are all answered with status 401, and with three different
    bodies. *)
Lemma C3_rejections_differ :
  let missing :=
    response (middleware.AuthMiddleware manager noLogger business (request [] "")
                freshWorld) in
  let scheme :=
    response (middleware.AuthMiddleware manager noLogger business
                (authorization "Token abc") freshWorld) in
  let expired :=
    response (middleware.AuthMiddleware manager noLogger business
                (authorization ("Bearer " ++ accessToken))
                {| response := http.newResponseWriter; log := [];
                   clock := fun _ => issued + time.Hour; reads := 0 |}) in
  http.statusCode missing = Some 401 /\ http.statusCode scheme = Some 401
  /\ http.statusCode expired = Some 401
  /\ http.body missing = unauthorizedBody "authorization header missing"
  /\ http.body scheme = unauthorizedBody "invalid authorization header"
  /\ http.body expired = unauthorizedBody "invalid or expired token"
  /\ missing <> scheme /\ scheme <> expired /\ missing <> expired.
Proof.
  cbv zeta.
  do 6 (split; [vm_compute; reflexivity|]).
  split; [|split]; vm_compute; discriminate.
Qed.

(** C8, a witness: the access token of the fixtures behind [Bearer ]. *)
Lemma C8_gate_accepts_witness :
  http.sent (response freshWorld) = None
  /\ middleware.AuthMiddleware manager noLogger business
       (authorization ("Bearer " ++ accessToken)) freshWorld
     = business
         (authenticated (authorization ("Bearer " ++ accessToken))
            (auth.accessClaims manager (auth.frozen issued) userID email))
         (snd (time_Now freshWorld)).
Proof.
  split; [reflexivity|].
  apply (proj1 (C8_gate_accepts manager noLogger business
                  (authorization ("Bearer " ++ accessToken)) freshWorld eq_refl)
           accessToken).
  split; [reflexivity | split].
  - vm_compute. discriminate.
  - vm_compute. reflexivity.
Defined.

(** C8, a counterexample to the claim as stated: with three spaces after
    the scheme and two after the token the header is not [Bearer <token>]
    with a single space, and the gate accepts it: business logic runs with the
    user of the token. *)
Lemma C8_extra_whitespace_accepted :
  let header := "Bearer   " ++ accessToken ++ "  " in
  let out := response (middleware.AuthMiddleware manager noLogger business
                         (authorization header) freshWorld) in
  header <> "Bearer " ++ accessToken
  /\ http.statusCode out = Some http.StatusOK
  /\ http.body out = "tasks of " ++ uuid.String_ userID.
Proof.
  cbv zeta. split; [vm_compute; discriminate|].
  split; vm_compute; reflexivity.
Qed.

(** C2, a witness: the password of the fixtures and its credential. *)
Lemma C2_password_roundtrip_witness :
  String.length salt16 = 16%nat
  /\ (String.length password <= 72)%nat
  /\ bcrypt.bcrypt password bcrypt.DefaultCost (bcrypt.base64Encode salt16) = Ok storedDigest
  /\ exists hashed,
       auth.HashPassword (Ok salt16) password = Ok hashed
       /\ auth.CheckPassword password hashed = None
       /\ auth.CheckPassword "hunter3" hashed = Some passwordDoesNotMatch.
Proof.
  assert (Hd : bcrypt.bcrypt password bcrypt.DefaultCost (bcrypt.base64Encode salt16)
               = Ok storedDigest) by (vm_compute; reflexivity).
  assert (Hl : (String.length password <= 72)%nat) by (vm_compute; lia).
  split; [reflexivity | split; [exact Hl | split; [exact Hd|]]].
  destruct (C2_password_roundtrip salt16 password storedDigest eq_refl Hl Hd)
    as (hashed & Hgen & Hself & Hother).
  exists hashed. split; [exact Hgen | split; [exact Hself|]].
  apply (proj1 (proj2 (Hother "hunter3"))).
  vm_compute. discriminate.
Defined.

(** C2, a counterexample to the claim as stated: two distinct plaintexts, of
    72 and of 73 bytes, the longer one verifying against the credential of
    the shorter: bcrypt reads 72 bytes of key. *)
Lemma C2_distinct_passwords_verify :
  let p2 := strings.Repeat "a" 72 in
  let p1 := strings.Repeat "a" 73 in
  p1 <> p2
  /\ exists hashed,
       auth.HashPassword (Ok salt16) p2 = Ok hashed
       /\ auth.CheckPassword p1 hashed = None.
Proof.
  cbv zeta. split; [vm_compute; discriminate|].
  eexists. split.
  - vm_compute. reflexivity.
  - vm_compute. reflexivity.
Qed.

(** C5, a counterexample to the claim as stated: a stored credential that is
    no bcrypt hash at all and a wrong password against a good credential fail
    inside bcrypt with different errors, and [CheckPassword] returns the same
    error for both. *)
Lemma C5_malformed_looks_like_mismatch :
  bcrypt.CompareHashAndPassword "not-a-bcrypt-hash" password = Err bcrypt.ErrHashTooShort
  /\ bcrypt.CompareHashAndPassword storedHash "wrong"
     = Err bcrypt.ErrMismatchedHashAndPassword
  /\ auth.HashPassword (Ok salt16) password = Ok storedHash
  /\ auth.CheckPassword password "not-a-bcrypt-hash" = auth.CheckPassword "wrong" storedHash.
Proof.
  split; [vm_compute; reflexivity|].
  split; [vm_compute; reflexivity|].
  split; vm_compute; reflexivity.
Qed.

(** C9, a witness: the same login request against a user table without the
    user and against one where the password is another.  The clock of
    [freshWorld] moves with every reading, so the bodies differ in their
    time stamp, and in nothing else. *)
Lemma C9_login_failures_identical_witness :
  let unknown := response (handlers.Login (handler emptyRepo) (request [] loginBody)
                             freshWorld) in
  let mismatch := response (handlers.Login (handler userRepo) (request [] loginBody)
                              freshWorld) in
  http.statusCode unknown = Some http.StatusUnauthorized
  /\ http.statusCode mismatch = Some http.StatusUnauthorized
  /\ http.header unknown = http.header mismatch
  /\ http.body unknown
     = json.Marshal (errorDocument http.StatusUnauthorized "Invalid email or password"
                       issued)
       ++ String "010"%char ""
  /\ http.body mismatch
     = json.Marshal (errorDocument http.StatusUnauthorized "Invalid email or password"
                       (issued + 1))
       ++ String "010"%char "".
Proof.
  assert (Hreq : loginRequest (request [] loginBody)
                 = Ok {| models.LoginEmail := email; models.LoginPassword := "wrong" |})
    by (vm_compute; reflexivity).
  destruct (C9_login_failures_identical manager noLogger emptyRepo userRepo
              (request [] loginBody) freshWorld) as (Hstatus & Hheader & _ & Hshape).
  - intros req _. reflexivity.
  - intros req Hr. rewrite Hreq in Hr. injection Hr as <-.
    exists user. split; [reflexivity | vm_compute; discriminate].
  - destruct (Hshape _ Hreq) as (Hcode & Hbody & Hbody').
    + vm_compute. discriminate.
    + vm_compute. discriminate.
    + reflexivity.
    + cbv zeta. unfold handler.
      split; [exact Hcode|].
      split; [rewrite <- Hstatus; exact Hcode|].
      split; [exact Hheader|].
      split; [exact Hbody | exact Hbody'].
Defined.

End AtConcreteInputs.

(* ================================================================== *)
(** * More about the parser and the tokens *)
(* ================================================================== *)

Section MoreParserFacts.
Context `{json.Text}.

(** A token of an HMAC method with any bytes as its signature: the parser
    compares them with the MAC under the manager's secret, then checks the
    time window. *)
Lemma ParseWithClaims_segments {C C' : Type} `{jwt.Claims C} `{jwt.Claims C'}
    (h : crypto.Hash) (claims : C) (claims' : C') (sig : string)
    (j : auth.JWTManager) (now : time.Time) :
  let t := jwt.NewWithClaims (jwt.SigningMethodHMAC h) claims in
  let sstr := jwt.SigningString t in
  let tokenString := sstr ++ "." ++ jwt.EncodeSegment sig in
  json.roundtrips (json.JObject (jwt.Header t)) ->
  json.roundtrips (jwt.toJSON claims) ->
  jwt.fromJSON (jwt.toJSON claims) = Ok claims' ->
  jwt.ParseWithClaims now tokenString (auth.keyFunc j)
  = if hmac.Equal sig (hmac.Sum h (auth.secret j) sstr)
    then match jwt.Validate now claims' with
         | Ok _ =>
             Ok {| jwt.Raw := tokenString;
                   jwt.Method := jwt.SigningMethodHMAC h;
                   jwt.Header := jwt.Header t;
                   jwt.TokenClaims := claims';
                   jwt.Signature := sig;
                   jwt.Valid := true |}
         | Err e => Err (jwt.newError "" jwt.ErrTokenInvalidClaims (Some e))
         end
    else Err (jwt.newError "" jwt.ErrTokenSignatureInvalid
                (Some jwt.ErrSignatureInvalid)).
Proof.
  intros t sstr tokenString Hhdr Hdoc Hdec.
  unfold jwt.ParseWithClaims. subst tokenString sstr.
  rewrite (ParseUnverified_signed h claims claims' _ Hhdr Hdoc Hdec)
    by apply EncodeToString_no_dot.
  cbn [auth.keyFunc jwt.Method].
  unfold jwt.DecodeSegment at 1. unfold jwt.EncodeSegment at 3.
  rewrite DecodeString_EncodeToString.
  cbn [jwt.Verify jwt.Method jwt.TokenClaims jwt.Raw jwt.Header].
  fold (jwt.SigningString t).
  destruct (hmac.Equal _ _); [|reflexivity].
  now destruct (jwt.Validate now claims') as [[]|e].
Qed.

(** The registered methods outside the HMAC family are found under their
    names. *)
Lemma GetSigningMethod_other (alg : string) :
  In alg jwt.otherMethods ->
  jwt.GetSigningMethod alg = Some (jwt.SigningMethodOther alg).
Proof.
  intros Hin. unfold jwt.otherMethods in Hin. cbn [In] in Hin.
  repeat (destruct Hin as [<-|Hin]; [reflexivity|]). now elim Hin.
Qed.


(** A token of any registered method parses back into its header and the
    claims its document decodes to. *)
Lemma ParseUnverified_method {C C' : Type} `{jwt.Claims C} `{jwt.Claims C'}
    (m : jwt.SigningMethod) (claims : C) (claims' : C') (sigSeg : string) :
  let t := jwt.NewWithClaims m claims in
  jwt.GetSigningMethod (jwt.Alg m) = Some m ->
  json.roundtrips (json.JObject (jwt.Header t)) ->
  json.roundtrips (jwt.toJSON claims) ->
  jwt.fromJSON (jwt.toJSON claims) = Ok claims' ->
  strings.absent "." sigSeg = true ->
  jwt.ParseUnverified (jwt.SigningString t ++ "." ++ sigSeg)
  = Ok ({| jwt.Raw := jwt.SigningString t ++ "." ++ sigSeg;
           jwt.Method := m;
           jwt.Header := jwt.Header t;
           jwt.TokenClaims := claims';
           jwt.Signature := "";
           jwt.Valid := false |},
        (jwt.EncodeSegment (json.Marshal (json.JObject (jwt.Header t))),
         jwt.EncodeSegment (json.Marshal (jwt.toJSON claims)),
         sigSeg)).
Proof.
  intros t Hm Hhdr Hdoc Hdec Hsig.
  unfold jwt.ParseUnverified, jwt.SigningString.
  cbn [jwt.TokenClaims t jwt.NewWithClaims].
  set (p0 := jwt.EncodeSegment (json.Marshal (json.JObject (jwt.Header t)))).
  set (p1 := jwt.EncodeSegment (json.Marshal (jwt.toJSON claims))).
  replace ((p0 ++ "." ++ p1) ++ "." ++ sigSeg)
    with (p0 ++ String "."%char (p1 ++ String "."%char sigSeg))
    by (now rewrite append_assoc).
  rewrite Split_three by (try apply EncodeToString_no_dot; assumption).
  subst p0 p1.
  unfold jwt.DecodeSegment, jwt.EncodeSegment.
  rewrite !DecodeString_EncodeToString.
  unfold json.roundtrips in Hhdr, Hdoc. rewrite Hhdr, Hdoc, Hdec.
  cbn [json.intoMap jwt.Header t jwt.NewWithClaims json.mapIndex String.eqb
       Ascii.eqb Bool.eqb].
  rewrite Hm. reflexivity.
Qed.

End MoreParserFacts.

Section MoreTokenTheorems.
Context `{json.Text}.

Lemma String__not_empty (u : uuid.UUID) : uuid.String_ u <> "".
Proof.
  unfold uuid.String_. intros He.
  apply append_eq_nil in He as [_ He]. discriminate He.
Qed.

Ltac decode_dates :=
  repeat match goal with
  | Hd : ?d mod time.Second = 0
    |- context [jwt.intoNumericDate (jwt.NumericDate_MarshalJSON ?d)] =>
      rewrite (intoNumericDate_roundtrip d Hd)
  | |- context [jwt.allStrings (List.map json.JString ?l)] =>
      rewrite (allStrings_roundtrip l)
  end.

Ltac decode_member :=
  cbn [json.storeMembers json.intoStruct json.omitempty flat_map List.app
       jwt.RegisteredClaims_members auth.Claims_members
       jwt.Issuer jwt.Subject jwt.Audience jwt.ExpiresAt jwt.NotBefore
       jwt.IssuedAt jwt.ID
       fst snd option_map json.nonEmptyString String.eqb Ascii.eqb Bool.eqb
       jwt.ClaimStrings_MarshalJSON];
  try rewrite !field_exact by reflexivity;
  cbn [jwt.RegisteredClaims_store json.intoString bind
       jwt.ClaimStrings_UnmarshalJSON String.eqb Ascii.eqb Bool.eqb];
  decode_dates;
  cbn [bind].

(** Read as registered claims, the document of an access token loses the
    user's id and email, which no field of [RegisteredClaims] takes. *)
Lemma RegisteredClaims_fromJSON_access (c : auth.Claims) :
  jwt.wholeSeconds (auth.RegisteredClaims c) ->
  json.field jwt.RegisteredClaims_names "user_id" = None ->
  json.field jwt.RegisteredClaims_names "email" = None ->
  jwt.fromJSON (C := jwt.RegisteredClaims) (jwt.toJSON c)
  = Ok (auth.RegisteredClaims c).
Proof.
  destruct c as [uid email [iss sub aud exp nbf iat jti]].
  intros (Hexp & Hnbf & Hiat) Huid Hemail.
  cbn [jwt.fromJSON jwt.toJSON auth.Claims_Claims jwt.RegisteredClaims_Claims
       auth.RegisteredClaims auth.Claims_members auth.UserID auth.Email
       json.intoStruct json.storeMembers].
  rewrite Huid, Hemail.
  unfold jwt.RegisteredClaims_names, jwt.zeroRegisteredClaims.
  destruct iss as [|? ?], sub as [|? ?], aud as [|? ?], exp as [?|], nbf as [?|],
    iat as [?|], jti as [|? ?];
    cbn [jwt.wholeDate jwt.ExpiresAt jwt.NotBefore jwt.IssuedAt auth.RegisteredClaims]
      in Hexp, Hnbf, Hiat;
    repeat decode_member; reflexivity.
Qed.

(** X1: the refresh token issued for a user validates, and gives back the
    user's id as a string, at every time from its not-before to just before
    its expiry (both whole seconds), when the expiry check that follows reads
    the clock no later than the expiry; it is refused before that window, from
    the expiry on, and, with a lifetime that is not positive, at every time
    from its issue on. *)
Theorem refresh_token_window (j : auth.JWTManager) (clock : auth.Clock3)
    (userID : uuid.UUID) :
  let claims := auth.refreshClaims j clock userID in
  let nbf := jwt.NewNumericDate (auth.nowNbf clock) in
  let exp := jwt.NewNumericDate
               (time.Add (auth.nowExp clock) (auth.refreshTokenDuration j)) in
  json.roundtrips auth.hs256Header ->
  json.roundtrips (jwt.toJSON claims) ->
  exists token,
    auth.GenerateRefreshToken j clock userID = Ok token
    /\ (forall now nowCheck,
          nbf <= now < exp -> nowCheck <= exp ->
          auth.ValidateRefreshToken j now nowCheck token = Ok (uuid.String_ userID))
    /\ (forall now nowCheck,
          now < nbf \/ exp <= now \/ exp < nowCheck ->
          isOk (auth.ValidateRefreshToken j now nowCheck token) = false)
    /\ (auth.refreshTokenDuration j <= 0 ->
        forall now nowCheck,
          auth.nowExp clock <= now ->
          isOk (auth.ValidateRefreshToken j now nowCheck token) = false).
Proof.
  intros claims nbf exp Hhdr Hdoc.
  pose proof (RegisteredClaims_fromJSON_toJSON claims
                (refreshClaims_whole j clock userID)) as Hdec.
  set (sstr := jwt.SigningString (jwt.NewWithClaims jwt.SigningMethodHS256 claims)).
  set (mac := hmac.Sum crypto.SHA256 (auth.secret j) sstr).
  set (token := sstr ++ "." ++ jwt.EncodeSegment mac).
  assert (Hparse : forall now,
    jwt.ParseWithClaims (C := jwt.RegisteredClaims) now token (auth.keyFunc j)
    = match jwt.Validate now claims with
      | Ok _ =>
          Ok {| jwt.Raw := token;
                jwt.Method := jwt.SigningMethodHS256;
                jwt.Header := jwt.Header (jwt.NewWithClaims jwt.SigningMethodHS256 claims);
                jwt.TokenClaims := claims;
                jwt.Signature := mac;
                jwt.Valid := true |}
      | Err e => Err (jwt.newError "" jwt.ErrTokenInvalidClaims (Some e))
      end).
  { intros now.
    destruct (ParseWithClaims_signed crypto.SHA256 claims claims (auth.secret j) j now
                Hhdr Hdoc Hdec) as [_ Hp].
    cbv zeta in Hp. etransitivity; [exact Hp|]. now rewrite Equal_refl. }
  exists token. split.
  { rewrite GenerateRefreshToken_signed. fold claims.
    exact (proj1 (ParseWithClaims_signed crypto.SHA256 claims claims (auth.secret j) j 0
                    Hhdr Hdoc Hdec)). }
  assert (Hval : forall now, jwt.Validate now claims = Ok tt <-> nbf <= now < exp).
  { intros now. rewrite Validate_Ok. unfold claims.
    cbn [jwt.GetExpirationTime jwt.GetNotBefore jwt.RegisteredClaims_Claims
         auth.refreshClaims jwt.ExpiresAt jwt.NotBefore jwt.notExpired jwt.notEarly].
    fold nbf exp. lia. }
  assert (Hin : forall now nowCheck, nbf <= now < exp -> nowCheck <= exp ->
            auth.ValidateRefreshToken j now nowCheck token = Ok (uuid.String_ userID)).
  { intros now nowCheck Hnow Hcheck. unfold auth.ValidateRefreshToken.
    rewrite Hparse. rewrite (proj2 (Hval now) Hnow).
    cbn [jwt.Valid jwt.TokenClaims negb claims auth.refreshClaims jwt.Issuer
         jwt.ExpiresAt jwt.Subject].
    change (String.eqb auth.issuer "secure-task-api") with true. cbn [negb].
    fold exp. unfold time.After.
    destruct (Z.ltb_spec exp nowCheck) as [Hx|_]; [lia|].
    pose proof (String__not_empty userID) as Hne. apply String.eqb_neq in Hne.
    now rewrite Hne. }
  assert (Hout : forall now nowCheck, now < nbf \/ exp <= now \/ exp < nowCheck ->
            isOk (auth.ValidateRefreshToken j now nowCheck token) = false).
  { intros now nowCheck Hnow. unfold auth.ValidateRefreshToken.
    rewrite Hparse.
    destruct (jwt.Validate now claims) as [[]|e] eqn:Hv; [|reflexivity].
    apply Hval in Hv.
    cbn [jwt.Valid jwt.TokenClaims negb claims auth.refreshClaims jwt.Issuer
         jwt.ExpiresAt jwt.Subject].
    change (String.eqb auth.issuer "secure-task-api") with true. cbn [negb].
    fold exp. unfold time.After.
    destruct (Z.ltb_spec exp nowCheck) as [Hx|Hx]; [reflexivity | lia]. }
  split; [exact Hin | split; [exact Hout|]].
  intros Hd now nowCheck Hnow. apply Hout. right; left.
  subst exp. unfold jwt.NewNumericDate, jwt.TimePrecision.
  pose proof (Truncate_le (time.Add (auth.nowExp clock) (auth.refreshTokenDuration j))).
  unfold time.Add in *. lia.
Qed.


(** X4: [ValidateToken] accepts a token signed under the secret with any method
    of the HMAC family, HS384 and HS512 as well as the HS256 this program
    signs with, exactly inside the time window of its claims. *)
Theorem ValidateToken_accepts_HMAC_family (j : auth.JWTManager) (h : crypto.Hash)
    (claims : auth.Claims) (now : time.Time) :
  let t := jwt.NewWithClaims (jwt.SigningMethodHMAC h) claims in
  json.roundtrips (json.JObject (jwt.Header t)) ->
  json.roundtrips (jwt.toJSON claims) ->
  jwt.wholeSeconds (auth.RegisteredClaims claims) ->
  exists token,
    jwt.SignedString t (auth.secret j) = Ok token
    /\ (auth.ValidateToken j now token = Ok claims
        <-> jwt.notExpired now (jwt.ExpiresAt (auth.RegisteredClaims claims))
            /\ jwt.notEarly now (jwt.NotBefore (auth.RegisteredClaims claims)))
    /\ (isOk (auth.ValidateToken j now token) = true
        -> auth.ValidateToken j now token = Ok claims).
Proof.
  intros t Hhdr Hdoc Hwhole.
  pose proof (Claims_fromJSON_toJSON claims Hwhole) as Hdec.
  pose proof (ParseWithClaims_segments h claims claims
                (hmac.Sum h (auth.secret j) (jwt.SigningString t)) j now
                Hhdr Hdoc Hdec) as Hparse.
  cbv zeta in Hparse. fold t in Hparse. rewrite Equal_refl in Hparse.
  eexists. split; [reflexivity|].
  unfold auth.ValidateToken. rewrite Hparse.
  pose proof (Validate_Ok now claims) as Hw.
  cbn [jwt.GetExpirationTime jwt.GetNotBefore auth.Claims_Claims] in Hw.
  destruct (jwt.Validate now claims) as [[]|e]; cbn [jwt.Valid jwt.TokenClaims].
  - split; [|reflexivity]. split; [intros _; now apply Hw | reflexivity].
  - split; [|discriminate]. split; [discriminate|].
    intros Hin. apply Hw in Hin. discriminate Hin.
Qed.

(** X3: What [ValidateToken] checks, and nothing else: the string has three
    segments that decode to a header and claims, the header names a method
    of the HMAC family, the third segment is the MAC of the first two under
    the secret, and [now] is inside the window of the dates that are set.
    The claims come back as decoded, whatever issuer, subject or audience
    they name. *)
Theorem ValidateToken_accepts_iff (j : auth.JWTManager) (now : time.Time)
    (tokenString : string) (claims : auth.Claims) :
  auth.ValidateToken j now tokenString = Ok claims
  <-> exists (token : jwt.Token auth.Claims) p0 p1 p2 h sig,
        jwt.ParseUnverified tokenString = Ok (token, (p0, p1, p2))
        /\ jwt.Method token = jwt.SigningMethodHMAC h
        /\ jwt.DecodeSegment p2 = Some sig
        /\ sig = hmac.Sum h (auth.secret j) (p0 ++ "." ++ p1)
        /\ jwt.notExpired now (jwt.ExpiresAt (auth.RegisteredClaims claims))
        /\ jwt.notEarly now (jwt.NotBefore (auth.RegisteredClaims claims))
        /\ claims = jwt.TokenClaims token.
Proof.
  rewrite ValidateToken_Ok. split.
  - intros (tok & Hp & <-).
    apply ParseWithClaims_Ok in Hp
      as (token & p0 & p1 & p2 & key & sig & Hpu & Hk & Hs & Hv & Hc & ->).
    apply keyFunc_Ok in Hk as [[h Hh] ->].
    rewrite Hh in Hv. apply Verify_HMAC in Hv.
    apply Validate_Ok in Hc as [Hexp Hnbf].
    cbn [jwt.GetExpirationTime jwt.GetNotBefore auth.Claims_Claims] in Hexp, Hnbf.
    exists token, p0, p1, p2, h, sig. cbn [jwt.TokenClaims]. repeat split; auto.
  - intros (token & p0 & p1 & p2 & h & sig & Hpu & Hh & Hs & Hsig & Hexp & Hnbf & ->).
    exists {| jwt.Raw := jwt.Raw token; jwt.Method := jwt.Method token;
              jwt.Header := jwt.Header token;
              jwt.TokenClaims := jwt.TokenClaims token;
              jwt.Signature := sig; jwt.Valid := true |}.
    split; [|reflexivity].
    apply ParseWithClaims_Ok.
    exists token, p0, p1, p2, (auth.secret j), sig.
    split; [exact Hpu|]. split; [|split; [exact Hs|split; [|split; [|reflexivity]]]].
    + apply keyFunc_Ok. split; [now exists h | reflexivity].
    + rewrite Hh. now apply Verify_HMAC.
    + apply Validate_Ok.
      cbn [jwt.GetExpirationTime jwt.GetNotBefore auth.Claims_Claims]. now split.
Qed.

(** X5: A token whose header names a registered method outside the HMAC family
    (RS256, ES256, none, ...) is refused by the key function of both
    validators before any signature is looked at: whatever its third segment,
    whatever its claims and the time. *)
Theorem validators_refuse_other_methods (j : auth.JWTManager) (alg : string)
    (claims : auth.Claims) (registered : jwt.RegisteredClaims) (sigSeg : string)
    (now nowCheck : time.Time) :
  let access := jwt.NewWithClaims (jwt.SigningMethodOther alg) claims in
  let refresh := jwt.NewWithClaims (jwt.SigningMethodOther alg) registered in
  let refused :=
    jwt.newError "error while executing keyfunc" jwt.ErrTokenUnverifiable
      (Some (errorString ("unexpected signing method: " ++ alg))) in
  In alg jwt.otherMethods ->
  json.roundtrips (json.JObject (jwt.Header access)) ->
  json.roundtrips (jwt.toJSON claims) ->
  json.roundtrips (jwt.toJSON registered) ->
  jwt.wholeSeconds (auth.RegisteredClaims claims) ->
  jwt.wholeSeconds registered ->
  strings.absent "." sigSeg = true ->
  auth.ValidateToken j now (jwt.SigningString access ++ "." ++ sigSeg) = Err refused
  /\ auth.ValidateRefreshToken j now nowCheck (jwt.SigningString refresh ++ "." ++ sigSeg)
     = Err (wrapError "failed to parse refresh token" refused).
Proof.
  intros access refresh refused Hin Hhdr Hadoc Hrdoc Hawhole Hrwhole Hsig.
  subst access refresh refused.
  pose proof (GetSigningMethod_other alg Hin) as Hm.
  split.
  - unfold auth.ValidateToken, jwt.ParseWithClaims.
    rewrite (ParseUnverified_method (jwt.SigningMethodOther alg) claims claims sigSeg
               Hm Hhdr Hadoc (Claims_fromJSON_toJSON claims Hawhole) Hsig).
    reflexivity.
  - unfold auth.ValidateRefreshToken, jwt.ParseWithClaims.
    rewrite (ParseUnverified_method (jwt.SigningMethodOther alg) registered registered
               sigSeg Hm Hhdr Hrdoc
               (RegisteredClaims_fromJSON_toJSON registered Hrwhole) Hsig).
    reflexivity.
Qed.

(** X7: Issuing a token pair never fails, whatever the secret (the empty one
    included) and the durations, and each token is three segments between two
    full stops, made of bytes that pass through a [Bearer] header
    unchanged. *)
Theorem GenerateTokenPair_never_fails (j : auth.JWTManager)
    (accessClock refreshClock : auth.Clock3) (userID : uuid.UUID) (email : string) :
  exists accessToken refreshToken,
    auth.GenerateTokenPair j accessClock refreshClock userID email
    = Ok (accessToken, refreshToken)
    /\ List.length (strings.Split accessToken ".") = 3%nat
    /\ List.length (strings.Split refreshToken ".") = 3%nat
    /\ middleware.bearerToken ("Bearer " ++ accessToken) = accessToken
    /\ middleware.bearerToken ("Bearer " ++ refreshToken) = refreshToken.
Proof.
  assert (Hshape : forall {C : Type} `{jwt.Claims C} (claims : C) (key : string),
            exists token,
              jwt.SignedString (jwt.NewWithClaims jwt.SigningMethodHS256 claims) key
              = Ok token
              /\ List.length (strings.Split token ".") = 3%nat
              /\ middleware.bearerToken ("Bearer " ++ token) = token).
  { intros C HC claims key.
    set (t := jwt.NewWithClaims jwt.SigningMethodHS256 claims).
    set (p0 := jwt.EncodeSegment (json.Marshal (json.JObject (jwt.Header t)))).
    set (p1 := jwt.EncodeSegment (json.Marshal (jwt.toJSON claims))).
    set (p2 := jwt.EncodeSegment (hmac.Sum crypto.SHA256 key (p0 ++ "." ++ p1))).
    exists ((p0 ++ "." ++ p1) ++ "." ++ p2).
    split; [reflexivity|]. split.
    - replace ((p0 ++ "." ++ p1) ++ "." ++ p2)
        with (p0 ++ String "."%char (p1 ++ String "."%char p2))
        by (now rewrite append_assoc).
      rewrite Split_three by apply EncodeToString_no_dot. reflexivity.
    - now apply (bearerToken_signed t key). }
  destruct (Hshape _ _ (auth.accessClaims j accessClock userID email) (auth.secret j))
    as (a & Ha & Ha3 & Hab).
  destruct (Hshape _ _ (auth.refreshClaims j refreshClock userID) (auth.secret j))
    as (r & Hr & Hr3 & Hrb).
  exists a, r. unfold auth.GenerateTokenPair.
  rewrite GenerateAccessToken_signed, GenerateRefreshToken_signed, Ha, Hr.
  repeat split; assumption.
Qed.

(** X6: A token whose third segment is not the MAC of the first two under the
    secret is refused as wrongly signed, inside or outside the time window
    of its claims: the signature is checked before the claims. *)
Theorem ValidateToken_wrong_signature (j : auth.JWTManager) (h : crypto.Hash)
    (claims : auth.Claims) (sig : string) (now : time.Time) :
  let t := jwt.NewWithClaims (jwt.SigningMethodHMAC h) claims in
  json.roundtrips (json.JObject (jwt.Header t)) ->
  json.roundtrips (jwt.toJSON claims) ->
  jwt.wholeSeconds (auth.RegisteredClaims claims) ->
  sig <> hmac.Sum h (auth.secret j) (jwt.SigningString t) ->
  auth.ValidateToken j now (jwt.SigningString t ++ "." ++ jwt.EncodeSegment sig)
  = Err (jwt.newError "" jwt.ErrTokenSignatureInvalid (Some jwt.ErrSignatureInvalid)).
Proof.
  intros t Hhdr Hdoc Hwhole Hsig.
  pose proof (ParseWithClaims_segments h claims claims sig j now Hhdr Hdoc
                (Claims_fromJSON_toJSON claims Hwhole)) as Hparse.
  cbv zeta in Hparse. fold t in Hparse.
  unfold auth.ValidateToken. rewrite Hparse.
  apply String.eqb_neq in Hsig. unfold hmac.Equal. now rewrite Hsig.
Qed.

End MoreTokenTheorems.

(* ================================================================== *)
(** * More about passwords *)
(* ================================================================== *)

Section MorePasswordTheorems.
Context `{bcrypt.Cipher}.

(** X9: The credential [HashPassword] returns is 60 bytes: the prefix [$2a$10$],
    the 22 characters of the salt and the 31 bytes of the digest; and
    [newFromHash] reads back the version, the cost, the salt and the digest
    that were laid out. *)
Theorem HashPassword_credential_format (unencodedSalt password hashed : string) :
  let salt := bcrypt.base64Encode unencodedSalt in
  String.length unencodedSalt = 16%nat ->
  auth.HashPassword (Ok unencodedSalt) password = Ok hashed ->
  exists d,
    bcrypt.bcrypt password bcrypt.DefaultCost salt = Ok d
    /\ hashed = "$2a$10$" ++ salt ++ bcrypt.stored d
    /\ String.length hashed = 60%nat
    /\ bcrypt.newFromHash hashed
       = Ok {| bcrypt.hash := bcrypt.stored d; bcrypt.salt := salt;
               bcrypt.cost := 10; bcrypt.major := "2"%char; bcrypt.minor := "a"%char |}
    /\ auth.CheckPassword password hashed = None.
Proof.
  intros salt Hlen Hhash.
  pose proof (length_base64Encode_salt unencodedSalt Hlen) as Hs. fold salt in Hs.
  apply HashPassword_Ok in Hhash as (u & d & [= <-] & Hp & Hd & ->). fold salt in Hd |- *.
  exists d. split; [exact Hd|].
  rewrite (Hash_credential salt d Hs). split; [reflexivity|]. split; [|split].
  - rewrite !length_append, Hs, length_stored. reflexivity.
  - rewrite <- (Hash_credential salt d Hs). now apply newFromHash_credential.
  - rewrite <- (Hash_credential salt d Hs).
    apply (proj2 (CheckPassword_credential salt d password Hs)).
    unfold bcrypt.digest. now rewrite Hd.
Qed.

(** X11: A stored credential that is shorter than 59 bytes, or does not begin with
    [$], or names a major version above 2, verifies no password. *)
Theorem CheckPassword_malformed_credential (password hashed : string) :
  (String.length hashed < 59)%nat
  \/ strings.HasPrefix hashed "$" = false
  \/ (exists v rest, hashed = String "$" (String v rest) /\ (50 < N_of_ascii v)%N) ->
  auth.CheckPassword password hashed = Some passwordDoesNotMatch.
Proof.
  intros Hbad.
  assert (Herr : exists e, bcrypt.newFromHash hashed = Err e).
  { unfold bcrypt.newFromHash.
    destruct (Nat.ltb_spec (String.length hashed) bcrypt.minHashSize) as [Hl|Hl];
      [now eexists|].
    destruct hashed as [|s0 [|s1 [|s2 rest]]]; try (now eexists).
    destruct Hbad as [Hshort | [Hprefix | (v & rest' & [= -> -> ->] & Hv)]].
    - unfold bcrypt.minHashSize in Hl. lia.
    - cbn [strings.HasPrefix] in Hprefix. rewrite andb_true_r in Hprefix.
      rewrite Ascii.eqb_sym in Hprefix. rewrite Hprefix. now eexists.
    - change (negb (Ascii.eqb "$" "$")) with false. cbv iota.
      change (N_of_ascii bcrypt.majorVersion) with 50%N.
      apply N.ltb_lt in Hv. rewrite Hv. now eexists. }
  destruct Herr as [e He].
  unfold auth.CheckPassword, bcrypt.CompareHashAndPassword. rewrite He. reflexivity.
Qed.

(** X10: The failures of [HashPassword]: a password of more than 72 bytes is
    refused whatever the random source gives, a failing random source fails
    the hashing, and every error is wrapped as "could not hash password". *)
Theorem HashPassword_errors (entropy : result string) (password : string) :
  ((72 < String.length password)%nat ->
   auth.HashPassword entropy password
   = Err (wrapError "could not hash password" bcrypt.ErrPasswordTooLong))
  /\ (forall e, (String.length password <= 72)%nat -> entropy = Err e ->
        auth.HashPassword entropy password
        = Err (wrapError "could not hash password" e))
  /\ (forall e, auth.HashPassword entropy password = Err e ->
        exists cause, e = wrapError "could not hash password" cause).
Proof.
  unfold auth.HashPassword, bcrypt.GenerateFromPassword. split; [|split].
  - intros Hl. apply Nat.ltb_lt in Hl. now rewrite Hl.
  - intros e Hl ->. apply Nat.leb_le in Hl. rewrite Nat.leb_antisym in Hl.
    apply negb_true_iff in Hl. rewrite Hl. reflexivity.
  - intros e.
    destruct (72 <? String.length password)%nat.
    + intros [= <-]. now eexists.
    + destruct (bcrypt.newFromPassword entropy password bcrypt.DefaultCost) as [p|e'];
        cbn [bind]; [discriminate|]. intros [= <-]. now eexists.
Qed.

End MorePasswordTheorems.

(* ================================================================== *)
(** * More about the gate and the login *)
(* ================================================================== *)

Section MoreGateTheorems.
Context `{json.Text}.

(** What the gate hands to the next handler for a token it accepts. *)
Lemma AuthMiddleware_accepts (j : auth.JWTManager) (lg : logger.Logger) (next : Handler)
    (r : http.Request) (s : World) (token : string) (claims : auth.Claims) :
  http.Get (http.ReqHeader r) "Authorization" = "Bearer " ++ token ->
  middleware.bearerToken ("Bearer " ++ token) = token ->
  token <> "" ->
  auth.ValidateToken j (clock s (reads s)) token = Ok claims ->
  middleware.AuthMiddleware j lg next r s
  = next (authenticated r claims) (snd (time_Now s)).
Proof.
  intros Hh Hb Hne Hv. unfold middleware.AuthMiddleware. rewrite Hh.
  cbn [append String.eqb Ascii.eqb Bool.eqb].
  change (String "B" (String "e" (String "a" (String "r" (String "e" (String "r"
            (String " " token))))))) with ("Bearer " ++ token).
  rewrite Hb. apply String.eqb_neq in Hne. rewrite Hne.
  cbn [time_Now]. rewrite Hv. reflexivity.
Qed.

(** X8: From issuer to handler: the access token issued for a user, presented as
    [Bearer <token>] inside its time window, passes the gate, and the next
    handler reads the user's id and email from the context, whatever the
    context held before; the request is otherwise unchanged.  From the expiry
    instant on the same header is answered with a 401 and the next handler
    is not run. *)
Theorem access_token_reaches_handler (j : auth.JWTManager) (clock3 : auth.Clock3)
    (userID : uuid.UUID) (email : string) :
  let claims := auth.accessClaims j clock3 userID email in
  let nbf := jwt.NewNumericDate (auth.nowNbf clock3) in
  let exp := jwt.NewNumericDate
               (time.Add (auth.nowExp clock3) (auth.accessTokenDuration j)) in
  json.roundtrips auth.hs256Header ->
  json.roundtrips (jwt.toJSON claims) ->
  exists token,
    auth.GenerateAccessToken j clock3 userID email = Ok token
    /\ forall log next r s,
         http.Get (http.ReqHeader r) "Authorization" = "Bearer " ++ token ->
         (nbf <= clock s (reads s) < exp ->
          exists r',
            middleware.AuthMiddleware j log next r s = next r' (snd (time_Now s))
            /\ middleware.GetUserIDFromContext (http.Ctx r') = Some (uuid.String_ userID)
            /\ middleware.GetEmailFromContext (http.Ctx r') = Some email
            /\ http.ReqHeader r' = http.ReqHeader r /\ http.Body r' = http.Body r)
         /\ (exp <= clock s (reads s) -> http.sent (response s) = None ->
             http.statusCode (response (middleware.AuthMiddleware j log next r s))
             = Some http.StatusUnauthorized
             /\ forall next',
                  middleware.AuthMiddleware j log next' r s
                  = middleware.AuthMiddleware j log next r s).
Proof.
  intros claims nbf exp Hhdr Hdoc.
  destruct (access_token_window j clock3 userID email Hhdr Hdoc) as (token & Hgen & Hwin).
  fold claims nbf exp in Hwin.
  exists token. split; [exact Hgen|].
  intros lg nx rq st Hh.
  rewrite GenerateAccessToken_signed in Hgen.
  destruct (bearerToken_signed _ _ _ Hgen) as [Hb Hne].
  assert (Hmw : forall nx', middleware.AuthMiddleware j lg nx' rq st
            = match auth.ValidateToken j (clock st (reads st)) token with
              | Err err =>
                  middleware.unauthorized "invalid or expired token"
                    (emit logger.WarnLevel (logger.WithError lg err)
                       "token validation failed" (snd (time_Now st)))
              | Ok c => nx' (authenticated rq c) (snd (time_Now st))
              end).
  { intros nx'. unfold middleware.AuthMiddleware. rewrite Hh.
    cbn [append String.eqb Ascii.eqb Bool.eqb].
    change (String "B" (String "e" (String "a" (String "r" (String "e" (String "r"
              (String " " token))))))) with ("Bearer " ++ token).
    rewrite Hb. apply String.eqb_neq in Hne. rewrite Hne.
    cbn [time_Now]. reflexivity. }
  split.
  - intros Hnow. exists (authenticated rq claims).
    rewrite Hmw, (proj1 (Hwin _) Hnow).
    split; [reflexivity|]. split; [reflexivity|]. split; [|split; reflexivity].
    unfold middleware.GetEmailFromContext, authenticated. reflexivity.
  - intros Hnow Hfresh.
    assert (Hbad : isOk (auth.ValidateToken j (clock st (reads st)) token) = false)
      by (apply (proj2 (Hwin _)); lia).
    split.
    + rewrite Hmw.
      destruct (auth.ValidateToken j (clock st (reads st)) token) as [c|err];
        [discriminate Hbad|].
      rewrite (response_unauthorized _ st) by (now rewrite response_emit).
      now apply unauthorized_response.
    + intros nx'. rewrite !Hmw.
      now destruct (auth.ValidateToken j (clock st (reads st)) token).
Qed.

End MoreGateTheorems.

Section MoreLoginTheorems.
Context `{json.Text} `{bcrypt.Cipher} `{time.Layout}.

(** X13: A login request that does not parse, or names no email or no password,
    is answered with a 400 before the user table or the password is looked
    at: the response is the same for every repository and manager. *)
Theorem Login_refuses_incomplete_request (j j' : auth.JWTManager) (l : logger.Logger)
    (repo repo' : repository.Repository) (r : http.Request) (s : World) :
  let h := {| handlers.repo := repo; handlers.jwtManager := j; handlers.log := l |} in
  let h' := {| handlers.repo := repo'; handlers.jwtManager := j'; handlers.log := l |} in
  (forall req, loginRequest r = Ok req ->
     models.LoginEmail req = "" \/ models.LoginPassword req = "") ->
  response (handlers.Login h r s) = response (handlers.Login h' r s)
  /\ (http.sent (response s) = None ->
      http.statusCode (response (handlers.Login h r s)) = Some http.StatusBadRequest
      /\ exists t,
           http.body (response (handlers.Login h r s))
           = http.body (response s)
             ++ json.Marshal
                  (errorDocument http.StatusBadRequest
                     (match loginRequest r with
                      | Ok _ => "Email and password are required"
                      | Err _ => "Invalid request body"
                      end) t)
             ++ String "010"%char "").
Proof.
  intros h h' Hbad. subst h h'.
  unfold handlers.Login. cbn [handlers.repo handlers.log handlers.jwtManager].
  fold (loginRequest r).
  destruct (loginRequest r) as [req|e] eqn:Hreq.
  - assert (He : String.eqb (models.LoginEmail req) ""
                 || String.eqb (models.LoginPassword req) "" = true).
    { destruct (Hbad req eq_refl) as [-> | ->]; [reflexivity|].
      apply orb_true_r. }
    rewrite He. split; [reflexivity|].
    intros Hfresh. unfold utils.BadRequest.
    destruct (JSONError_response http.StatusBadRequest "Email and password are required"
                s Hfresh) as [Hst Hbody].
    split; [exact Hst|]. eexists. exact Hbody.
  - split; [reflexivity|].
    intros Hfresh. unfold utils.BadRequest.
    destruct (JSONError_response http.StatusBadRequest "Invalid request body"
                (emit logger.ErrorLevel (logger.WithError l e) "invalid login payload" s))
      as [Hst Hbody].
    { now rewrite response_emit. }
    split; [exact Hst|]. rewrite response_emit in Hbody. eexists. exact Hbody.
Qed.

(** X12: A login with the right password is answered with a 200 whose document
    holds the user without the password hash and the token pair issued for
    the user's id and email from the next six readings of the clock. *)
Theorem Login_issues_token_pair (h : handlers.AuthHandler) (r : http.Request)
    (s : World) (req : models.LoginRequest) (user : models.User) :
  let accessClock := fst (readClock3 s) in
  let refreshClock := fst (readClock3 (snd (readClock3 s))) in
  loginRequest r = Ok req ->
  models.LoginEmail req <> "" -> models.LoginPassword req <> "" ->
  repository.GetByEmail (repository.User (handlers.repo h)) (models.LoginEmail req)
  = Ok (Some user) ->
  auth.CheckPassword (models.LoginPassword req) (models.PasswordHash user) = None ->
  http.sent (response s) = None ->
  exists accessToken refreshToken,
    auth.GenerateTokenPair (handlers.jwtManager h) accessClock refreshClock
      (models.ID user) (models.Email user) = Ok (accessToken, refreshToken)
    /\ http.statusCode (response (handlers.Login h r s)) = Some http.StatusOK
    /\ http.body (response (handlers.Login h r s))
       = http.body (response s)
         ++ json.Marshal
              (json.JObject
                 [("data",
                   json.JObject
                     [("user",
                       json.JObject
                         [("id", json.JString (uuid.String_ (models.ID user)));
                          ("email", json.JString (models.Email user));
                          ("name", json.JString (models.Name user));
                          ("created_at",
                           json.JString (time.RFC3339Nano (models.CreatedAt user)));
                          ("updated_at",
                           json.JString (time.RFC3339Nano (models.UpdatedAt user)))]);
                      ("token", json.JString accessToken);
                      ("refresh_token", json.JString refreshToken)]);
                  ("success", json.JBool true)])
         ++ String "010"%char ""
    /\ reads (handlers.Login h r s) = (reads s + 6)%nat.
Proof.
  intros accessClock refreshClock Hreq He Hp Huser Hcheck Hfresh.
  unfold handlers.Login. fold (loginRequest r). rewrite Hreq.
  apply String.eqb_neq in He, Hp. rewrite He, Hp. cbn [orb].
  rewrite Huser, Hcheck.
  destruct (readClock3 s) as [ac s1] eqn:Hc1.
  destruct (readClock3 s1) as [rc s2] eqn:Hc2.
  cbn [fst snd] in accessClock, refreshClock. subst accessClock refreshClock.
  unfold auth.GenerateTokenPair.
  rewrite GenerateAccessToken_signed, GenerateRefreshToken_signed.
  eexists. eexists. split; [reflexivity|].
  cbn [jwt.SignedString jwt.Sign jwt.Method jwt.NewWithClaims jwt.SigningMethodHS256 bind].
  unfold readClock3 in Hc1, Hc2. cbn [time_Now] in Hc1.
  injection Hc1 as <- <-. cbn [time_Now response log clock reads] in Hc2.
  injection Hc2 as <- <-.
  unfold utils.JSONSuccess, utils.JSONResponse, onResponse, http.statusCode.
  cbn [response reads]. unfold http.Write, http.WriteHeader, http.HeaderSet.
  cbn [http.sent http.header http.body]. rewrite Hfresh.
  cbn [http.sent http.header http.body option_map fst].
  split; [reflexivity|]. split; [reflexivity|].
  repeat rewrite Nat.add_succ_r. now rewrite Nat.add_0_r.
Qed.

End MoreLoginTheorems.

(* ================================================================== *)
(** * The path and the query of a request *)
(* ================================================================== *)

Section RequestFacts.

Lemma get_last (p : string) (c : ascii) :
  String.get (String.length (p ++ String c "") - 1) (p ++ String c "") = Some c.
Proof.
  induction p as [|x p IH]; [reflexivity|].
  cbn [append String.length]. rewrite Nat.sub_succ, Nat.sub_0_r.
  cbn [append String.length] in IH.
  destruct p as [|y p]; [reflexivity|].
  cbn [append String.length String.get] in *.
  rewrite Nat.sub_succ, Nat.sub_0_r in IH. exact IH.
Qed.

Lemma take_last (p : string) (c : ascii) :
  strings.take (String.length (p ++ String c "") - 1) (p ++ String c "") = p.
Proof.
  rewrite length_append. cbn [String.length].
  replace (String.length p + 1 - 1)%nat with (String.length p) by lia.
  apply take_append.
Qed.

Lemma string_last (s : string) :
  s = "" \/ exists p c, s = p ++ String c "".
Proof.
  induction s as [|x s IH]; [now left|]. right.
  destruct IH as [->|(p & c & ->)].
  - now exists "", x.
  - now exists (String x p), c.
Qed.

(** X21: [StripTrailingSlash] removes one trailing slash from a path of more than
    one byte and leaves every other path as it is: the root [/] stays, and of
    two trailing slashes one is left. *)
Theorem StripTrailingSlash_path (next : slash.PathHandler) (path : string) :
  (forall p, p <> "" -> path = p ++ "/" ->
     slash.StripTrailingSlash next path = next p)
  /\ ((String.length path <= 1)%nat \/ (forall p, path <> p ++ "/") ->
      slash.StripTrailingSlash next path = next path).
Proof.
  split.
  - intros p Hp ->. unfold slash.StripTrailingSlash.
    rewrite get_last, take_last, length_append. cbn [String.length Ascii.eqb Bool.eqb].
    destruct p as [|x p]; [now elim Hp|]. cbn [String.length].
    replace (1 <? S (String.length p) + 1)%nat with true
      by (symmetry; apply Nat.ltb_lt; lia).
    reflexivity.
  - intros Hkeep. unfold slash.StripTrailingSlash.
    destruct (Nat.ltb_spec 1 (String.length path)) as [Hl|Hl]; [|reflexivity].
    destruct Hkeep as [Hshort|Hno]; [lia|].
    destruct (string_last path) as [->|(p & c & ->)]; [reflexivity|].
    rewrite get_last.
    destruct (Ascii.eqb_spec c "/"%char) as [->|Hc]; [|reflexivity].
    now elim (Hno p).
Qed.

(** A parameter that is missing, empty or no number gives the default. *)
Lemma GetQueryParamInt_cases (query : url.Values) (key : string) (defaultValue : Z) :
  (isOk (strconv.Atoi (url.Get query key)) = false ->
   request.GetQueryParamInt query key defaultValue = defaultValue)
  /\ (forall n, strconv.Atoi (url.Get query key) = Ok n ->
        request.GetQueryParamInt query key defaultValue = n).
Proof.
  unfold request.GetQueryParamInt.
  destruct (String.eqb_spec (url.Get query key) "") as [He|He].
  - rewrite He. split; [reflexivity | discriminate].
  - destruct (strconv.Atoi (url.Get query key)) as [n|e]; split;
      try discriminate; try reflexivity.
    now intros m [= <-].
Qed.

(** X20: The pagination parameters are always within bounds: the page is at least
    1 and the limit between 1 and 100, whatever the query holds; a missing,
    empty or non-numeric parameter gives the default (page 1, limit 10), and
    so does a limit below 1, while a limit above 100 gives 100. *)
Theorem GetPaginationParams_bounds (query : url.Values) :
  let page := fst (request.GetPaginationParams query) in
  let limit := snd (request.GetPaginationParams query) in
  1 <= page /\ 1 <= limit <= 100
  /\ (isOk (strconv.Atoi (url.Get query "page")) = false -> page = 1)
  /\ (isOk (strconv.Atoi (url.Get query "limit")) = false -> limit = 10)
  /\ (forall n, strconv.Atoi (url.Get query "page") = Ok n -> page = Z.max 1 n)
  /\ (forall n, strconv.Atoi (url.Get query "limit") = Ok n ->
        limit = if n <? 1 then 10 else Z.min 100 n).
Proof.
  destruct (GetQueryParamInt_cases query "page" 1) as [Hpd Hpn].
  destruct (GetQueryParamInt_cases query "limit" 10) as [Hld Hln].
  unfold request.GetPaginationParams. cbv zeta.
  revert Hpd Hpn Hld Hln.
  generalize (request.GetQueryParamInt query "page" 1),
             (request.GetQueryParamInt query "limit" 10).
  intros p l Hpd Hpn Hld Hln. cbn [fst snd].
  split; [destruct (Z.ltb_spec p 1); lia|].
  split.
  { destruct (Z.ltb_spec l 1) as [Hl|Hl].
    - cbn. lia.
    - destruct (Z.ltb_spec 100 l); lia. }
  split; [intros Hbad; rewrite (Hpd Hbad); reflexivity|].
  split; [intros Hbad; rewrite (Hld Hbad); reflexivity|].
  split.
  - intros n Hn. rewrite (Hpn n Hn). destruct (Z.ltb_spec n 1); lia.
  - intros n Hn. rewrite (Hln n Hn). destruct (Z.ltb_spec n 1) as [Hl|Hl].
    + reflexivity.
    + destruct (Z.ltb_spec 100 n); lia.
Qed.

End RequestFacts.

(* ================================================================== *)
(** * Parsing user ids *)
(* ================================================================== *)

Section UUIDFacts.

Lemma UUID_ext (u v : uuid.UUID) : uuid.bytes u = uuid.bytes v -> u = v.
Proof.
  destruct u as [b Hb], v as [c Hc]. cbn [uuid.bytes]. intros ->.
  f_equal. apply (UIP_dec Nat.eq_dec).
Qed.

Lemma fromBytes_bytes (u : uuid.UUID) : uuidtext.fromBytes (uuid.bytes u) = Some u.
Proof.
  unfold uuidtext.fromBytes.
  destruct (Nat.eq_dec (String.length (uuid.bytes u)) 16) as [e|n].
  - f_equal. now apply UUID_ext.
  - elim n. apply uuid.bytes_len.
Qed.

Lemma xtob_hexDigit (c : ascii) :
  uuidtext.xtob (uuid.hexDigit (N_of_ascii c / 16)) (uuid.hexDigit (N_of_ascii c mod 16))
  = Some c.
Proof.
  destruct c as [b0 b1 b2 b3 b4 b5 b6 b7].
  destruct b0, b1, b2, b3, b4, b5, b6, b7; reflexivity.
Qed.

(** [Parse] reads back what [String] writes. *)
Lemma Parse_String (u : uuid.UUID) : uuidtext.Parse (uuid.String_ u) = Ok u.
Proof.
  pose proof (fromBytes_bytes u) as Hfrom.
  destruct u as [b Hb]. cbn [uuid.bytes] in Hfrom.
  do 17 (destruct b as [|? b]; try discriminate Hb).
  unfold uuid.String_. cbn [uuid.bytes strings.take strings.drop uuid.encodeHex append].
  unfold uuidtext.Parse. cbn [String.length Nat.eqb].
  unfold uuidtext.parseHyphenated, uuidtext.byteAt.
  cbn [String.get Ascii.eqb Bool.eqb negb orb].
  unfold uuidtext.decoded, uuidtext.hyphenated.
  cbn [uuidtext.decodeAt uuidtext.byteAt String.get].
  rewrite !xtob_hexDigit. now rewrite Hfrom.
Qed.

End UUIDFacts.

(* ================================================================== *)
(** * Registration and token refresh *)
(* ================================================================== *)

Section MoreHandlerTheorems.
Context `{json.Text} `{bcrypt.Cipher} `{time.Layout}.

(** The response of [JSONSuccess] on a writer that has sent nothing yet. *)
Lemma JSONSuccess_response (status : Z) (data : json.Value) (s : World) :
  http.sent (response s) = None ->
  http.statusCode (response (utils.JSONSuccess status data s)) = Some status
  /\ http.body (response (utils.JSONSuccess status data s))
     = http.body (response s)
       ++ json.Marshal (json.JObject [("data", data); ("success", json.JBool true)])
       ++ String "010"%char "".
Proof.
  intros Hs. unfold utils.JSONSuccess, utils.JSONResponse, onResponse, http.statusCode.
  cbn [response]. unfold http.Write, http.WriteHeader, http.HeaderSet.
  cbn [http.sent http.header http.body]. rewrite Hs.
  cbn [http.sent http.header http.body option_map fst]. split; reflexivity.
Qed.

Lemma response_readClock3 (s : World) : response (snd (readClock3 s)) = response s.
Proof. reflexivity. Qed.

(** Signing with an HMAC method does not fail. *)
Lemma GenerateTokenPair_Ok (j : auth.JWTManager) (accessClock refreshClock : auth.Clock3)
    (userID : uuid.UUID) (email : string) :
  exists accessToken refreshToken,
    auth.GenerateTokenPair j accessClock refreshClock userID email
    = Ok (accessToken, refreshToken).
Proof. eexists. eexists. reflexivity. Qed.

(** X14: The refresh token issued for a user, sent to [Refresh] inside its time
    window, is answered by what the user table says of that user id: a 200
    with a new token pair for the user found, issued from the next six
    readings of the clock, or a 401 "User not found" when the user is gone.
    The token itself stays valid: nothing is revoked. *)
Theorem Refresh_renews_token_pair (h : handlers.AuthHandler) (clock3 : auth.Clock3)
    (userID : uuid.UUID) :
  let j := handlers.jwtManager h in
  let claims := auth.refreshClaims j clock3 userID in
  let nbf := jwt.NewNumericDate (auth.nowNbf clock3) in
  let exp := jwt.NewNumericDate
               (time.Add (auth.nowExp clock3) (auth.refreshTokenDuration j)) in
  json.roundtrips auth.hs256Header ->
  json.roundtrips (jwt.toJSON claims) ->
  exists token,
    auth.GenerateRefreshToken j clock3 userID = Ok token
    /\ forall r s,
         let s2 := snd (time_Now (snd (time_Now s))) in
         let accessClock := fst (readClock3 s2) in
         let refreshClock := fst (readClock3 (snd (readClock3 s2))) in
         authhandler.refreshRequest r = Ok token ->
         nbf <= clock s (reads s) < exp ->
         clock s (S (reads s)) <= exp ->
         http.sent (response s) = None ->
         (forall user,
            repository.GetByID (repository.User (handlers.repo h)) userID
            = Ok (Some user) ->
            exists accessToken refreshToken,
              auth.GenerateTokenPair j accessClock refreshClock (models.ID user)
                (models.Email user) = Ok (accessToken, refreshToken)
              /\ http.statusCode (response (authhandler.Refresh h r s))
                 = Some http.StatusOK
              /\ http.body (response (authhandler.Refresh h r s))
                 = http.body (response s)
                   ++ json.Marshal
                        (json.JObject
                           [("data",
                             authhandler.authResponse user accessToken refreshToken);
                            ("success", json.JBool true)])
                   ++ String "010"%char "")
         /\ (repository.GetByID (repository.User (handlers.repo h)) userID = Ok None ->
             http.statusCode (response (authhandler.Refresh h r s))
             = Some http.StatusUnauthorized
             /\ http.body (response (authhandler.Refresh h r s))
                = http.body (response s)
                  ++ json.Marshal
                       (errorDocument http.StatusUnauthorized "User not found"
                          (clock s (S (S (reads s)))))
                  ++ String "010"%char "").
Proof.
  intros j claims nbf exp Hhdr Hdoc.
  pose proof (RegisteredClaims_fromJSON_toJSON claims
                (refreshClaims_whole j clock3 userID)) as Hdec.
  set (sstr := jwt.SigningString (jwt.NewWithClaims jwt.SigningMethodHS256 claims)).
  set (mac := hmac.Sum crypto.SHA256 (auth.secret j) sstr).
  set (token := sstr ++ "." ++ jwt.EncodeSegment mac).
  exists token. split.
  { rewrite GenerateRefreshToken_signed. fold claims. reflexivity. }
  intros r s s2 accessClock refreshClock Hreq Hnow Hcheck Hfresh.
  assert (Hne : token <> "").
  { destruct (bearerToken_signed (jwt.NewWithClaims jwt.SigningMethodHS256 claims)
                (auth.secret j) token eq_refl) as [_ Hx]. exact Hx. }
  assert (Hval : auth.ValidateRefreshToken j (clock s (reads s)) (clock s (S (reads s)))
                   token = Ok (uuid.String_ userID)).
  { unfold auth.ValidateRefreshToken.
    destruct (ParseWithClaims_signed crypto.SHA256 claims claims (auth.secret j) j
                (clock s (reads s)) Hhdr Hdoc Hdec) as [_ Hp].
    cbv zeta in Hp. fold jwt.SigningMethodHS256 sstr in Hp. fold mac token in Hp.
    rewrite Hp, Equal_refl.
    assert (Hv : jwt.Validate (clock s (reads s)) claims = Ok tt).
    { apply Validate_Ok. unfold claims.
      cbn [jwt.GetExpirationTime jwt.GetNotBefore jwt.RegisteredClaims_Claims
           auth.refreshClaims jwt.ExpiresAt jwt.NotBefore jwt.notExpired jwt.notEarly].
      fold nbf exp. lia. }
    rewrite Hv.
    cbn [jwt.Valid jwt.TokenClaims negb claims auth.refreshClaims jwt.Issuer
         jwt.ExpiresAt jwt.Subject].
    change (String.eqb auth.issuer "secure-task-api") with true. cbn [negb].
    fold exp. unfold time.After.
    destruct (Z.ltb_spec exp (clock s (S (reads s)))) as [Hx|_]; [lia|].
    assert (Hs : uuid.String_ userID <> "").
    { unfold uuid.String_. intros He.
      apply append_eq_nil in He as [_ He]. discriminate He. }
    apply String.eqb_neq in Hs. now rewrite Hs. }
  assert (Hrun : authhandler.Refresh h r s
            = match repository.GetByID (repository.User (handlers.repo h)) userID with
              | Err err =>
                  utils.InternalServerError "Failed to refresh token"
                    (emit logger.ErrorLevel (logger.WithError (handlers.log h) err)
                       "failed to fetch user during refresh" s2)
              | Ok None => utils.Unauthorized "User not found" s2
              | Ok (Some user) =>
                  match auth.GenerateTokenPair j accessClock refreshClock
                          (models.ID user) (models.Email user) with
                  | Err err =>
                      utils.InternalServerError "Failed to refresh token"
                        (emit logger.ErrorLevel (logger.WithError (handlers.log h) err)
                           "token generation failed during refresh"
                           (snd (readClock3 (snd (readClock3 s2)))))
                  | Ok (a, t) =>
                      utils.JSONSuccess http.StatusOK (authhandler.authResponse user a t)
                        (snd (readClock3 (snd (readClock3 s2))))
                  end
              end).
  { unfold authhandler.Refresh. fold (authhandler.refreshRequest r). rewrite Hreq.
    apply String.eqb_neq in Hne. rewrite Hne.
    cbn [time_Now response log clock reads]. fold j. rewrite Hval, Parse_String.
    destruct (repository.GetByID (repository.User (handlers.repo h)) userID)
      as [[user|]|e]; reflexivity. }
  split.
  - intros user Huser. rewrite Hrun, Huser.
    destruct (GenerateTokenPair_Ok j accessClock refreshClock (models.ID user)
                (models.Email user)) as (a & t & Hpair).
    exists a, t. rewrite Hpair. split; [reflexivity|].
    exact (JSONSuccess_response http.StatusOK (authhandler.authResponse user a t)
             (snd (readClock3 (snd (readClock3 s2)))) Hfresh).
  - intros Hgone. rewrite Hrun, Hgone. unfold utils.Unauthorized.
    exact (JSONError_response http.StatusUnauthorized "User not found" s2 Hfresh).
Qed.

(** [Refresh] answers a token its validator refuses with the 401 of the one
    message "Invalid or expired refresh token", whatever the error. *)
Lemma Refresh_invalid (h : handlers.AuthHandler) (r : http.Request) (s : World)
    (token : string) :
  authhandler.refreshRequest r = Ok token ->
  token <> "" ->
  isOk (auth.ValidateRefreshToken (handlers.jwtManager h) (clock s (reads s))
          (clock s (S (reads s))) token) = false ->
  http.sent (response s) = None ->
  http.statusCode (response (authhandler.Refresh h r s)) = Some http.StatusUnauthorized
  /\ exists t,
       http.body (response (authhandler.Refresh h r s))
       = http.body (response s)
         ++ json.Marshal
              (errorDocument http.StatusUnauthorized "Invalid or expired refresh token" t)
         ++ String "010"%char "".
Proof.
  intros Hreq Hne Hbad Hfresh.
  unfold authhandler.Refresh. fold (authhandler.refreshRequest r). rewrite Hreq.
  apply String.eqb_neq in Hne. rewrite Hne.
  cbn [time_Now response log clock reads].
  destruct (auth.ValidateRefreshToken _ _ _ token) as [sub|e]; [discriminate Hbad|].
  unfold utils.Unauthorized.
  match goal with
  | |- context [utils.JSONError _ _ ?w] =>
      destruct (JSONError_response http.StatusUnauthorized
                  "Invalid or expired refresh token" w) as [Hst Hbody];
        [now rewrite response_emit|]
  end.
  split; [exact Hst|]. rewrite response_emit in Hbody. eexists. exact Hbody.
Qed.

(** X2: An access token is never accepted as a refresh token: inside its time
    window its issuer and expiry pass and its subject is empty, outside the
    parser refuses it; and [Refresh], given an access token, answers with the
    401 "Invalid or expired refresh token". *)
Theorem access_token_refused_as_refresh_token (h : handlers.AuthHandler)
    (clock3 : auth.Clock3) (userID : uuid.UUID) (email : string) :
  let j := handlers.jwtManager h in
  let claims := auth.accessClaims j clock3 userID email in
  let nbf := jwt.NewNumericDate (auth.nowNbf clock3) in
  let exp := jwt.NewNumericDate
               (time.Add (auth.nowExp clock3) (auth.accessTokenDuration j)) in
  json.roundtrips auth.hs256Header ->
  json.roundtrips (jwt.toJSON claims) ->
  json.field jwt.RegisteredClaims_names "user_id" = None ->
  json.field jwt.RegisteredClaims_names "email" = None ->
  exists token,
    auth.GenerateAccessToken j clock3 userID email = Ok token
    /\ (forall now nowCheck,
          isOk (auth.ValidateRefreshToken j now nowCheck token) = false)
    /\ (forall now nowCheck,
          nbf <= now < exp -> nowCheck <= exp ->
          auth.ValidateRefreshToken j now nowCheck token
          = Err (errorString "token missing subject"))
    /\ (forall r s,
          authhandler.refreshRequest r = Ok token ->
          http.sent (response s) = None ->
          http.statusCode (response (authhandler.Refresh h r s))
          = Some http.StatusUnauthorized
          /\ exists t,
               http.body (response (authhandler.Refresh h r s))
               = http.body (response s)
                 ++ json.Marshal
                      (errorDocument http.StatusUnauthorized
                         "Invalid or expired refresh token" t)
                 ++ String "010"%char "").
Proof.
  intros j claims nbf exp Hhdr Hdoc Huid Hemail.
  pose proof (RegisteredClaims_fromJSON_access claims
                (accessClaims_whole j clock3 userID email) Huid Hemail) as Hdec.
  set (sstr := jwt.SigningString (jwt.NewWithClaims jwt.SigningMethodHS256 claims)).
  set (mac := hmac.Sum crypto.SHA256 (auth.secret j) sstr).
  set (token := sstr ++ "." ++ jwt.EncodeSegment mac).
  assert (Hparse : forall now,
    jwt.ParseWithClaims (C := jwt.RegisteredClaims) now token (auth.keyFunc j)
    = match jwt.Validate now (auth.RegisteredClaims claims) with
      | Ok _ =>
          Ok {| jwt.Raw := token;
                jwt.Method := jwt.SigningMethodHS256;
                jwt.Header := jwt.Header (jwt.NewWithClaims jwt.SigningMethodHS256 claims);
                jwt.TokenClaims := auth.RegisteredClaims claims;
                jwt.Signature := mac;
                jwt.Valid := true |}
      | Err e => Err (jwt.newError "" jwt.ErrTokenInvalidClaims (Some e))
      end).
  { intros now.
    destruct (ParseWithClaims_signed crypto.SHA256 claims (auth.RegisteredClaims claims)
                (auth.secret j) j now Hhdr Hdoc Hdec) as [_ Hp].
    cbv zeta in Hp. etransitivity; [exact Hp|]. now rewrite Equal_refl. }
  exists token. split.
  { rewrite GenerateAccessToken_signed. fold claims. reflexivity. }
  assert (Hcases : forall now nowCheck,
            auth.ValidateRefreshToken j now nowCheck token
            = match jwt.Validate now (auth.RegisteredClaims claims) with
              | Ok _ => if time.After nowCheck exp
                        then Err (errorString "refresh token has expired")
                        else Err (errorString "token missing subject")
              | Err e => Err (wrapError "failed to parse refresh token"
                                (jwt.newError "" jwt.ErrTokenInvalidClaims (Some e)))
              end).
  { intros now nowCheck. unfold auth.ValidateRefreshToken. rewrite Hparse.
    destruct (jwt.Validate now (auth.RegisteredClaims claims)) as [[]|e]; reflexivity. }
  assert (Hnever : forall now nowCheck,
            isOk (auth.ValidateRefreshToken j now nowCheck token) = false).
  { intros now nowCheck. rewrite Hcases.
    destruct (jwt.Validate now (auth.RegisteredClaims claims)) as [[]|e];
      [destruct (time.After nowCheck exp)|]; reflexivity. }
  split; [exact Hnever | split].
  - intros now nowCheck Hnow Hcheck. rewrite Hcases.
    assert (Hv : jwt.Validate now (auth.RegisteredClaims claims) = Ok tt).
    { apply Validate_Ok. unfold claims.
      cbn [jwt.GetExpirationTime jwt.GetNotBefore jwt.RegisteredClaims_Claims
           auth.accessClaims auth.RegisteredClaims jwt.ExpiresAt jwt.NotBefore
           jwt.notExpired jwt.notEarly].
      fold nbf exp. lia. }
    rewrite Hv. unfold time.After.
    destruct (Z.ltb_spec exp nowCheck) as [Hx|_]; [lia | reflexivity].
  - intros r s Hreq Hfresh.
    apply (Refresh_invalid h r s token Hreq); [|apply Hnever|exact Hfresh].
    destruct (bearerToken_signed (jwt.NewWithClaims jwt.SigningMethodHS256 claims)
                (auth.secret j) token eq_refl) as [_ Hx]. exact Hx.
Qed.

(** X16: Registration: an email that is taken is answered with the 400 "User
    with this email already exists" before anything is hashed, stored or
    signed: the run is the same whatever [Create], the random source and the
    manager are, and it logs nothing. *)
Theorem Register_refuses_duplicate (h h' : handlers.AuthHandler)
    (create create' : authhandler.Create) (entropy entropy' : result string)
    (r : http.Request) (s : World) (req : authhandler.RegisterRequest)
    (existing : models.User) :
  handlers.repo h' = handlers.repo h ->
  authhandler.registerRequest r = Ok req ->
  authhandler.RegisterEmail req <> "" ->
  authhandler.RegisterPassword req <> "" ->
  authhandler.RegisterName req <> "" ->
  repository.GetByEmail (repository.User (handlers.repo h))
    (authhandler.RegisterEmail req) = Ok (Some existing) ->
  authhandler.Register h create entropy r s
  = utils.BadRequest "User with this email already exists" s
  /\ authhandler.Register h' create' entropy' r s
     = authhandler.Register h create entropy r s
  /\ log (authhandler.Register h create entropy r s) = log s
  /\ (http.sent (response s) = None ->
      http.statusCode (response (authhandler.Register h create entropy r s))
      = Some http.StatusBadRequest
      /\ http.body (response (authhandler.Register h create entropy r s))
         = http.body (response s)
           ++ json.Marshal
                (errorDocument http.StatusBadRequest
                   "User with this email already exists" (clock s (reads s)))
           ++ String "010"%char "").
Proof.
  intros Hrepo Hreq He Hp Hn Hdup.
  assert (Hrun : forall g c e, handlers.repo g = handlers.repo h ->
            authhandler.Register g c e r s
            = utils.BadRequest "User with this email already exists" s).
  { intros g c e Hg. unfold authhandler.Register.
    fold (authhandler.registerRequest r). rewrite Hreq.
    apply String.eqb_neq in He, Hp, Hn. rewrite He, Hp, Hn. cbn [orb].
    rewrite Hg, Hdup. reflexivity. }
  rewrite !Hrun by (reflexivity || assumption).
  split; [reflexivity | split; [reflexivity | split; [reflexivity|]]].
  intros Hfresh. unfold utils.BadRequest.
  now apply JSONError_response.
Qed.

(** X15: Registration of a new email stores the bcrypt credential of the password,
    one that verifies the password, never the password itself, and answers
    with a 201 whose document holds the user as [Create] filled it in and
    the token pair issued for that user. *)
Theorem Register_creates_user (h : handlers.AuthHandler) (create : authhandler.Create)
    (unencodedSalt : string) (r : http.Request) (s s1 : World)
    (req : authhandler.RegisterRequest) (hashed : string) (user : models.User) :
  let submitted :=
    {| models.ID := authhandler.zeroUUID;
       models.Email := authhandler.RegisterEmail req;
       models.PasswordHash := hashed;
       models.Name := authhandler.RegisterName req;
       models.CreatedAt := authhandler.zeroTime;
       models.UpdatedAt := authhandler.zeroTime |} in
  let accessClock := fst (readClock3 s1) in
  let refreshClock := fst (readClock3 (snd (readClock3 s1))) in
  authhandler.registerRequest r = Ok req ->
  authhandler.RegisterEmail req <> "" ->
  authhandler.RegisterPassword req <> "" ->
  authhandler.RegisterName req <> "" ->
  repository.GetByEmail (repository.User (handlers.repo h))
    (authhandler.RegisterEmail req) = Ok None ->
  String.length unencodedSalt = 16%nat ->
  auth.HashPassword (Ok unencodedSalt) (authhandler.RegisterPassword req) = Ok hashed ->
  create submitted s = ((user, None), s1) ->
  http.sent (response s1) = None ->
  auth.CheckPassword (authhandler.RegisterPassword req) hashed = None
  /\ strings.HasPrefix hashed "$2a$10$" = true
  /\ String.length hashed = 60%nat
  /\ exists accessToken refreshToken,
       auth.GenerateTokenPair (handlers.jwtManager h) accessClock refreshClock
         (models.ID user) (models.Email user) = Ok (accessToken, refreshToken)
       /\ http.statusCode
            (response (authhandler.Register h create (Ok unencodedSalt) r s))
          = Some authhandler.StatusCreated
       /\ http.body (response (authhandler.Register h create (Ok unencodedSalt) r s))
          = http.body (response s1)
            ++ json.Marshal
                 (json.JObject
                    [("data", authhandler.authResponse user accessToken refreshToken);
                     ("success", json.JBool true)])
            ++ String "010"%char "".
Proof.
  intros submitted accessClock refreshClock Hreq He Hp Hn Hnew Hsalt Hhash Hcreate Hfresh.
  pose proof (length_base64Encode_salt unencodedSalt Hsalt) as Hs.
  destruct (HashPassword_Ok _ _ _ Hhash) as (u & d & [= <-] & Hlen & Hd & Hhashed).
  rewrite (Hash_credential _ d Hs) in Hhashed.
  split; [|split; [|split]].
  - rewrite Hhashed, <- (Hash_credential _ d Hs).
    apply (proj2 (CheckPassword_credential _ d _ Hs)).
    unfold bcrypt.digest. now rewrite Hd.
  - rewrite Hhashed. reflexivity.
  - rewrite Hhashed, !length_append, Hs, length_stored. reflexivity.
  - destruct (GenerateTokenPair_Ok (handlers.jwtManager h) accessClock refreshClock
                (models.ID user) (models.Email user)) as (a & t & Hpair).
    exists a, t. split; [exact Hpair|].
    assert (Hrun : authhandler.Register h create (Ok unencodedSalt) r s
              = utils.JSONSuccess authhandler.StatusCreated
                  (authhandler.authResponse user a t)
                  (snd (readClock3 (snd (readClock3 s1))))).
    { unfold authhandler.Register.
      fold (authhandler.registerRequest r). rewrite Hreq.
      apply String.eqb_neq in He, Hp, Hn. rewrite He, Hp, Hn. cbn [orb].
      rewrite Hnew, Hhash. fold submitted. rewrite Hcreate.
      subst accessClock refreshClock. unfold readClock3 in Hpair |- *.
      cbn [time_Now fst snd response log clock reads] in Hpair |- *.
      now rewrite Hpair. }
    rewrite Hrun.
    exact (JSONSuccess_response authhandler.StatusCreated
             (authhandler.authResponse user a t)
             (snd (readClock3 (snd (readClock3 s1)))) Hfresh).
Qed.

End MoreHandlerTheorems.

(* ================================================================== *)
(** * The task handlers behind the gate *)
(* ================================================================== *)

Section TaskTheorems.
Context `{json.Text} `{time.Layout}.

Lemma wrap_small (x : Z) : - 2 ^ 63 <= x < 2 ^ 63 -> taskhandler.wrap x = x.
Proof.
  intros Hx. unfold taskhandler.wrap.
  rewrite Z.mod_small by lia. lia.
Qed.

(** X18: A refresh token passes the gate with an empty user id; the task handlers
    behind the gate cannot read a user from it and answer with the 500
    "Invalid user context" without asking the repository. *)
Theorem refresh_token_reaches_no_task (j : auth.JWTManager) (clock3 : auth.Clock3)
    (userID : uuid.UUID) :
  let claims := auth.refreshClaims j clock3 userID in
  let nbf := jwt.NewNumericDate (auth.nowNbf clock3) in
  let exp := jwt.NewNumericDate
               (time.Add (auth.nowExp clock3) (auth.refreshTokenDuration j)) in
  json.roundtrips auth.hs256Header ->
  json.roundtrips (jwt.toJSON claims) ->
  exists token,
    auth.GenerateRefreshToken j clock3 userID = Ok token
    /\ forall lg (h h' : taskhandler.TaskHandler) query taskIDStr r s,
         let listed :=
           response (middleware.AuthMiddleware j lg (taskhandler.ListTasks h query) r s) in
         let deleted :=
           response (middleware.AuthMiddleware j lg (taskhandler.DeleteTask h taskIDStr)
                       r s) in
         http.Get (http.ReqHeader r) "Authorization" = "Bearer " ++ token ->
         nbf <= clock s (reads s) < exp ->
         http.sent (response s) = None ->
         taskhandler.log h' = taskhandler.log h ->
         http.statusCode listed = Some http.StatusInternalServerError
         /\ http.statusCode deleted = Some http.StatusInternalServerError
         /\ (exists t,
               http.body listed
               = http.body (response s)
                 ++ json.Marshal
                      (errorDocument http.StatusInternalServerError
                         "Invalid user context" t)
                 ++ String "010"%char ""
               /\ deleted = listed)
         /\ response (middleware.AuthMiddleware j lg (taskhandler.ListTasks h' query) r s)
            = listed
         /\ response (middleware.AuthMiddleware j lg (taskhandler.DeleteTask h' taskIDStr)
                        r s)
            = deleted.
Proof.
  intros claims nbf exp Hhdr Hdoc.
  set (accepted := {| auth.UserID := ""; auth.Email := "";
                      auth.RegisteredClaims := claims |}).
  destruct (ValidateToken_own_secret j claims accepted Hhdr Hdoc
              (Claims_fromJSON_registered claims (refreshClaims_whole j clock3 userID)))
    as (token & Hgen & Hval).
  exists token. split; [now rewrite GenerateRefreshToken_signed|].
  intros lg h h' query taskIDStr r s listed deleted Hh Hnow Hfresh Hlog.
  destruct (bearerToken_signed _ _ _ Hgen) as [Hb Hne].
  assert (Hok : auth.ValidateToken j (clock s (reads s)) token = Ok accepted).
  { rewrite Hval. unfold verdict.
    assert (Hv : jwt.Validate (clock s (reads s)) accepted = Ok tt).
    { apply Validate_Ok. unfold accepted, claims.
      cbn [jwt.GetExpirationTime jwt.GetNotBefore auth.Claims_Claims
           auth.RegisteredClaims auth.refreshClaims jwt.ExpiresAt jwt.NotBefore
           jwt.notExpired jwt.notEarly].
      fold nbf exp. lia. }
    now rewrite Hv. }
  set (s1 := snd (time_Now s)).
  set (refused := fun lg' : logger.Logger =>
         utils.InternalServerError "Invalid user context"
           (emit logger.ErrorLevel
              (logger.WithError lg' (uuidtext.invalidLengthError 0))
              "Invalid user ID in context" s1)).
  assert (Hlist : forall g, middleware.AuthMiddleware j lg (taskhandler.ListTasks g query) r s
                            = refused (taskhandler.log g)).
  { intros g. rewrite (AuthMiddleware_accepts j lg _ r s token accepted Hh Hb Hne Hok).
    reflexivity. }
  assert (Hdel : forall g, middleware.AuthMiddleware j lg (taskhandler.DeleteTask g taskIDStr)
                             r s = refused (taskhandler.log g)).
  { intros g. rewrite (AuthMiddleware_accepts j lg _ r s token accepted Hh Hb Hne Hok).
    reflexivity. }
  subst listed deleted. rewrite !Hlist, !Hdel, Hlog.
  unfold refused, utils.InternalServerError.
  match goal with
  | |- context [utils.JSONError _ _ ?w] =>
      destruct (JSONError_response http.StatusInternalServerError
                  "Invalid user context" w) as [Hst Hbody];
        [now rewrite response_emit|]
  end.
  rewrite response_emit in Hbody.
  split; [exact Hst|]. split; [exact Hst|].
  split; [eexists; split; [exact Hbody | reflexivity]|].
  split; reflexivity.
Qed.

(** X17: Tenant isolation at the gate: with the access token of a user, the
    handler behind the gate asks the repository to delete the task for that
    very user id, and no other: the response depends on the repository only
    through [Delete taskID userID].  It is a 204 without body when the
    repository deletes, a 500 when it fails. *)
Theorem DeleteTask_acts_for_token_user (j : auth.JWTManager) (clock3 : auth.Clock3)
    (userID : uuid.UUID) (email : string) (taskID : uuid.UUID) :
  let claims := auth.accessClaims j clock3 userID email in
  let nbf := jwt.NewNumericDate (auth.nowNbf clock3) in
  let exp := jwt.NewNumericDate
               (time.Add (auth.nowExp clock3) (auth.accessTokenDuration j)) in
  json.roundtrips auth.hs256Header ->
  json.roundtrips (jwt.toJSON claims) ->
  exists token,
    auth.GenerateAccessToken j clock3 userID email = Ok token
    /\ forall lg (h h' : taskhandler.TaskHandler) r s,
         let run := fun g =>
           response (middleware.AuthMiddleware j lg
                       (taskhandler.DeleteTask g (uuid.String_ taskID)) r s) in
         http.Get (http.ReqHeader r) "Authorization" = "Bearer " ++ token ->
         nbf <= clock s (reads s) < exp ->
         http.sent (response s) = None ->
         (taskhandler.Delete (taskhandler.repoTask h) taskID userID = None ->
          http.statusCode (run h) = Some taskhandler.StatusNoContent
          /\ http.body (run h) = http.body (response s))
         /\ (forall err,
               taskhandler.Delete (taskhandler.repoTask h) taskID userID = Some err ->
               http.statusCode (run h) = Some http.StatusInternalServerError
               /\ exists t,
                    http.body (run h)
                    = http.body (response s)
                      ++ json.Marshal
                           (errorDocument http.StatusInternalServerError
                              "Failed to delete task" t)
                      ++ String "010"%char "")
         /\ (taskhandler.log h' = taskhandler.log h ->
             taskhandler.Delete (taskhandler.repoTask h') taskID userID
             = taskhandler.Delete (taskhandler.repoTask h) taskID userID ->
             run h' = run h).
Proof.
  intros claims nbf exp Hhdr Hdoc.
  destruct (access_token_window j clock3 userID email Hhdr Hdoc) as (token & Hgen & Hwin).
  fold claims nbf exp in Hwin.
  exists token. split; [exact Hgen|].
  intros lg h h' r s run Hh Hnow Hfresh.
  rewrite GenerateAccessToken_signed in Hgen.
  destruct (bearerToken_signed _ _ _ Hgen) as [Hb Hne].
  pose proof (proj1 (Hwin _) Hnow) as Hok.
  set (s1 := snd (time_Now s)).
  assert (Hrun : forall g,
            middleware.AuthMiddleware j lg (taskhandler.DeleteTask g (uuid.String_ taskID))
              r s
            = match taskhandler.Delete (taskhandler.repoTask g) taskID userID with
              | Some err =>
                  utils.InternalServerError "Failed to delete task"
                    (emit logger.ErrorLevel (logger.WithError (taskhandler.log g) err)
                       "Failed to delete task" s1)
              | None => onResponse (http.WriteHeader taskhandler.StatusNoContent) s1
              end).
  { intros g. rewrite (AuthMiddleware_accepts j lg _ r s token claims Hh Hb Hne Hok).
    unfold taskhandler.DeleteTask.
    change (middleware.GetUserIDFromContext (http.Ctx (authenticated r claims)))
      with (Some (uuid.String_ userID)).
    rewrite !Parse_String. reflexivity. }
  subst run. cbv beta. split; [|split].
  - intros Hdel. rewrite Hrun, Hdel.
    unfold onResponse, http.statusCode, http.WriteHeader. cbn [response s1 time_Now snd].
    rewrite Hfresh. split; reflexivity.
  - intros err Hdel. rewrite Hrun, Hdel. unfold utils.InternalServerError.
    match goal with
    | |- context [utils.JSONError _ _ ?w] =>
        destruct (JSONError_response http.StatusInternalServerError
                    "Failed to delete task" w) as [Hst Hbody];
          [now rewrite response_emit|]
    end.
    rewrite response_emit in Hbody. split; [exact Hst|]. eexists. exact Hbody.
  - intros Hlog Hsame. rewrite !Hrun, Hlog, Hsame. reflexivity.
Qed.

(** X19: The list of tasks is asked for the user of the context with a page of
    at least 1 and a limit between 1 and 100, so the page count never
    divides by zero; for a total that the repository counts (not negative),
    the count of pages in the answer is the least number of pages of that
    limit that hold the total. *)
Theorem ListTasks_pagination (h : taskhandler.TaskHandler) (query : url.Values)
    (r : http.Request) (s : World) (userID : uuid.UUID)
    (tasks : option (list taskhandler.Task)) (total : Z) :
  let page := fst (request.GetPaginationParams query) in
  let limit := snd (request.GetPaginationParams query) in
  middleware.GetUserIDFromContext (http.Ctx r) = Some (uuid.String_ userID) ->
  taskhandler.GetAll (taskhandler.repoTask h) userID page limit = Ok (tasks, total) ->
  0 <= total < 2 ^ 63 - 100 ->
  http.sent (response s) = None ->
  exists totalPages,
    http.statusCode (response (taskhandler.ListTasks h query r s)) = Some http.StatusOK
    /\ http.body (response (taskhandler.ListTasks h query r s))
       = http.body (response s)
         ++ json.Marshal
              (json.JObject
                 [("data",
                   taskhandler.TaskListResponse_toJSON tasks
                     {| taskhandler.Page := page; taskhandler.Limit := limit;
                        taskhandler.Total := total;
                        taskhandler.TotalPages := totalPages |});
                  ("success", json.JBool true)])
         ++ String "010"%char ""
    /\ 1 <= page /\ 1 <= limit <= 100
    /\ (totalPages - 1) * limit < total <= totalPages * limit.
Proof.
  intros page limit Hctx Hall Htotal Hfresh.
  assert (Hbounds : 1 <= page /\ 1 <= limit <= 100).
  { subst page limit. unfold request.GetPaginationParams. cbv zeta.
    generalize (request.GetQueryParamInt query "page" 1),
               (request.GetQueryParamInt query "limit" 10).
    intros p l. cbn [fst snd].
    destruct (Z.ltb_spec p 1), (Z.ltb_spec l 1);
      repeat match goal with
             | |- context [?a <? ?b] => destruct (Z.ltb_spec a b)
             end. all: try lia. }
  exists (Z.quot (taskhandler.wrap (taskhandler.wrap (total + limit) - 1)) limit).
  assert (Hrun : taskhandler.ListTasks h query r s
            = utils.JSONSuccess http.StatusOK
                (taskhandler.TaskListResponse_toJSON tasks
                   {| taskhandler.Page := page; taskhandler.Limit := limit;
                      taskhandler.Total := total;
                      taskhandler.TotalPages :=
                        Z.quot (taskhandler.wrap (taskhandler.wrap (total + limit) - 1))
                          limit |}) s).
  { unfold taskhandler.ListTasks. rewrite Hctx, Parse_String.
    subst page limit.
    destruct (request.GetPaginationParams query) as [p l]. cbn [fst snd] in Hall |- *.
    now rewrite Hall. }
  rewrite Hrun.
  destruct (JSONSuccess_response http.StatusOK
              (taskhandler.TaskListResponse_toJSON tasks
                 {| taskhandler.Page := page; taskhandler.Limit := limit;
                    taskhandler.Total := total;
                    taskhandler.TotalPages :=
                      Z.quot (taskhandler.wrap (taskhandler.wrap (total + limit) - 1))
                        limit |}) s Hfresh) as [Hst Hbody].
  split; [exact Hst|]. split; [exact Hbody|]. split; [tauto|]. split; [tauto|].
  
  destruct Hbounds as [Hpage Hlimit].
  rewrite (wrap_small (total + limit)) by lia.
  rewrite wrap_small by lia.
  rewrite Z.quot_div_nonneg by lia.
  pose proof (Z.div_mod (total + limit - 1) limit ltac:(lia)) as Hdm.
  pose proof (Z.mod_pos_bound (total + limit - 1) limit ltac:(lia)) as Hmod.
  nia.
Qed.

End TaskTheorems.

(* ================================================================== *)
(** * The further properties at concrete inputs *)
(* ================================================================== *)

Section MoreAtConcreteInputs.
Local Existing Instance reference.text.
Local Existing Instance reference.layout.
Local Existing Instance reference.cipher.

Import fixtures.
Import scenarios.

Lemma hs256Header_roundtrips : json.roundtrips auth.hs256Header.
Proof. vm_compute. reflexivity. Qed.

Lemma accessClaims_roundtrips :
  json.roundtrips
    (jwt.toJSON (auth.accessClaims manager (auth.frozen issued) userID email)).
Proof. vm_compute. reflexivity. Qed.

Lemma refreshClaims_roundtrips :
  json.roundtrips (jwt.toJSON (auth.refreshClaims manager (auth.frozen issued) userID)).
Proof. vm_compute. reflexivity. Qed.

(** X1, a witness: the refresh token of the fixtures, a minute after it was
    issued. *)
Lemma refresh_token_window_witness :
  exists token,
    auth.GenerateRefreshToken manager (auth.frozen issued) userID = Ok token
    /\ auth.ValidateRefreshToken manager (issued + time.Minute) (issued + time.Minute) token
       = Ok (uuid.String_ userID).
Proof.
  destruct (refresh_token_window manager (auth.frozen issued) userID
              hs256Header_roundtrips refreshClaims_roundtrips)
    as (token & Hgen & Hin & _).
  exists token. split; [exact Hgen|].
  apply Hin; vm_compute; [split|]; discriminate || reflexivity.
Defined.

(** X2, a witness: the access token of the fixtures before the refresh
    validator. *)
Lemma access_token_refused_as_refresh_token_witness :
  exists token,
    auth.GenerateAccessToken manager (auth.frozen issued) userID email = Ok token
    /\ auth.ValidateRefreshToken manager (issued + time.Minute) (issued + time.Minute) token
       = Err (errorString "token missing subject").
Proof.
  destruct (access_token_refused_as_refresh_token (handler userRepo) (auth.frozen issued)
              userID email hs256Header_roundtrips accessClaims_roundtrips
              eq_refl eq_refl)
    as (token & Hgen & _ & Hin & _).
  exists token. split; [exact Hgen|].
  apply Hin; vm_compute; [split|]; discriminate || reflexivity.
Defined.

(** X4, a witness: the claims of the fixtures signed with HS512. *)
Lemma ValidateToken_accepts_HMAC_family_witness :
  exists token,
    jwt.SignedString
      (jwt.NewWithClaims jwt.SigningMethodHS512
         (auth.accessClaims manager (auth.frozen issued) userID email))
      (auth.secret manager) = Ok token
    /\ auth.ValidateToken manager (issued + time.Minute) token
       = Ok (auth.accessClaims manager (auth.frozen issued) userID email).
Proof.
  destruct (ValidateToken_accepts_HMAC_family manager crypto.SHA512
              (auth.accessClaims manager (auth.frozen issued) userID email)
              (issued + time.Minute))
    as (token & Hgen & Hiff & _).
  - vm_compute. reflexivity.
  - exact accessClaims_roundtrips.
  - apply accessClaims_whole.
  - exists token. split; [exact Hgen|].
    apply Hiff. split; vm_compute; [reflexivity | discriminate].
Defined.

(** X5, a witness: the claims of the fixtures under the method "none", with an
    empty signature. *)
Lemma validators_refuse_other_methods_witness :
  isOk (auth.ValidateToken manager (issued + time.Minute)
          (jwt.SigningString
             (jwt.NewWithClaims (jwt.SigningMethodOther "none")
                (auth.accessClaims manager (auth.frozen issued) userID email))
           ++ "." ++ ""))
  = false.
Proof.
  destruct (validators_refuse_other_methods manager "none"
              (auth.accessClaims manager (auth.frozen issued) userID email)
              (auth.refreshClaims manager (auth.frozen issued) userID) ""
              (issued + time.Minute) (issued + time.Minute)) as [Haccess _].
  - unfold jwt.otherMethods. cbn [In]. do 10 right. now left.
  - vm_compute. reflexivity.
  - exact accessClaims_roundtrips.
  - exact refreshClaims_roundtrips.
  - apply accessClaims_whole.
  - apply refreshClaims_whole.
  - reflexivity.
  - rewrite Haccess. reflexivity.
Defined.

(** X6, a witness: the access token of the fixtures with the bytes "forged" as
    its signature, an hour after its expiry. *)
Lemma ValidateToken_wrong_signature_witness :
  auth.ValidateToken manager (issued + time.Hour)
    (jwt.SigningString
       (jwt.NewWithClaims jwt.SigningMethodHS256
          (auth.accessClaims manager (auth.frozen issued) userID email))
     ++ "." ++ jwt.EncodeSegment "forged")
  = Err (jwt.newError "" jwt.ErrTokenSignatureInvalid (Some jwt.ErrSignatureInvalid)).
Proof.
  apply (ValidateToken_wrong_signature manager crypto.SHA256
           (auth.accessClaims manager (auth.frozen issued) userID email) "forged"
           (issued + time.Hour)).
  - exact hs256Header_roundtrips.
  - exact accessClaims_roundtrips.
  - apply accessClaims_whole.
  - vm_compute. discriminate.
Defined.

(** X9, a witness: the stored credential of the fixtures. *)
Lemma HashPassword_credential_format_witness :
  String.length storedHash = 60%nat
  /\ strings.HasPrefix storedHash "$2a$10$" = true
  /\ auth.CheckPassword password storedHash = None.
Proof.
  destruct (HashPassword_credential_format salt16 password storedHash eq_refl)
    as (d & _ & Hform & Hlen & _ & Hcheck).
  - vm_compute. reflexivity.
  - split; [exact Hlen|]. split; [|exact Hcheck].
    rewrite Hform. reflexivity.
Defined.

(** X11, a witness: a stored credential of 17 bytes. *)
Lemma CheckPassword_malformed_credential_witness :
  auth.CheckPassword password "not-a-bcrypt-hash" = Some passwordDoesNotMatch.
Proof.
  apply CheckPassword_malformed_credential. left. vm_compute. lia.
Defined.

(** X8, a witness: the access token of the fixtures at the gate, a second after
    it was issued, with a context that held another user id. *)
Lemma access_token_reaches_handler_witness :
  exists token r',
    auth.GenerateAccessToken manager (auth.frozen issued) userID email = Ok token
    /\ middleware.AuthMiddleware manager noLogger business
         {| http.ReqHeader := [("Authorization", ["Bearer " ++ token])];
            http.Body := ""; http.Ctx := [(middleware.userIDKey, "someone else")] |}
         {| response := http.newResponseWriter; log := [];
            clock := fun _ => issued + time.Second; reads := 0 |}
       = business r'
           (snd (time_Now
                   {| response := http.newResponseWriter; log := [];
                      clock := fun _ => issued + time.Second; reads := 0 |}))
    /\ middleware.GetUserIDFromContext (http.Ctx r') = Some (uuid.String_ userID)
    /\ middleware.GetEmailFromContext (http.Ctx r') = Some email.
Proof.
  destruct (access_token_reaches_handler manager (auth.frozen issued) userID email
              hs256Header_roundtrips accessClaims_roundtrips)
    as (token & Hgen & Hgate).
  destruct (Hgate noLogger business
              {| http.ReqHeader := [("Authorization", ["Bearer " ++ token])];
                 http.Body := ""; http.Ctx := [(middleware.userIDKey, "someone else")] |}
              {| response := http.newResponseWriter; log := [];
                 clock := fun _ => issued + time.Second; reads := 0 |} eq_refl)
    as [Hin _].
  destruct Hin as (r' & Hrun & Hid & Hmail & _).
  - vm_compute. split; [discriminate | reflexivity].
  - exists token, r'. repeat split; assumption.
Defined.

(** X13, a witness: a login request without a password. *)
Lemma Login_refuses_incomplete_request_witness :
  http.statusCode
    (response (handlers.Login (handler userRepo) (request [] incompleteLoginBody)
                 freshWorld))
  = Some http.StatusBadRequest
  /\ response (handlers.Login (handler emptyRepo) (request [] incompleteLoginBody)
                 freshWorld)
     = response (handlers.Login (handler userRepo) (request [] incompleteLoginBody)
                   freshWorld).
Proof.
  assert (Hreq : loginRequest (request [] incompleteLoginBody)
                 = Ok {| models.LoginEmail := email; models.LoginPassword := "" |})
    by (vm_compute; reflexivity).
  destruct (Login_refuses_incomplete_request manager manager noLogger userRepo emptyRepo
              (request [] incompleteLoginBody) freshWorld) as [Hsame Hshape].
  - intros req Hr. rewrite Hreq in Hr. injection Hr as <-. now right.
  - split; [exact (proj1 (Hshape eq_refl)) | symmetry; exact Hsame].
Defined.

(** X12, a witness: the login of the fixtures' user with the right password. *)
Lemma Login_issues_token_pair_witness :
  http.statusCode
    (response (handlers.Login (handler userRepo) (request [] rightLoginBody) freshWorld))
  = Some http.StatusOK
  /\ reads (handlers.Login (handler userRepo) (request [] rightLoginBody) freshWorld)
     = 6%nat.
Proof.
  assert (Hreq : loginRequest (request [] rightLoginBody)
                 = Ok {| models.LoginEmail := email; models.LoginPassword := password |})
    by (vm_compute; reflexivity).
  destruct (Login_issues_token_pair (handler userRepo) (request [] rightLoginBody)
              freshWorld _ user Hreq)
    as (a & t & _ & Hstatus & _ & Hreads).
  - vm_compute. discriminate.
  - vm_compute. discriminate.
  - reflexivity.
  - vm_compute. reflexivity.
  - reflexivity.
  - split; [exact Hstatus | exact Hreads].
Defined.

(** X14, a witness: the refresh token of the fixtures, sent to [Refresh] a second
    after it was issued. *)
Lemma Refresh_renews_token_pair_witness :
  http.statusCode
    (response (authhandler.Refresh (handler userRepo)
                 (request [] (refreshBody refreshToken)) freshWorld))
  = Some http.StatusOK
  /\ http.statusCode
       (response (authhandler.Refresh (handler emptyRepo)
                    (request [] (refreshBody refreshToken)) freshWorld))
     = Some http.StatusUnauthorized.
Proof.
  assert (Hreq : authhandler.refreshRequest (request [] (refreshBody refreshToken))
                 = Ok refreshToken) by (vm_compute; reflexivity).
  split.
  - destruct (Refresh_renews_token_pair (handler userRepo) (auth.frozen issued) userID
                hs256Header_roundtrips refreshClaims_roundtrips)
      as (token & Hgen & Hrun).
    cbn [handler handlers.jwtManager] in Hgen.
    rewrite refreshToken_generated in Hgen. injection Hgen as <-.
    destruct (Hrun (request [] (refreshBody refreshToken)) freshWorld Hreq) as [Hfound _].
    + vm_compute. split; [discriminate | reflexivity].
    + vm_compute. discriminate.
    + reflexivity.
    + destruct (Hfound user eq_refl) as (a & t & _ & Hstatus & _). exact Hstatus.
  - destruct (Refresh_renews_token_pair (handler emptyRepo) (auth.frozen issued) userID
                hs256Header_roundtrips refreshClaims_roundtrips)
      as (token & Hgen & Hrun).
    cbn [handler handlers.jwtManager] in Hgen.
    rewrite refreshToken_generated in Hgen. injection Hgen as <-.
    destruct (Hrun (request [] (refreshBody refreshToken)) freshWorld Hreq) as [_ Hgone].
    + vm_compute. split; [discriminate | reflexivity].
    + vm_compute. discriminate.
    + reflexivity.
    + exact (proj1 (Hgone eq_refl)).
Defined.

(** X16, a witness: the registration of the scenario against a user table that
    holds the email already. *)
Lemma Register_refuses_duplicate_witness :
  http.statusCode
    (response (authhandler.Register (handler userRepo) createUser (Ok salt16)
                 (request [] registerBody) freshWorld))
  = Some http.StatusBadRequest
  /\ log (authhandler.Register (handler userRepo) createUser (Ok salt16)
            (request [] registerBody) freshWorld) = [].
Proof.
  assert (Hreq : authhandler.registerRequest (request [] registerBody) = Ok newcomer)
    by (vm_compute; reflexivity).
  destruct (Register_refuses_duplicate (handler userRepo) (handler userRepo)
              createUser createUser (Ok salt16) (Ok salt16) (request [] registerBody)
              freshWorld newcomer user eq_refl Hreq)
    as (_ & _ & Hlog & Hshape).
  - vm_compute. discriminate.
  - vm_compute. discriminate.
  - vm_compute. discriminate.
  - reflexivity.
  - split; [exact (proj1 (Hshape eq_refl)) | exact Hlog].
Defined.

(** X15, a witness: the registration of the scenario against an empty user
    table. *)
Lemma Register_creates_user_witness :
  auth.CheckPassword "secret1" newcomerHash = None
  /\ http.statusCode
       (response (authhandler.Register (handler emptyRepo) createUser (Ok salt16)
                    (request [] registerBody) freshWorld))
     = Some authhandler.StatusCreated.
Proof.
  assert (Hreq : authhandler.registerRequest (request [] registerBody) = Ok newcomer)
    by (vm_compute; reflexivity).
  destruct (Register_creates_user (handler emptyRepo) createUser salt16
              (request [] registerBody) freshWorld (snd (time_Now freshWorld)) newcomer
              newcomerHash
              {| models.ID := userID; models.Email := email;
                 models.PasswordHash := newcomerHash; models.Name := "A";
                 models.CreatedAt := issued; models.UpdatedAt := issued |} Hreq)
    as (Hcheck & _ & _ & a & t & _ & Hstatus & _).
  - vm_compute. discriminate.
  - vm_compute. discriminate.
  - vm_compute. discriminate.
  - reflexivity.
  - reflexivity.
  - vm_compute. reflexivity.
  - reflexivity.
  - reflexivity.
  - split; [exact Hcheck | exact Hstatus].
Defined.

(** X18, a witness: the refresh token of the fixtures before the task handlers. *)
Lemma refresh_token_reaches_no_task_witness :
  http.statusCode
    (response (middleware.AuthMiddleware manager noLogger
                 (taskhandler.DeleteTask tasks (uuid.String_ taskID))
                 (authorization ("Bearer " ++ refreshToken))
                 {| response := http.newResponseWriter; log := [];
                    clock := fun _ => issued + time.Second; reads := 0 |}))
  = Some http.StatusInternalServerError.
Proof.
  destruct (refresh_token_reaches_no_task manager (auth.frozen issued) userID
              hs256Header_roundtrips refreshClaims_roundtrips)
    as (token & Hgen & Hrun).
  rewrite refreshToken_generated in Hgen. injection Hgen as <-.
  destruct (Hrun noLogger tasks tasks pageTwo (uuid.String_ taskID)
              (authorization ("Bearer " ++ refreshToken))
              {| response := http.newResponseWriter; log := [];
                 clock := fun _ => issued + time.Second; reads := 0 |} eq_refl)
    as (_ & Hdeleted & _).
  - vm_compute. split; [discriminate | reflexivity].
  - reflexivity.
  - reflexivity.
  - exact Hdeleted.
Defined.

(** X17, a witness: the access token of the fixtures deleting the user's task. *)
Lemma DeleteTask_acts_for_token_user_witness :
  http.statusCode
    (response (middleware.AuthMiddleware manager noLogger
                 (taskhandler.DeleteTask tasks (uuid.String_ taskID))
                 (authorization ("Bearer " ++ accessToken))
                 {| response := http.newResponseWriter; log := [];
                    clock := fun _ => issued + time.Second; reads := 0 |}))
  = Some taskhandler.StatusNoContent.
Proof.
  destruct (DeleteTask_acts_for_token_user manager (auth.frozen issued) userID email
              taskID hs256Header_roundtrips accessClaims_roundtrips)
    as (token & Hgen & Hrun).
  rewrite accessToken_generated in Hgen. injection Hgen as <-.
  destruct (Hrun noLogger tasks tasks
              (authorization ("Bearer " ++ accessToken))
              {| response := http.newResponseWriter; log := [];
                 clock := fun _ => issued + time.Second; reads := 0 |} eq_refl)
    as (Hdone & _).
  - vm_compute. split; [discriminate | reflexivity].
  - reflexivity.
  - exact (proj1 (Hdone eq_refl)).
Defined.

(** X19, a witness: the second page of ten of the 25 tasks of the user. *)
Lemma ListTasks_pagination_witness :
  exists totalPages,
    http.statusCode
      (response (taskhandler.ListTasks tasks pageTwo authenticatedRequest freshWorld))
    = Some http.StatusOK
    /\ (totalPages - 1) * 10 < 25 <= totalPages * 10.
Proof.
  destruct (ListTasks_pagination tasks pageTwo authenticatedRequest freshWorld userID
              None 25 eq_refl)
    as (totalPages & Hstatus & _ & _ & _ & Hpages).
  - reflexivity.
  - vm_compute. split; [discriminate | reflexivity].
  - reflexivity.
  - exists totalPages. split; [exact Hstatus | exact Hpages].
Defined.

End MoreAtConcreteInputs.

(* ================================================================== *)
(** * What is logged, and how the handlers compose *)
(* ================================================================== *)

Section LoggingTheorems.
Context `{json.Text} `{bcrypt.Cipher} `{time.Layout}.

Lemma log_JSONError (status : Z) (message : string) (s : World) :
  log (utils.JSONError status message s) = log s
  /\ reads (utils.JSONError status message s) = S (reads s).
Proof. split; reflexivity. Qed.

Lemma log_emit (lvl : logger.Level) (l : logger.Logger) (msg : string) (s : World) :
  log (emit lvl l msg s)
  = if logger.enabled l lvl
    then (log s ++ [{| logger.entryTime := clock s (reads s); logger.level := lvl;
                       logger.message := msg;
                       logger.errorField := logger.withError l |}])%list
    else log s.
Proof. unfold emit. destruct (logger.enabled l lvl); reflexivity. Qed.


(** X23: the two login failures that the response does not tell apart
    differ in the log: an unknown email is answered without an entry, a wrong
    password leaves, when the logger lets warnings through, the entry
    "password verification failed" with the one error of [CheckPassword], and
    takes one more reading of the clock. *)
Theorem Login_logs_only_mismatch (h : handlers.AuthHandler) (r : http.Request)
    (s : World) (req : models.LoginRequest) :
  loginRequest r = Ok req ->
  models.LoginEmail req <> "" -> models.LoginPassword req <> "" ->
  (repository.GetByEmail (repository.User (handlers.repo h)) (models.LoginEmail req)
   = Ok None ->
   log (handlers.Login h r s) = log s /\ reads (handlers.Login h r s) = S (reads s))
  /\ (forall user,
        repository.GetByEmail (repository.User (handlers.repo h)) (models.LoginEmail req)
        = Ok (Some user) ->
        auth.CheckPassword (models.LoginPassword req) (models.PasswordHash user) <> None ->
        log (handlers.Login h r s)
        = (if logger.enabled (handlers.log h) logger.WarnLevel
           then (log s ++ [{| logger.entryTime := clock s (reads s);
                              logger.level := logger.WarnLevel;
                              logger.message := "password verification failed";
                              logger.errorField := Some passwordDoesNotMatch |}])%list
           else log s)
        /\ reads (handlers.Login h r s)
           = (if logger.enabled (handlers.log h) logger.WarnLevel
              then S (S (reads s)) else S (reads s))).
Proof.
  intros Hreq He Hp.
  unfold handlers.Login. fold (loginRequest r). rewrite Hreq.
  apply String.eqb_neq in He, Hp. rewrite He, Hp. cbn [orb]. split.
  - intros ->. split; reflexivity.
  - intros user -> Hbad.
    destruct (CheckPassword_two_values (models.LoginPassword req)
                (models.PasswordHash user)) as [Hok|Herr]; [now elim Hbad|].
    rewrite Herr. unfold utils.Unauthorized.
    destruct (log_JSONError http.StatusUnauthorized "Invalid email or password"
                (emit logger.WarnLevel
                   (logger.WithError (handlers.log h) passwordDoesNotMatch)
                   "password verification failed" s)) as [Hlog Hreads].
    rewrite Hlog, Hreads, log_emit, reads_emit.
    cbn [logger.enabled logger.WithError logger.withError].
    destruct (logger.enabled (handlers.log h) logger.WarnLevel); split; reflexivity.
Qed.

(** What [Login] does once the password has verified. *)
Lemma Login_verified (h : handlers.AuthHandler) (r : http.Request) (s : World)
    (req : models.LoginRequest) (user : models.User) :
  loginRequest r = Ok req ->
  models.LoginEmail req <> "" -> models.LoginPassword req <> "" ->
  repository.GetByEmail (repository.User (handlers.repo h)) (models.LoginEmail req)
  = Ok (Some user) ->
  auth.CheckPassword (models.LoginPassword req) (models.PasswordHash user) = None ->
  exists accessToken refreshToken,
    auth.GenerateTokenPair (handlers.jwtManager h) (fst (readClock3 s))
      (fst (readClock3 (snd (readClock3 s)))) (models.ID user) (models.Email user)
    = Ok (accessToken, refreshToken)
    /\ handlers.Login h r s
       = utils.JSONSuccess http.StatusOK
           (authhandler.authResponse user accessToken refreshToken)
           (snd (readClock3 (snd (readClock3 s)))).
Proof.
  intros Hreq He Hp Huser Hcheck.
  destruct (GenerateTokenPair_Ok (handlers.jwtManager h) (fst (readClock3 s))
              (fst (readClock3 (snd (readClock3 s)))) (models.ID user)
              (models.Email user)) as (a & t & Hpair).
  exists a, t. split; [exact Hpair|].
  unfold handlers.Login. fold (loginRequest r). rewrite Hreq.
  apply String.eqb_neq in He, Hp. rewrite He, Hp. cbn [orb].
  rewrite Huser, Hcheck.
  unfold readClock3 in Hpair |- *.
  cbn [time_Now fst snd response log clock reads] in Hpair |- *.
  now rewrite Hpair.
Qed.

(** X24: registration and login compose: against a user whose stored
    credential is the one [HashPassword] made of a password, a login with
    that password is answered with a 200, and a login with a password of
    another bcrypt digest with the 401 "Invalid email or password". *)
Theorem registered_password_logs_in (h : handlers.AuthHandler)
    (unencodedSalt password hashed : string) (r : http.Request) (s : World)
    (req : models.LoginRequest) (user : models.User) :
  let salt := bcrypt.base64Encode unencodedSalt in
  String.length unencodedSalt = 16%nat ->
  auth.HashPassword (Ok unencodedSalt) password = Ok hashed ->
  models.PasswordHash user = hashed ->
  loginRequest r = Ok req ->
  models.LoginEmail req <> "" -> models.LoginPassword req <> "" ->
  repository.GetByEmail (repository.User (handlers.repo h)) (models.LoginEmail req)
  = Ok (Some user) ->
  http.sent (response s) = None ->
  (models.LoginPassword req = password ->
   http.statusCode (response (handlers.Login h r s)) = Some http.StatusOK)
  /\ (bcrypt.digest (models.LoginPassword req) bcrypt.DefaultCost salt
        <> bcrypt.digest password bcrypt.DefaultCost salt ->
      http.statusCode (response (handlers.Login h r s)) = Some http.StatusUnauthorized
      /\ exists t,
           http.body (response (handlers.Login h r s))
           = http.body (response s)
             ++ json.Marshal
                  (errorDocument http.StatusUnauthorized "Invalid email or password" t)
             ++ String "010"%char "").
Proof.
  intros salt Hsalt Hhash Hstored Hreq He Hp Huser Hfresh.
  pose proof (length_base64Encode_salt unencodedSalt Hsalt) as Hs. fold salt in Hs.
  destruct (HashPassword_Ok _ _ _ Hhash) as (u & d & [= <-] & Hlen & Hd & Hhashed).
  fold salt in Hd, Hhashed.
  assert (Hdig : bcrypt.digest password bcrypt.DefaultCost salt = Some (bcrypt.stored d)).
  { unfold bcrypt.digest. now rewrite Hd. }
  assert (Hchk : forall p,
            auth.CheckPassword p hashed = None
            <-> bcrypt.digest p bcrypt.DefaultCost salt
                = bcrypt.digest password bcrypt.DefaultCost salt).
  { intros p. rewrite Hdig, Hhashed. now apply CheckPassword_credential. }
  split.
  - intros Hpw.
    assert (Hcheck : auth.CheckPassword (models.LoginPassword req)
                       (models.PasswordHash user) = None).
    { rewrite Hstored, Hpw. now apply Hchk. }
    destruct (Login_verified h r s req user Hreq He Hp Huser Hcheck)
      as (a & t & _ & Hrun).
    rewrite Hrun.
    exact (proj1 (JSONSuccess_response http.StatusOK
                    (authhandler.authResponse user a t)
                    (snd (readClock3 (snd (readClock3 s)))) Hfresh)).
  - intros Hne.
    assert (Hbad : auth.CheckPassword (models.LoginPassword req)
                     (models.PasswordHash user) = Some passwordDoesNotMatch).
    { destruct (CheckPassword_two_values (models.LoginPassword req)
                  (models.PasswordHash user)) as [Hok|Herr]; [|exact Herr].
      rewrite Hstored in Hok. apply Hchk in Hok. now elim Hne. }
    unfold handlers.Login. fold (loginRequest r). rewrite Hreq.
    apply String.eqb_neq in He, Hp. rewrite He, Hp. cbn [orb].
    rewrite Huser, Hbad. unfold utils.Unauthorized.
    match goal with
    | |- context [utils.JSONError _ _ ?w] =>
        destruct (JSONError_response http.StatusUnauthorized
                    "Invalid email or password" w) as [Hst Hbody];
          [now rewrite response_emit|]
    end.
    rewrite response_emit in Hbody. split; [exact Hst|]. eexists. exact Hbody.
Qed.

(** X25: login and validation compose: the access token in the answer of a
    successful login validates, from the not-before to just before the expiry
    of its claims, to claims that name the id and the email of the user who
    logged in and the issuer of this deployment. *)
Theorem Login_token_validates (h : handlers.AuthHandler) (r : http.Request)
    (s : World) (req : models.LoginRequest) (user : models.User) :
  let j := handlers.jwtManager h in
  let accessClock := fst (readClock3 s) in
  let claims := auth.accessClaims j accessClock (models.ID user) (models.Email user) in
  let nbf := jwt.NewNumericDate (auth.nowNbf accessClock) in
  let exp := jwt.NewNumericDate
               (time.Add (auth.nowExp accessClock) (auth.accessTokenDuration j)) in
  loginRequest r = Ok req ->
  models.LoginEmail req <> "" -> models.LoginPassword req <> "" ->
  repository.GetByEmail (repository.User (handlers.repo h)) (models.LoginEmail req)
  = Ok (Some user) ->
  auth.CheckPassword (models.LoginPassword req) (models.PasswordHash user) = None ->
  http.sent (response s) = None ->
  json.roundtrips auth.hs256Header ->
  json.roundtrips (jwt.toJSON claims) ->
  exists accessToken refreshToken,
    http.body (response (handlers.Login h r s))
    = http.body (response s)
      ++ json.Marshal
           (json.JObject
              [("data", authhandler.authResponse user accessToken refreshToken);
               ("success", json.JBool true)])
      ++ String "010"%char ""
    /\ auth.nowExp accessClock = clock s (reads s)
    /\ auth.nowNbf accessClock = clock s (S (S (reads s)))
    /\ forall now,
         nbf <= now < exp ->
         exists accepted,
           auth.ValidateToken j now accessToken = Ok accepted
           /\ auth.UserID accepted = uuid.String_ (models.ID user)
           /\ auth.Email accepted = models.Email user
           /\ jwt.Issuer (auth.RegisteredClaims accepted) = "secure-task-api".
Proof.
  intros j accessClock claims nbf exp Hreq He Hp Huser Hcheck Hfresh Hhdr Hdoc.
  destruct (Login_verified h r s req user Hreq He Hp Huser Hcheck)
    as (a & t & Hpair & Hrun).
  fold j accessClock in Hpair.
  destruct (access_token_window j accessClock (models.ID user) (models.Email user)
              Hhdr Hdoc) as (token & Hgen & Hwin).
  fold claims nbf exp in Hwin.
  assert (Ha : a = token).
  { unfold auth.GenerateTokenPair in Hpair. rewrite Hgen in Hpair.
    destruct (auth.GenerateRefreshToken j _ (models.ID user)); [|discriminate Hpair].
    now injection Hpair as <- _. }
  subst a. exists token, t. rewrite Hrun.
  split; [|split; [reflexivity | split; [reflexivity|]]].
  - exact (proj2 (JSONSuccess_response http.StatusOK
                    (authhandler.authResponse user token t)
                    (snd (readClock3 (snd (readClock3 s)))) Hfresh)).
  - intros now Hnow. exists claims.
    split; [exact (proj1 (Hwin now) Hnow)|]. repeat split; reflexivity.
Qed.

End LoggingTheorems.

Section LoggingAtConcreteInputs.
Local Existing Instance reference.text.
Local Existing Instance reference.layout.
Local Existing Instance reference.cipher.

Import fixtures.
Import scenarios.

(** X23, a witness: the login with a wrong password, against the user table
    with the user and against the empty one. *)
Lemma Login_logs_only_mismatch_witness :
  log (handlers.Login (handler emptyRepo) (request [] loginBody) freshWorld) = []
  /\ log (handlers.Login (handler userRepo) (request [] loginBody) freshWorld)
     = [{| logger.entryTime := issued; logger.level := logger.WarnLevel;
           logger.message := "password verification failed";
           logger.errorField := Some passwordDoesNotMatch |}].
Proof.
  assert (Hreq : loginRequest (request [] loginBody)
                 = Ok {| models.LoginEmail := email; models.LoginPassword := "wrong" |})
    by (vm_compute; reflexivity).
  split.
  - destruct (Login_logs_only_mismatch (handler emptyRepo) (request [] loginBody)
                freshWorld _ Hreq) as [Hnone _].
    + vm_compute. discriminate.
    + vm_compute. discriminate.
    + exact (proj1 (Hnone eq_refl)).
  - destruct (Login_logs_only_mismatch (handler userRepo) (request [] loginBody)
                freshWorld _ Hreq) as [_ Hsome].
    + vm_compute. discriminate.
    + vm_compute. discriminate.
    + destruct (Hsome user eq_refl) as [Hlog _].
      * vm_compute. discriminate.
      * exact Hlog.
Defined.

(** X24, a witness: the user of the fixtures logs in with the password the
    stored credential was made of. *)
Lemma registered_password_logs_in_witness :
  http.statusCode
    (response (handlers.Login (handler userRepo) (request [] rightLoginBody) freshWorld))
  = Some http.StatusOK.
Proof.
  assert (Hreq : loginRequest (request [] rightLoginBody)
                 = Ok {| models.LoginEmail := email; models.LoginPassword := password |})
    by (vm_compute; reflexivity).
  destruct (registered_password_logs_in (handler userRepo) salt16 password storedHash
              (request [] rightLoginBody) freshWorld
              {| models.LoginEmail := email; models.LoginPassword := password |}
              user eq_refl) as [Hright _].
  - vm_compute. reflexivity.
  - reflexivity.
  - exact Hreq.
  - vm_compute. discriminate.
  - vm_compute. discriminate.
  - reflexivity.
  - reflexivity.
  - exact (Hright eq_refl).
Defined.

(** X25, a witness: the access token of that login, a second later. *)
Lemma Login_token_validates_witness :
  exists accessToken refreshToken accepted,
    http.body
      (response (handlers.Login (handler userRepo) (request [] rightLoginBody)
                   freshWorld))
    = json.Marshal
        (json.JObject
           [("data", authhandler.authResponse user accessToken refreshToken);
            ("success", json.JBool true)])
      ++ String "010"%char ""
    /\ auth.ValidateToken manager (issued + time.Second) accessToken = Ok accepted
    /\ auth.Email accepted = email.
Proof.
  assert (Hreq : loginRequest (request [] rightLoginBody)
                 = Ok {| models.LoginEmail := email; models.LoginPassword := password |})
    by (vm_compute; reflexivity).
  destruct (Login_token_validates (handler userRepo) (request [] rightLoginBody)
              freshWorld _ user Hreq)
    as (a & t & Hbody & _ & _ & Hvalid).
  - vm_compute. discriminate.
  - vm_compute. discriminate.
  - reflexivity.
  - vm_compute. reflexivity.
  - reflexivity.
  - vm_compute. reflexivity.
  - vm_compute. reflexivity.
  - destruct (Hvalid (issued + time.Second)) as (accepted & Hok & _ & Hmail & _).
    + vm_compute. split; [discriminate | reflexivity].
    + exists a, t, accepted. split; [exact Hbody | split; [exact Hok | exact Hmail]].
Defined.

End LoggingAtConcreteInputs.
